(** * Binance futures bearish tracker: tracked-symbol state machine and
      reversal-probability scoring

    A shallow embedding of
      - [src/indicators/technical.ts]  (indicator arrays),
      - [src/indicators/analyzer.ts]   ([analyzeSymbol], [analyzeSymbols]),
      - [src/index.ts]                 ([startMonitoring], one run),
      - [src/backtest/index.ts]        ([processDay]),
    followed by the properties of the tracked-symbol state machine and of
    the scoring function.

    Conventions of the embedding.
      - JavaScript numbers are modelled by [number]: an exact rational, the
        two infinities, or NaN.  Finite arithmetic is exact (no rounding,
        no overflow) and the sign of zero is not tracked; NaN and the
        infinities arise and propagate as in IEEE 754 (division by zero,
        NaN padding of the indicator arrays, comparisons with NaN being
        false).
      - The [Map] of tracked symbols is a [gmap]; an object of the map that
        the source mutates in place is written back under its key.  A [Map]
        iterates in insertion order and a [gmap] in an order of its own:
        the loops below visit the same entries, each once.
      - The exchange is a function from the symbol to what [fetchCandles]
        does for it, and the clock is read once per loop.
      - A thrown exception is [None] (or [FetchThrows]); the warnings of
        [analyzeSymbols] are returned next to its result.  Informational
        log lines, the sorting of the alert queues and their delivery by
        [notify] are not modelled. *)

From Stdlib Require Import ZArith QArith Qcanon Bool List String Lia.
From stdpp Require Import gmap strings list fin_maps.

Local Open Scope Z_scope.

(* ===================================================================== *)
(** ** JavaScript numbers *)
(* ===================================================================== *)

Module JS.

Inductive number : Type :=
| Fin (q : Qc)
| PInf
| NInf
| NaN.

Definition ofZ (z : Z) : number := Fin (Q2Qc (inject_Z z)).
Definition ofQ (q : Q) : number := Fin (Q2Qc q).

Definition Qc_ltb (x y : Qc) : bool :=
  match Qccompare x y with Lt => true | _ => false end.
Definition Qc_leb (x y : Qc) : bool :=
  match Qccompare x y with Gt => false | _ => true end.
Definition Qc_eqb (x y : Qc) : bool :=
  match Qccompare x y with Eq => true | _ => false end.

Definition zeroQc : Qc := Q2Qc 0.

(** Unary minus. *)
Definition neg (a : number) : number :=
  match a with
  | Fin x => Fin (Qcopp x)
  | PInf => NInf
  | NInf => PInf
  | NaN => NaN
  end.

(** [a + b] *)
Definition add (a b : number) : number :=
  match a, b with
  | NaN, _ | _, NaN => NaN
  | Fin x, Fin y => Fin (Qcplus x y)
  | PInf, NInf | NInf, PInf => NaN
  | PInf, _ | _, PInf => PInf
  | NInf, _ | _, NInf => NInf
  end.

(** [a - b] *)
Definition sub (a b : number) : number := add a (neg b).

(** The infinity carrying the sign of a non-zero rational. *)
Definition signedInf (x : Qc) : number :=
  if Qc_ltb zeroQc x then PInf
  else if Qc_ltb x zeroQc then NInf
  else NaN.

(** [a * b]; zero times an infinity is NaN. *)
Definition mul (a b : number) : number :=
  match a, b with
  | NaN, _ | _, NaN => NaN
  | Fin x, Fin y => Fin (Qcmult x y)
  | Fin x, PInf | PInf, Fin x => signedInf x
  | Fin x, NInf | NInf, Fin x => signedInf (Qcopp x)
  | PInf, PInf | NInf, NInf => PInf
  | PInf, NInf | NInf, PInf => NInf
  end.

(** [a / b]; a finite non-zero number over zero is an infinity, zero over
    zero and infinity over infinity are NaN. *)
Definition div (a b : number) : number :=
  match a, b with
  | NaN, _ | _, NaN => NaN
  | Fin x, Fin y =>
      if Qc_eqb y zeroQc then signedInf x else Fin (Qcdiv x y)
  | Fin _, PInf | Fin _, NInf => Fin zeroQc
  | PInf, Fin y => if Qc_ltb y zeroQc then NInf else PInf
  | NInf, Fin y => if Qc_ltb y zeroQc then PInf else NInf
  | PInf, PInf | PInf, NInf | NInf, PInf | NInf, NInf => NaN
  end.

(** [a < b]; false as soon as one side is NaN. *)
Definition lt (a b : number) : bool :=
  match a, b with
  | NaN, _ | _, NaN => false
  | Fin x, Fin y => Qc_ltb x y
  | NInf, Fin _ | NInf, PInf | Fin _, PInf => true
  | _, _ => false
  end.

(** [a <= b] *)
Definition le (a b : number) : bool :=
  match a, b with
  | NaN, _ | _, NaN => false
  | Fin x, Fin y => Qc_leb x y
  | NInf, _ | _, PInf => true
  | _, _ => false
  end.

(** [a > b] and [a >= b] *)
Definition gt (a b : number) : bool := lt b a.
Definition ge (a b : number) : bool := le b a.

(** [a === b] on numbers. *)
Definition strictEq (a b : number) : bool :=
  match a, b with
  | Fin x, Fin y => Qc_eqb x y
  | PInf, PInf | NInf, NInf => true
  | _, _ => false
  end.

(** [isNaN(a)] *)
Definition isNaN (a : number) : bool :=
  match a with NaN => true | _ => false end.

(** [Math.min(a, b)]: NaN if either argument is NaN. *)
Definition Math_min (a b : number) : number :=
  match a, b with
  | NaN, _ | _, NaN => NaN
  | _, _ => if lt b a then b else a
  end.

(** [Math.pow(a, 2)] *)
Definition Math_pow2 (a : number) : number := mul a a.

(** Reading a [number[]] at an index and using the value as a number:
    an index outside the array yields [undefined], which is NaN in every
    arithmetic operation and comparison. *)
Definition at_ (l : list number) (i : Z) : number :=
  if i <? 0 then NaN
  else match l !! Z.to_nat i with Some x => x | None => NaN end.

(** The same for an array that may hold [null] (modelled by [None]):
    [null] converts to 0. *)
Definition atNullable (l : list (option number)) (i : Z) : number :=
  if i <? 0 then NaN
  else match l !! Z.to_nat i with
       | Some (Some x) => x
       | Some None => Fin zeroQc
       | None => NaN
       end.

(** [Array(n).fill(x)] *)
Definition fill {A} (n : Z) (x : A) : list A := replicate (Z.to_nat n) x.

(** [xs.reduce((a, b) => a + b, 0)] *)
Definition sum (xs : list number) : number :=
  fold_left add xs (Fin zeroQc).

(** [xs.slice(from, to)] for [0 <= from]. *)
Definition slice {A} (xs : list A) (from to : Z) : list A :=
  take (Z.to_nat (to - from)) (drop (Z.to_nat from) xs).

(** [xs.length] *)
Definition len {A} (xs : list A) : Z := Z.of_nat (length xs).

End JS.

(* ===================================================================== *)
(** ** Data model ([src/models/types.ts]) *)
(* ===================================================================== *)

(** K-line data. *)
Record Candle : Type := mkCandle {
  open : JS.number;
  high : JS.number;
  low : JS.number;
  close : JS.number;
  volume : JS.number;
  closeTime : JS.number
}.

(** Gainer-list entry. *)
Record GainerInfo : Type := mkGainerInfo {
  g_symbol : string;
  g_priceChange : JS.number;
  g_priceChangePercent : JS.number;
  g_lastPrice : JS.number;
  g_volume : JS.number;
  g_quoteVolume : JS.number
}.

(** The argument type of [analyzeSymbols]:
    [GainerInfo | { symbol: string; lastPrice: number }]; only these two
    fields are read. *)
Record SymbolInfo : Type := mkSymbolInfo {
  si_symbol : string;
  si_lastPrice : JS.number
}.

Definition gainerSymbolInfo (g : GainerInfo) : SymbolInfo :=
  {| si_symbol := g_symbol g; si_lastPrice := g_lastPrice g |}.

(** A detected signal.  The [description] field of the source is display
    text built with [toFixed]; it is read by nothing but the notifier and is
    left out. *)
Record Signal : Type := mkSignal {
  name : string;
  strength : JS.number
}.

Record AnalysisResult : Type := mkAnalysisResult {
  r_symbol : string;
  r_price : JS.number;
  r_probability : JS.number;
  r_signals : list Signal;
  r_timeframe : option string;
  r_timestamp : option JS.number;
  r_highestPrice : option JS.number;
  r_dropPercent : option JS.number
}.

(** State of a tracked symbol. *)
Record TrackedSymbol : Type := mkTrackedSymbol {
  symbol : string;
  lastPrice : JS.number;
  highestPrice : JS.number;
  lastUpdateTime : JS.number;
  signals : list Signal;
  downtrend : bool;
  downtrendConfirmed : bool;
  downtrendNotified : bool
}.

(* ===================================================================== *)
(** ** Indicator arrays ([src/indicators/technical.ts]) *)
(* ===================================================================== *)

Module Technical.
Import JS.

Definition n0 : number := ofZ 0.
Definition n1 : number := ofZ 1.
Definition n2 : number := ofZ 2.
Definition n100 : number := ofZ 100.

(** The value pushed on the RSI array for the current averages. *)
Definition rsiPoint (gains losses : number) : number :=
  if strictEq losses n0 then n100
  else sub n100 (div n100 (add n1 (div gains losses))).

(** Body of the first loop of [calculateRSI]. *)
Definition rsiSeed (closes : list number) (acc : number * number) (i : Z)
  : number * number :=
  let '(gains, losses) := acc in
  let diff := sub (at_ closes i) (at_ closes (i - 1)) in
  if ge diff n0 then (add gains diff, losses) else (gains, sub losses diff).

(** Body of the second loop of [calculateRSI]. *)
Definition rsiSmooth (closes : list number) (period : Z)
    (acc : number * number * list number) (i : Z)
  : number * number * list number :=
  let '(gains, losses, rsi) := acc in
  let diff := sub (at_ closes i) (at_ closes (i - 1)) in
  let p := ofZ period in
  let p1 := ofZ (period - 1) in
  let '(gains, losses) :=
    if ge diff n0
    then (div (add (mul gains p1) diff) p, div (mul losses p1) p)
    else (div (mul gains p1) p, div (sub (mul losses p1) diff) p) in
  (gains, losses, rsi ++ [rsiPoint gains losses]).

(** [calculateRSI(candles, period = 14)]: the first [period] entries are
    [null]. *)
Definition calculateRSI (candles : list Candle) (period : Z)
  : list (option number) :=
  if len candles <? period + 1 then []
  else
    let closes := map close candles in
    let '(gains, losses) :=
      fold_left (rsiSeed closes) (seqZ 1 period) (n0, n0) in
    let rsi := [rsiPoint gains losses] in
    let '(_, _, rsi) :=
      fold_left (rsiSmooth closes period)
                (seqZ (period + 1) (len closes - (period + 1)))
                (gains, losses, rsi) in
    fill period None ++ map Some rsi.

(** [calculateMA(data, period)] *)
Definition calculateMA (data : list number) (period : Z) : list number :=
  map (fun i =>
         if i <? period - 1 then NaN
         else
           let sum :=
             fold_left (fun sum j => add sum (at_ data (i - j)))
                       (seqZ 0 period) n0 in
           div sum (ofZ period))
      (seqZ 0 (len data)).

(** [calculateEMA(data, period)] *)
Definition calculateEMA (data : list number) (period : Z) : list number :=
  let k := div n2 (ofZ (period + 1)) in
  let sum :=
    fold_left (fun sum i => add sum (at_ data i)) (seqZ 0 period) n0 in
  let ema :=
    fold_left
      (fun ema i =>
         ema ++ [add (mul (at_ data i) k)
                     (mul (at_ ema (len ema - 1)) (sub n1 k))])
      (seqZ period (len data - period))
      [div sum (ofZ period)] in
  fill (period - 1) NaN ++ ema.

Record MACDResult : Type := mkMACD {
  MACD : list number;
  signal : list number;
  histogram : list number
}.

(** [calculateMACD(candles, 12, 26, 9)] *)
Definition calculateMACD (candles : list Candle)
    (fastPeriod slowPeriod signalPeriod : Z) : MACDResult :=
  let closes := map close candles in
  let fastEMA := calculateEMA closes fastPeriod in
  let slowEMA := calculateEMA closes slowPeriod in
  let MACD :=
    map (fun i =>
           if isNaN (at_ fastEMA i) || isNaN (at_ slowEMA i) then NaN
           else sub (at_ fastEMA i) (at_ slowEMA i))
        (seqZ 0 (len closes)) in
  let validMACD := filter (fun value => negb (isNaN value) = true) MACD in
  let validSignal := calculateEMA validMACD signalPeriod in
  let '(signal, _) :=
    fold_left
      (fun '(signal, validIndex) i =>
         if negb (isNaN (at_ MACD i)) && (validIndex <? len validSignal)
         then (<[Z.to_nat i := at_ validSignal validIndex]> signal,
               validIndex + 1)
         else (signal, validIndex))
      (seqZ 0 (len MACD))
      (fill (len MACD) NaN, 0) in
  let histogram :=
    imap (fun i value =>
            if isNaN value || isNaN (at_ signal (Z.of_nat i)) then NaN
            else sub value (at_ signal (Z.of_nat i)))
         MACD in
  {| MACD := MACD; signal := signal; histogram := histogram |}.

Record Bands : Type := mkBands {
  upper : list number;
  middle : list number;
  lower : list number
}.

Record MovingAverages : Type := mkMAs {
  ma20 : list number;
  ma50 : list number;
  ma200 : list number
}.

(** One moving-average array of [calculateMovingAverages]. *)
Definition movingAverage (prices : list number) (n : Z) : list number :=
  map (fun i =>
         if i <? n - 1 then NaN
         else div (sum (slice prices (i - (n - 1)) (i + 1))) (ofZ n))
      (seqZ 0 (len prices)).

(** [calculateMovingAverages(candles)] *)
Definition calculateMovingAverages (candles : list Candle)
  : MovingAverages :=
  let prices := map close candles in
  {| ma20 := movingAverage prices 20;
     ma50 := movingAverage prices 50;
     ma200 := movingAverage prices 200 |}.

Section WithSqrt.
(** [Math.sqrt] is taken as given: no property below depends on what it
    returns. *)
Variable Math_sqrt : number -> number.

(** [calculateBollingerBands(candles, period = 20, multiplier = 2)] *)
Definition calculateBollingerBands (candles : list Candle)
    (period : Z) (multiplier : number) : Bands :=
  let closes := map close candles in
  let middle := calculateMA closes period in
  let band (side : number -> number -> number) :=
    map (fun i =>
           if i <? period - 1 then NaN
           else
             let sum :=
               fold_left
                 (fun sum j =>
                    add sum
                        (Math_pow2 (sub (at_ closes (i - j))
                                        (at_ middle i))))
                 (seqZ 0 period) n0 in
             let stdDev := Math_sqrt (div sum (ofZ period)) in
             side (at_ middle i) (mul multiplier stdDev))
        (seqZ 0 (len closes)) in
  {| upper := band add; middle := middle; lower := band sub |}.
End WithSqrt.

End Technical.


(* ===================================================================== *)
(** ** Analyzer ([src/indicators/analyzer.ts]) *)
(* ===================================================================== *)

Module Analyzer.
Import JS Technical.

(** What [await fetchCandles(symbol, interval, 100)] does: it resolves to a
    candle array or throws. *)
Inductive Fetched : Type :=
| Candles (candles : list Candle)
| FetchThrows.

(** The two [logWarning] calls of [analyzeSymbols]. *)
Inductive Warning : Type :=
| InsufficientHistory (symbol : string)
| AnalysisFailed (symbol : string).

(** [candles[i]] followed by a property access: [None] is the [TypeError]
    raised on [undefined]. *)
Definition candleAt (candles : list Candle) (i : Z) : option Candle :=
  if i <? 0 then None else candles !! Z.to_nat i.

(** [signals.push(s); totalWeight += s.strength] *)
Definition fire (acc : list Signal * number) (s : Signal)
  : list Signal * number :=
  (acc.1 ++ [s], add acc.2 (strength s)).

Definition c0_8 : number := ofQ (8 # 10).
Definition c1_01 : number := ofQ (101 # 100).
Definition c1_2 : number := ofQ (12 # 10).
Definition c1_5 : number := ofQ (15 # 10).
Definition c3_33 : number := ofQ (333 # 100).
Definition c70 : number := ofZ 70.
Definition c75 : number := ofZ 75.
Definition c80 : number := ofZ 80.
Definition c85 : number := ofZ 85.
Definition c90 : number := ofZ 90.

(** The closing block of [analyzeSymbol]: the probability computed from the
    accumulated [totalWeight] and the number of signals. *)
Definition scoreSignals (sigs : list Signal) (totalWeight : number)
  : number * list Signal :=
  if 0 <? len sigs then
    let probability :=
      Math_min n100
        (mul (div totalWeight (mul (ofZ (len sigs)) n100)) n100) in
    let probability :=
      if 2 <=? len sigs then Math_min n100 (mul probability c1_2)
      else probability in
    (probability, sigs)
  else (n0, []).

(** The six signal checks of [analyzeSymbol] (lines 86-163), each on the
    pair of [signals] and [totalWeight]. *)

(** 1. RSI overbought. *)
Definition rsiSignal (rsi : list (option number)) (lastIndex : Z)
    (acc : list Signal * number) : list Signal * number :=
  if gt (atNullable rsi lastIndex) c70 then
    fire acc {| name := "RSI 超买";
                strength :=
                  Math_min n100
                    (mul (sub (atNullable rsi lastIndex) c70) c3_33) |}
  else acc.

(** 2. Price close to the upper Bollinger band. *)
Definition bollingerSignal (bands : Bands) (lastCandle : Candle)
    (lastIndex : Z) (acc : list Signal * number) : list Signal * number :=
  let priceToUpperRatio :=
    div (sub (close lastCandle) (at_ (middle bands) lastIndex))
        (sub (at_ (upper bands) lastIndex) (at_ (middle bands) lastIndex)) in
  if gt priceToUpperRatio c0_8 then
    fire acc {| name := "接近布林带上轨";
                strength := Math_min n100 (mul priceToUpperRatio n100) |}
  else acc.

(** 3. MACD bearish cross. *)
Definition macdSignal (macd : MACDResult) (lastIndex : Z)
    (acc : list Signal * number) : list Signal * number :=
  if lt (at_ (MACD macd) lastIndex) (at_ (signal macd) lastIndex)
     && gt (at_ (MACD macd) (lastIndex - 1))
           (at_ (signal macd) (lastIndex - 1))
  then fire acc {| name := "MACD 死叉"; strength := c90 |}
  else acc.

(** 4. MA20 / MA50 death cross. *)
Definition deathCrossSignal (mas : MovingAverages) (lastIndex : Z)
    (acc : list Signal * number) : list Signal * number :=
  if lt (at_ (ma20 mas) lastIndex) (at_ (ma50 mas) lastIndex)
     && gt (at_ (ma20 mas) (lastIndex - 1)) (at_ (ma50 mas) (lastIndex - 1))
  then fire acc {| name := "均线死叉"; strength := c85 |}
  else acc.

(** 5. Break below MA200.  The second operand of [&&] is evaluated only
    when the first holds; [None] is the [TypeError] raised when
    [candles[lastIndex - 1]] is [undefined]. *)
Definition supportBreakSignal (mas : MovingAverages) (candles : list Candle)
    (lastCandle : Candle) (lastIndex : Z) (acc : list Signal * number)
  : option (list Signal * number) :=
  if lt (close lastCandle) (at_ (ma200 mas) lastIndex) then
    prev ← candleAt candles (lastIndex - 1);
    Some (if gt (close prev) (at_ (ma200 mas) (lastIndex - 1))
          then fire acc {| name := "跌破长期支撑"; strength := c80 |}
          else acc)
  else Some acc.

(** 6. Volume spike without price follow-through. *)
Definition volumeSignal (candles : list Candle) (lastCandle : Candle)
    (lastIndex : Z) (acc : list Signal * number)
  : option (list Signal * number) :=
  prev ← candleAt candles (lastIndex - 1);
  Some (if gt (volume lastCandle) (mul (volume prev) c1_5)
           && le (close lastCandle) (mul (close prev) c1_01)
        then fire acc {| name := "放量滞涨"; strength := c75 |}
        else acc).

Section WithSqrt.
Variable Math_sqrt : number -> number.

(** Lines 74-163 of [analyzeSymbol]: the indicators, then the six checks in
    source order. *)
Definition detectSignals (candles : list Candle) (lastCandle : Candle)
  : option (list Signal * number) :=
  let rsi := calculateRSI candles 14 in
  let bands := calculateBollingerBands Math_sqrt candles 20 n2 in
  let macd := calculateMACD candles 12 26 9 in
  let mas := calculateMovingAverages candles in
  let lastIndex := len candles - 1 in
  let acc : list Signal * number := ([], n0) in
  let acc := rsiSignal rsi lastIndex acc in
  let acc := bollingerSignal bands lastCandle lastIndex acc in
  let acc := macdSignal macd lastIndex acc in
  let acc := deathCrossSignal mas lastIndex acc in
  acc ← supportBreakSignal mas candles lastCandle lastIndex acc;
  volumeSignal candles lastCandle lastIndex acc.

(** [analyzeSymbol(symbol, candles)]; [now] is the value of [Date.now()].
    [None] stands for a thrown [TypeError]. *)
Definition analyzeSymbol (now : number) (symbol : string)
    (candles : list Candle) : option AnalysisResult :=
  lastCandle ← candleAt candles (len candles - 1);
  '(sigs, totalWeight) ← detectSignals candles lastCandle;
  let '(probability, sigs) := scoreSignals sigs totalWeight in
  Some {| r_symbol := symbol;
          r_price := close lastCandle;
          r_probability := probability;
          r_signals := sigs;
          r_timeframe := Some "1h";
          r_timestamp := Some now;
          r_highestPrice := None;
          r_dropPercent := None |}.

(** The world [analyzeSymbols] runs in: the answer of the exchange for each
    symbol, and the clock. *)
Variable fetchCandles : string -> string -> Z -> Fetched.
Variable now : number.

(** [result.price = symbolInfo.lastPrice] *)
Definition setPrice (r : AnalysisResult) (p : number) : AnalysisResult :=
  {| r_symbol := r_symbol r;
     r_price := p;
     r_probability := r_probability r;
     r_signals := r_signals r;
     r_timeframe := r_timeframe r;
     r_timestamp := r_timestamp r;
     r_highestPrice := r_highestPrice r;
     r_dropPercent := r_dropPercent r |}.

(** Body of the [for] loop of [analyzeSymbols], on the pair of the
    [results] array and the warnings logged so far. *)
Definition analyzeOne (interval : string)
    (acc : list AnalysisResult * list Warning) (symbolInfo : SymbolInfo)
  : list AnalysisResult * list Warning :=
  let '(results, log) := acc in
  match fetchCandles (si_symbol symbolInfo) interval 100 with
  | FetchThrows => (results, log ++ [AnalysisFailed (si_symbol symbolInfo)])
  | Candles candles =>
      if len candles <? 30 then
        (results, log ++ [InsufficientHistory (si_symbol symbolInfo)])
      else
        match analyzeSymbol now (si_symbol symbolInfo) candles with
        | None => (results, log ++ [AnalysisFailed (si_symbol symbolInfo)])
        | Some result =>
            (results ++ [setPrice result (si_lastPrice symbolInfo)], log)
        end
  end.

(** [analyzeSymbols(symbols, interval)]: the returned array, and the
    warnings it logged. *)
Definition analyzeSymbols (symbols : list SymbolInfo) (interval : string)
  : list AnalysisResult * list Warning :=
  fold_left (analyzeOne interval) symbols ([], []).

End WithSqrt.

End Analyzer.


(* ===================================================================== *)
(** ** Updates of one tracked symbol *)
(* ===================================================================== *)

(** Field assignments on the (mutable) tracked-symbol object. *)
Definition setHigh (t : TrackedSymbol) (p : JS.number) : TrackedSymbol :=
  {| symbol := symbol t; lastPrice := lastPrice t; highestPrice := p;
     lastUpdateTime := lastUpdateTime t; signals := signals t;
     downtrend := downtrend t; downtrendConfirmed := downtrendConfirmed t;
     downtrendNotified := downtrendNotified t |}.

Definition setLast (t : TrackedSymbol) (p time : JS.number) : TrackedSymbol :=
  {| symbol := symbol t; lastPrice := p; highestPrice := highestPrice t;
     lastUpdateTime := time; signals := signals t;
     downtrend := downtrend t; downtrendConfirmed := downtrendConfirmed t;
     downtrendNotified := downtrendNotified t |}.

Definition setSignals (t : TrackedSymbol) (s : list Signal) : TrackedSymbol :=
  {| symbol := symbol t; lastPrice := lastPrice t;
     highestPrice := highestPrice t;
     lastUpdateTime := lastUpdateTime t; signals := s;
     downtrend := downtrend t; downtrendConfirmed := downtrendConfirmed t;
     downtrendNotified := downtrendNotified t |}.

Definition setDowntrend (t : TrackedSymbol) (b : bool) : TrackedSymbol :=
  {| symbol := symbol t; lastPrice := lastPrice t;
     highestPrice := highestPrice t;
     lastUpdateTime := lastUpdateTime t; signals := signals t;
     downtrend := b; downtrendConfirmed := downtrendConfirmed t;
     downtrendNotified := downtrendNotified t |}.

Definition setConfirmed (t : TrackedSymbol) (b : bool) : TrackedSymbol :=
  {| symbol := symbol t; lastPrice := lastPrice t;
     highestPrice := highestPrice t;
     lastUpdateTime := lastUpdateTime t; signals := signals t;
     downtrend := downtrend t; downtrendConfirmed := b;
     downtrendNotified := downtrendNotified t |}.

Definition setNotified (t : TrackedSymbol) (b : bool) : TrackedSymbol :=
  {| symbol := symbol t; lastPrice := lastPrice t;
     highestPrice := highestPrice t;
     lastUpdateTime := lastUpdateTime t; signals := signals t;
     downtrend := downtrend t; downtrendConfirmed := downtrendConfirmed t;
     downtrendNotified := b |}.

(** The new-high branch shared by both loops:
    [highestPrice = price; downtrend = downtrendConfirmed =
     downtrendNotified = false]. *)
Definition resetOnHigh (t : TrackedSymbol) (p : JS.number) : TrackedSymbol :=
  setNotified (setConfirmed (setDowntrend (setHigh t p) false) false) false.

(** [((highestPrice - price) / highestPrice) * 100] *)
Definition dropFromHigh (highestPrice price : JS.number) : JS.number :=
  JS.mul (JS.div (JS.sub highestPrice price) highestPrice) Technical.n100.

Definition c5 : JS.number := JS.ofZ 5.

(* ===================================================================== *)
(** ** One cycle of [startMonitoring] ([src/index.ts]) *)
(* ===================================================================== *)

Module Monitor.
Import JS Technical Analyzer.

(** An element of [weakBullishSymbols] / [confirmedDowntrendSymbols]. *)
Record Alert : Type := mkAlert {
  a_symbol : string;
  a_probability : number;
  a_lastPrice : number;
  a_highestPrice : number;
  a_dropPercentage : number;
  a_signals : list Signal
}.

(** An element of the array returned by [loadHistoryAnalysis()]: parsed
    JSON, in which any property may be missing or [null] ([None]). *)
Record HistoryItem : Type := mkHistoryItem {
  h_symbol : option string;
  h_lastPrice : option number;
  h_highestPrice : option number;
  h_timestamp : option number;
  h_signals : option (list Signal);
  h_downtrend : option bool;
  h_downtrendConfirmed : option bool;
  h_downtrendNotified : option bool
}.

(** Truthiness of a number: neither 0 nor NaN. *)
Definition truthy (x : number) : bool :=
  negb (isNaN x) && negb (strictEq x (ofZ 0)).

(** [x || d] on an optional number. *)
Definition orElse (x : option number) (d : number) : number :=
  match x with
  | Some x => if truthy x then x else d
  | None => d
  end.

(** Lines 63-74: body of the loop that restores the tracked state. *)
Definition restoreItem (now : number)
    (trackedSymbols : gmap string TrackedSymbol) (item : HistoryItem)
  : gmap string TrackedSymbol :=
  match h_symbol item, h_lastPrice item with
  | Some sym, Some last =>
      if negb (String.eqb sym "") && truthy last then
        <[sym := {| symbol := sym;
                    lastPrice := last;
                    highestPrice := orElse (h_highestPrice item) last;
                    lastUpdateTime := orElse (h_timestamp item) now;
                    signals := default [] (h_signals item);
                    downtrend := default false (h_downtrend item);
                    downtrendConfirmed :=
                      default false (h_downtrendConfirmed item);
                    downtrendNotified :=
                      default false (h_downtrendNotified item) |}]>
          trackedSymbols
      else trackedSymbols
  | _, _ => trackedSymbols
  end.

(** Lines 87-96: the object stored for a symbol seen for the first time. *)
Definition newTracked (gainer : GainerInfo) (now : number) : TrackedSymbol :=
  {| symbol := g_symbol gainer;
     lastPrice := g_lastPrice gainer;
     highestPrice := g_lastPrice gainer;
     lastUpdateTime := now;
     signals := [];
     downtrend := false;
     downtrendConfirmed := false;
     downtrendNotified := false |}.

(** Lines 102-115: the update of an already tracked symbol. *)
Definition updateTracked (gainer : GainerInfo) (now : number)
    (trackedSymbol : TrackedSymbol) : TrackedSymbol :=
  let trackedSymbol :=
    if gt (g_lastPrice gainer) (highestPrice trackedSymbol)
    then resetOnHigh trackedSymbol (g_lastPrice gainer)
    else trackedSymbol in
  setLast trackedSymbol (g_lastPrice gainer) now.

(** Lines 84-117: body of the loop over [gainersList]. *)
Definition trackGainer (now : number)
    (trackedSymbols : gmap string TrackedSymbol) (gainer : GainerInfo)
  : gmap string TrackedSymbol :=
  match trackedSymbols !! g_symbol gainer with
  | None => <[g_symbol gainer := newTracked gainer now]> trackedSymbols
  | Some trackedSymbol =>
      <[g_symbol gainer := updateTracked gainer now trackedSymbol]>
        trackedSymbols
  end.

Definition alertOf (result : AnalysisResult) (t : TrackedSymbol)
    (dropPercentage : number) : Alert :=
  {| a_symbol := r_symbol result;
     a_probability := r_probability result;
     a_lastPrice := lastPrice t;
     a_highestPrice := highestPrice t;
     a_dropPercentage := dropPercentage;
     a_signals := r_signals result |}.

(** Lines 137-177: what one analysis result does to the tracked symbol it
    belongs to; the second and third components are the elements pushed on
    [weakBullishSymbols] and on [confirmedDowntrendSymbols]. *)
Definition applyResult (trackedSymbol : TrackedSymbol)
    (result : AnalysisResult) : TrackedSymbol * list Alert * list Alert :=
  let t := setSignals trackedSymbol (r_signals result) in
  let dropPercentage := dropFromHigh (highestPrice t) (lastPrice t) in
  let '(t, weak) :=
    if gt (r_probability result) c70
       && lt (lastPrice t) (highestPrice t)
       && negb (downtrend t)
    then (setDowntrend t true, [alertOf result t dropPercentage])
    else (t, []) in
  let '(t, confirmed) :=
    if gt dropPercentage c5 && negb (downtrendConfirmed t) then
      let t := setConfirmed t true in
      if negb (downtrendNotified t)
      then (setNotified t true, [alertOf result t dropPercentage])
      else (t, [])
    else (t, []) in
  (t, weak, confirmed).

(** Lines 133-178: body of the loop over [results]. *)
Definition processResult
    (acc : gmap string TrackedSymbol * list Alert * list Alert)
    (result : AnalysisResult)
  : gmap string TrackedSymbol * list Alert * list Alert :=
  let '(trackedSymbols, weakBullishSymbols, confirmedDowntrendSymbols) :=
    acc in
  match trackedSymbols !! r_symbol result with
  | None => acc
  | Some trackedSymbol =>
      let '(t, weak, confirmed) := applyResult trackedSymbol result in
      (<[r_symbol result := t]> trackedSymbols,
       weakBullishSymbols ++ weak,
       confirmedDowntrendSymbols ++ confirmed)
  end.

Definition oneWeekInMs : number := ofZ (7 * 24 * 60 * 60 * 1000).

(** Line 268: [now - data.lastUpdateTime > oneWeekInMs] *)
Definition inactive (now : number) (data : TrackedSymbol) : bool :=
  gt (sub now (lastUpdateTime data)) oneWeekInMs.

(** Lines 267-272: body of the clean-up loop over
    [trackedSymbols.entries()]. *)
Definition cleanEntry (now : number)
    (acc : gmap string TrackedSymbol * Z) (entry : string * TrackedSymbol)
  : gmap string TrackedSymbol * Z :=
  let '(trackedSymbols, cleanedCount) := acc in
  if inactive now entry.2
  then (delete entry.1 trackedSymbols, cleanedCount + 1)
  else acc.

(** Lines 262-272. *)
Definition cleanup (now : number) (trackedSymbols : gmap string TrackedSymbol)
  : gmap string TrackedSymbol * Z :=
  fold_left (cleanEntry now) (map_to_list trackedSymbols) (trackedSymbols, 0).

(** [Array.from(trackedSymbols.values()).map(item => ({symbol, lastPrice}))].
    A [Map] iterates in insertion order, [map_to_list] in an order of its
    own; the symbols are the same and each occurs once. *)
Definition symbolsToAnalyze (trackedSymbols : gmap string TrackedSymbol)
  : list SymbolInfo :=
  map (fun item => {| si_symbol := symbol item.2;
                      si_lastPrice := lastPrice item.2 |})
      (map_to_list trackedSymbols).

Record Cycle : Type := mkCycle {
  tracked : gmap string TrackedSymbol;
  trackingData : list TrackedSymbol;
  weakBullishSymbols : list Alert;
  confirmedDowntrendSymbols : list Alert;
  warnings : list Warning;
  cleanedCount : Z
}.

Section World.
Variable Math_sqrt : number -> number.
Variable fetchCandles : string -> string -> Z -> Fetched.

(** Lines 79-276 of [startMonitoring], from the fetched [gainersList] to
    the clean-up, on the map as restored: [now] is the clock while the list
    is processed and [cleanupNow] the clock read on line 263.  The two alert
    queues are returned as they are filled; the source then sorts each and
    hands its elements to [notify]. *)
Definition monitoringCycle (interval : string) (now cleanupNow : number)
    (gainersList : list GainerInfo)
    (trackedSymbols : gmap string TrackedSymbol) : Cycle :=
  let trackedSymbols := fold_left (trackGainer now) gainersList trackedSymbols in
  let '(results, warnings) :=
    analyzeSymbols Math_sqrt fetchCandles now
                   (symbolsToAnalyze trackedSymbols) interval in
  let '(trackedSymbols, weak, confirmed) :=
    fold_left processResult results (trackedSymbols, [], []) in
  let trackingData := (map_to_list trackedSymbols).*2 in
  let '(trackedSymbols, cleanedCount) := cleanup cleanupNow trackedSymbols in
  {| tracked := trackedSymbols;
     trackingData := trackingData;
     weakBullishSymbols := weak;
     confirmedDowntrendSymbols := confirmed;
     warnings := warnings;
     cleanedCount := cleanedCount |}.

(** One run of [startMonitoring(limit, interval)]: the tracked state is
    restored from [historicalData], then the cycle runs on [gainersList],
    the answer of [fetchGainersList(limit)].  (The run ends by scheduling
    the next one; a throwing [fetchGainersList] skips the cycle.) *)
Definition startMonitoring (interval : string) (now cleanupNow : number)
    (historicalData : list HistoryItem) (gainersList : list GainerInfo)
    (trackedSymbols : gmap string TrackedSymbol) : Cycle :=
  monitoringCycle interval now cleanupNow gainersList
    (fold_left (restoreItem now) historicalData trackedSymbols).

End World.

End Monitor.

(* ===================================================================== *)
(** ** One day of the backtest ([src/backtest/index.ts], [processDay]) *)
(* ===================================================================== *)

Module Backtest.
Import JS Technical Analyzer.

Definition c70 : number := ofZ 70.
Definition c90 : number := ofZ 90.

(** [analysisResults.find((r) => r.symbol === symbol)] *)
Definition findResult (analysisResults : list AnalysisResult)
    (symbol : string) : option AnalysisResult :=
  List.find (fun r => String.eqb (r_symbol r) symbol) analysisResults.

(** Lines 161-170. *)
Definition newTracked (symbol : string) (currentPrice date : number)
  : TrackedSymbol :=
  {| symbol := symbol;
     lastPrice := currentPrice;
     highestPrice := currentPrice;
     lastUpdateTime := date;
     signals := [];
     downtrend := false;
     downtrendConfirmed := false;
     downtrendNotified := false |}.

(** Lines 114-158: the update of an already tracked symbol. *)
Definition updateTracked (analysisResults : list AnalysisResult)
    (symbol : string) (currentPrice date : number) (tracked : TrackedSymbol)
  : TrackedSymbol :=
  let tracked :=
    if gt currentPrice (highestPrice tracked)
    then resetOnHigh tracked currentPrice
    else tracked in
  let tracked :=
    if lt currentPrice (lastPrice tracked) && negb (downtrend tracked) then
      let tracked := setDowntrend tracked true in
      match findResult analysisResults symbol with
      | Some result => setSignals tracked (r_signals result)
      | None => tracked
      end
    else tracked in
  let dropPercent := dropFromHigh (highestPrice tracked) currentPrice in
  let tracked :=
    if downtrend tracked && ge dropPercent c5
       && negb (downtrendConfirmed tracked)
    then setConfirmed tracked true
    else tracked in
  setLast tracked currentPrice date.

(** Lines 108-172: body of the loop over [gainers]. *)
Definition trackGainer (analysisResults : list AnalysisResult) (date : number)
    (trackedSymbols : gmap string TrackedSymbol) (gainer : GainerInfo)
  : gmap string TrackedSymbol :=
  let symbol := g_symbol gainer in
  let currentPrice := g_lastPrice gainer in
  match trackedSymbols !! symbol with
  | Some tracked =>
      <[symbol := updateTracked analysisResults symbol currentPrice date
                                tracked]> trackedSymbols
  | None => <[symbol := newTracked symbol currentPrice date]> trackedSymbols
  end.

(** [{ ...result, highestPrice, dropPercent }] *)
Definition withHigh (r : AnalysisResult) (high : number)
    (drop : option number) : AnalysisResult :=
  {| r_symbol := r_symbol r;
     r_price := r_price r;
     r_probability := r_probability r;
     r_signals := r_signals r;
     r_timeframe := r_timeframe r;
     r_timestamp := r_timestamp r;
     r_highestPrice := Some high;
     r_dropPercent :=
       match drop with Some d => Some d | None => r_dropPercent r end |}.

(** The element built from the tracked data when the day has no analysis
    result for the symbol. *)
Definition fromTracked (symbol : string) (tracked : TrackedSymbol)
    (probability : number) (drop : option number) : AnalysisResult :=
  {| r_symbol := symbol;
     r_price := lastPrice tracked;
     r_probability := probability;
     r_signals := signals tracked;
     r_timeframe := None;
     r_timestamp := None;
     r_highestPrice := Some (highestPrice tracked);
     r_dropPercent := drop |}.

(** Lines 180-226: what the second loop does with one entry; the second and
    third components are the elements pushed on [uptrendFailureSignals] and
    on [downtrendConfirmedSignals]. *)
Definition scanTracked (analysisResults : list AnalysisResult)
    (symbol : string) (tracked : TrackedSymbol)
  : TrackedSymbol * list AnalysisResult * list AnalysisResult :=
  let result := findResult analysisResults symbol in
  let uptrendFailure :=
    if downtrend tracked && negb (downtrendNotified tracked) then
      match result with
      | Some result => [withHigh result (highestPrice tracked) None]
      | None => [fromTracked symbol tracked c70 None]
      end
    else [] in
  if downtrendConfirmed tracked && negb (downtrendNotified tracked) then
    let dropPercent :=
      dropFromHigh (highestPrice tracked) (lastPrice tracked) in
    let confirmed :=
      match result with
      | Some result =>
          [withHigh result (highestPrice tracked) (Some dropPercent)]
      | None => [fromTracked symbol tracked c90 (Some dropPercent)]
      end in
    (setNotified tracked true, uptrendFailure, confirmed)
  else (tracked, uptrendFailure, []).

(** Lines 178-227: body of the loop over [trackedSymbols.entries()]. *)
Definition scanEntry (analysisResults : list AnalysisResult)
    (acc : gmap string TrackedSymbol * list AnalysisResult
           * list AnalysisResult)
    (entry : string * TrackedSymbol)
  : gmap string TrackedSymbol * list AnalysisResult * list AnalysisResult :=
  let '(trackedSymbols, uptrendFailureSignals, downtrendConfirmedSignals) :=
    acc in
  let '(t, up, confirmed) := scanTracked analysisResults entry.1 entry.2 in
  (<[entry.1 := t]> trackedSymbols,
   uptrendFailureSignals ++ up,
   downtrendConfirmedSignals ++ confirmed).

Record Day : Type := mkDay {
  allSymbols : gmap string TrackedSymbol;
  uptrendFailureSignals : list AnalysisResult;
  downtrendConfirmedSignals : list AnalysisResult;
  warnings : list Warning
}.

Section World.
Variable Math_sqrt : number -> number.
Variable fetchCandles : string -> string -> Z -> Fetched.

(** [processDay(date, gainers, interval)] up to the two signal arrays;
    [date] is [new Date(date).getTime()] and [now] the clock during the
    analysis.  The source then sorts the two arrays and saves them. *)
Definition processDay (date now : number) (gainers : list GainerInfo)
    (interval : string) (trackedSymbols : gmap string TrackedSymbol) : Day :=
  let '(analysisResults, warnings) :=
    analyzeSymbols Math_sqrt fetchCandles now
                   (map gainerSymbolInfo gainers) interval in
  let trackedSymbols :=
    fold_left (trackGainer analysisResults date) gainers trackedSymbols in
  let '(trackedSymbols, up, confirmed) :=
    fold_left (scanEntry analysisResults) (map_to_list trackedSymbols)
              (trackedSymbols, [], []) in
  {| allSymbols := trackedSymbols;
     uptrendFailureSignals := up;
     downtrendConfirmedSignals := confirmed;
     warnings := warnings |}.

End World.

End Backtest.


(* ===================================================================== *)
(** ** Traces of one tracked symbol *)
(* ===================================================================== *)

(** What can happen to one tracked symbol of the monitor: it shows up in
    the gainers list, or an analysis result comes back for it. *)
Module MonitorTrace.
Import JS Monitor.

Inductive Event : Type :=
| Observed (gainer : GainerInfo) (now : number)
| Analysed (result : AnalysisResult).

Definition step (t : TrackedSymbol) (e : Event)
  : TrackedSymbol * list Alert * list Alert :=
  match e with
  | Observed gainer now => (updateTracked gainer now t, [], [])
  | Analysed result => applyResult t result
  end.

(** The event is an observation of a price above the recorded high. *)
Definition isNewHigh (t : TrackedSymbol) (e : Event) : bool :=
  match e with
  | Observed gainer _ => gt (g_lastPrice gainer) (highestPrice t)
  | Analysed _ => false
  end.

(** Runs the events in order, collecting both alert queues. *)
Fixpoint run (t : TrackedSymbol) (es : list Event)
  : TrackedSymbol * list Alert * list Alert :=
  match es with
  | [] => (t, [], [])
  | e :: es =>
      let '(t1, weak1, confirmed1) := step t e in
      let '(t2, weak2, confirmed2) := run t1 es in
      (t2, weak1 ++ weak2, confirmed1 ++ confirmed2)
  end.

(** The events of one cycle that concern the symbol [s]: its entries in the
    gainers list, then the analysis results that carry its name. *)
Definition observations (now : number) (s : string)
    (gainersList : list GainerInfo) : list Event :=
  map (fun g => Observed g now) (filter (fun g => g_symbol g = s) gainersList).

Definition analyses (s : string) (results : list AnalysisResult)
  : list Event :=
  map Analysed (filter (fun r => r_symbol r = s) results).

(** The events of the symbol [s] in one [monitoringCycle]. *)
Definition cycleEvents (Math_sqrt : number -> number)
    (fetchCandles : string -> string -> Z -> Analyzer.Fetched)
    (interval : string) (now : number) (gainersList : list GainerInfo)
    (trackedSymbols : gmap string TrackedSymbol) (s : string) : list Event :=
  observations now s gainersList
  ++ analyses s
       (Analyzer.analyzeSymbols Math_sqrt fetchCandles now
          (symbolsToAnalyze (fold_left (trackGainer now) gainersList
                                       trackedSymbols))
          interval).1.

(** The alerts of the symbol [s] in a queue. *)
Definition alertsOf (s : string) (q : list Alert) : list Alert :=
  filter (fun a => a_symbol a = s) q.

(** States the monitor can bring a symbol to, starting from its first
    observation. *)
Definition Reachable (t : TrackedSymbol) : Prop :=
  exists gainer now es, (run (newTracked gainer now) es).1.1 = t.

End MonitorTrace.

(** The same for the backtest: the symbol is in the day's gainers, or the
    second loop of [processDay] visits its entry. *)
Module BacktestTrace.
Import JS Backtest.

Inductive Event : Type :=
| Observed (analysisResults : list AnalysisResult) (symbol : string)
           (currentPrice date : number)
| Scanned (analysisResults : list AnalysisResult) (symbol : string).

Definition step (t : TrackedSymbol) (e : Event)
  : TrackedSymbol * list AnalysisResult * list AnalysisResult :=
  match e with
  | Observed analysisResults symbol currentPrice date =>
      (updateTracked analysisResults symbol currentPrice date t, [], [])
  | Scanned analysisResults symbol => scanTracked analysisResults symbol t
  end.

Definition isNewHigh (t : TrackedSymbol) (e : Event) : bool :=
  match e with
  | Observed _ _ currentPrice _ => gt currentPrice (highestPrice t)
  | Scanned _ _ => false
  end.

Fixpoint run (t : TrackedSymbol) (es : list Event)
  : TrackedSymbol * list AnalysisResult * list AnalysisResult :=
  match es with
  | [] => (t, [], [])
  | e :: es =>
      let '(t1, up1, confirmed1) := step t e in
      let '(t2, up2, confirmed2) := run t1 es in
      (t2, up1 ++ up2, confirmed1 ++ confirmed2)
  end.

(** The events of one day that concern the symbol [s]: its entries in the
    day's gainers, then the visit of the second loop. *)
Definition dayEvents (analysisResults : list AnalysisResult) (date : number)
    (s : string) (gainers : list GainerInfo) : list Event :=
  map (fun g => Observed analysisResults s (g_lastPrice g) date)
      (filter (fun g => g_symbol g = s) gainers)
  ++ [Scanned analysisResults s].

(** The signals of the symbol [s] in one of the day's two arrays. *)
Definition signalsOf (s : string) (q : list AnalysisResult)
  : list AnalysisResult :=
  filter (fun r => r_symbol r = s) q.

Definition Reachable (t : TrackedSymbol) : Prop :=
  exists symbol currentPrice date es,
    (run (newTracked symbol currentPrice date) es).1.1 = t.

End BacktestTrace.


(* ===================================================================== *)
(** ** Vocabulary of the statements *)
(* ===================================================================== *)

(** [raised h h']: the recorded high is kept, or replaced by a strictly
    larger value. *)
Definition raised (h h' : JS.number) : Prop :=
  h' = h \/ JS.lt h h' = true.

(** The three flags of a tracked symbol are all cleared. *)
Definition flagsCleared (t : TrackedSymbol) : Prop :=
  downtrend t = false /\ downtrendConfirmed t = false
  /\ downtrendNotified t = false.


(** What a cycle (or a day) with the gainers list [gainers] may do to the
    recorded high of the symbol [s], whose state goes from [t] to [t']: the
    high does not decrease; it is kept, or replaced by a strictly larger
    price listed for [s]; and when [s] is listed once, at a price above the
    high, that price is the new high and the three flags are cleared. *)
Definition highRule (s : string) (gainers : list GainerInfo)
    (t t' : TrackedSymbol) : Prop :=
  JS.lt (highestPrice t') (highestPrice t) = false
  /\ (highestPrice t' = highestPrice t
      \/ exists g, In g gainers /\ g_symbol g = s
                   /\ highestPrice t' = g_lastPrice g
                   /\ JS.gt (g_lastPrice g) (highestPrice t) = true)
  /\ (forall g, filter (fun g => g_symbol g = s) gainers = [g] ->
                JS.gt (g_lastPrice g) (highestPrice t) = true ->
                highestPrice t' = g_lastPrice g /\ flagsCleared t').



(** Backtest: the recorded high is not below the last price, and the flags
    form a chain. *)
Definition backtestInv (t : TrackedSymbol) : Prop :=
  JS.lt (highestPrice t) (lastPrice t) = false
  /\ (downtrendNotified t = true -> downtrendConfirmed t = true)
  /\ (downtrendConfirmed t = true -> downtrend t = true).

(** The symbols [analyzeSymbols] can analyse: the fetch resolves, to at
    least 30 candles. *)
Definition analysable (fetchCandles : string -> string -> Z -> Analyzer.Fetched)
    (interval : string) (symbolInfo : SymbolInfo) : bool :=
  match fetchCandles (si_symbol symbolInfo) interval 100 with
  | Analyzer.Candles candles => 30 <=? JS.len candles
  | Analyzer.FetchThrows => false
  end.

(** [result] is the analysis of [symbolInfo]: what [analyzeSymbol] returns
    on the fetched candles, with the price replaced by the symbol's last
    price. *)
Definition resultFor (Math_sqrt : JS.number -> JS.number)
    (fetchCandles : string -> string -> Z -> Analyzer.Fetched)
    (now : JS.number) (interval : string)
    (result : AnalysisResult) (symbolInfo : SymbolInfo) : Prop :=
  exists candles r,
    fetchCandles (si_symbol symbolInfo) interval 100 = Analyzer.Candles candles
    /\ Analyzer.analyzeSymbol Math_sqrt now (si_symbol symbolInfo) candles
       = Some r
    /\ result = Analyzer.setPrice r (si_lastPrice symbolInfo).

(** The warning logged for a symbol that cannot be analysed. *)
Definition warningFor (fetchCandles : string -> string -> Z -> Analyzer.Fetched)
    (interval : string) (symbolInfo : SymbolInfo) : Analyzer.Warning :=
  match fetchCandles (si_symbol symbolInfo) interval 100 with
  | Analyzer.Candles _ => Analyzer.InsufficientHistory (si_symbol symbolInfo)
  | Analyzer.FetchThrows => Analyzer.AnalysisFailed (si_symbol symbolInfo)
  end.



(** A finite number that is not negative. *)
Definition nonneg (x : JS.number) : Prop :=
  exists q : Qc, x = JS.Fin q /\ (0 <= q)%Qc.

(** A number between 0 and 100. *)
Definition percentage (x : JS.number) : Prop :=
  exists q : Qc, x = JS.Fin q /\ (0 <= q)%Qc /\ (q <= Q2Qc (inject_Z 100))%Qc.

(** What the six checks maintain: [totalWeight] is the sum of the strengths
    pushed so far, and every strength is a percentage. *)
Definition tally (acc : list Signal * JS.number) : Prop :=
  acc.2 = JS.sum (map strength acc.1)
  /\ Forall (fun s => percentage (strength s)) acc.1.

(* ===================================================================== *)
(** ** A small world to run the code in *)
(* ===================================================================== *)

Module Sample.
Import JS Analyzer.

(** A stand-in for [Math.sqrt]: the square root rounded down to three
    decimals. *)
Definition sqrtFloor (a : number) : number :=
  match a with
  | Fin q =>
      if Qc_ltb q zeroQc then NaN
      else ofQ (Z.sqrt (Qnum q * 1000000 * Zpos (Qden q)) # (1000 * Qden q))
  | PInf => PInf
  | NInf => NaN
  | NaN => NaN
  end.

Definition candle (price vol : Z) : Candle :=
  {| open := ofZ price; high := ofZ price; low := ofZ price;
     close := ofZ price; volume := ofZ vol; closeTime := ofZ 0 |}.

(** Thirty candles closing at 130, 129, ..., 101 on constant volume: no
    signal fires on them. *)
Definition fallingCandles : list Candle :=
  map (fun i => candle (130 - i) 10) (seqZ 0 30).

(** Thirty candles closing at 100, 101, ..., 129: RSI and the Bollinger
    check fire. *)
Definition risingCandles : list Candle :=
  map (fun i => candle (100 + i) 10) (seqZ 0 30).

Definition gainer (s : string) (price : Z) : GainerInfo :=
  {| g_symbol := s; g_priceChange := ofZ 0; g_priceChangePercent := ofZ 0;
     g_lastPrice := ofZ price; g_volume := ofZ 0; g_quoteVolume := ofZ 0 |}.

(** The exchange: no answer for DOWNUSDT, ten candles for NEWUSDT, rising
    candles for UPUSDT and falling candles for every other symbol. *)
Definition fetch (s interval : string) (limit : Z) : Fetched :=
  if String.eqb s "DOWNUSDT" then FetchThrows
  else if String.eqb s "NEWUSDT" then Candles (take 10 fallingCandles)
  else if String.eqb s "UPUSDT" then Candles risingCandles
  else Candles fallingCandles.

(** BTCUSDT first seen at 100. *)
Definition btcAt100 : TrackedSymbol :=
  Monitor.newTracked (gainer "BTCUSDT" 100) (ofZ 0).

Definition tracking : gmap string TrackedSymbol :=
  {[ "BTCUSDT" := btcAt100 ]}.

(** NEWUSDT, for which the exchange has ten candles, first seen at 100. *)
Definition newAt100 : TrackedSymbol :=
  Monitor.newTracked (gainer "NEWUSDT" 100) (ofZ 0).

Definition shortTracking : gmap string TrackedSymbol :=
  {[ "NEWUSDT" := newAt100 ]}.


(** An analysis result with no signal. *)
Definition calm (s : string) : AnalysisResult :=
  {| r_symbol := s; r_price := ofZ 0; r_probability := ofZ 0;
     r_signals := []; r_timeframe := None; r_timestamp := None;
     r_highestPrice := None; r_dropPercent := None |}.

End Sample.

(* ===================================================================== *)
(** ** Vocabulary of the further properties *)
(* ===================================================================== *)

(** Every entry of the map is stored under the symbol it carries. *)
Definition keyed (m : gmap string TrackedSymbol) : Prop :=
  map_Forall (fun k t => symbol t = k) m.

(** Backtest: at the end of a day no confirmed downtrend waits for its
    signal. *)
Definition settled (t : TrackedSymbol) : Prop :=
  downtrendConfirmed t = true -> downtrendNotified t = true.

(* ===================================================================== *)
(** ** src/backtest/index.ts: the loop over the days *)
(* ===================================================================== *)

(** [runBacktest] (lines 29-88) clears the module-level map and walks the
    days of the range.  What the world answers on one day is an input: the
    day's time stamp, the clock during the analysis, what
    [fetchHistoricalGainers] resolves to, what [generateMockGainers] would
    resolve to (it draws from [Math.random]), and the candles served on
    that day. *)
Module BacktestRun.
Import JS Analyzer Backtest.

Record DayInput : Type := mkDayInput {
  d_date : number;
  d_now : number;
  d_fetched : list GainerInfo;
  d_mock : list GainerInfo;
  d_fetchCandles : string -> string -> Z -> Fetched
}.

(** Lines 64-74: [if (!gainers || gainers.length === 0)] the mock list is
    used. *)
Definition gainersOf (d : DayInput) : list GainerInfo :=
  match d_fetched d with
  | [] => d_mock d
  | _ :: _ => d_fetched d
  end.

Section World.
Variable Math_sqrt : number -> number.

Definition runDay (interval : string)
    (acc : gmap string TrackedSymbol * list Day) (d : DayInput)
  : gmap string TrackedSymbol * list Day :=
  let day := processDay Math_sqrt (d_fetchCandles d) (d_date d) (d_now d)
                        (gainersOf d) interval acc.1 in
  (allSymbols day, acc.2 ++ [day]).

(** The final map and what each day saved, in order. *)
Definition runBacktest (days : list DayInput) (interval : string)
  : gmap string TrackedSymbol * list Day :=
  fold_left (runDay interval) days (∅, []).

End World.

End BacktestRun.

(** Two days of a backtest: BTCUSDT is listed at 100 on the first; on the
    second the exchange has no list and the mock list has it at 90. *)
Module SampleRun.
Import JS BacktestRun.

Definition day1 : DayInput :=
  {| d_date := ofZ 1; d_now := ofZ 10;
     d_fetched := [Sample.gainer "BTCUSDT" 100];
     d_mock := [];
     d_fetchCandles := Sample.fetch |}.

Definition day2 : DayInput :=
  {| d_date := ofZ 2; d_now := ofZ 20;
     d_fetched := [];
     d_mock := [Sample.gainer "BTCUSDT" 90];
     d_fetchCandles := Sample.fetch |}.

Definition btcConfirmed : TrackedSymbol :=
  {| symbol := "BTCUSDT";
     lastPrice := ofZ 90;
     highestPrice := ofZ 100;
     lastUpdateTime := ofZ 2;
     signals := [];
     downtrend := true;
     downtrendConfirmed := true;
     downtrendNotified := true |}.

End SampleRun.

(** The names of the six checks of [analyzeSymbol], in source order; the
    three checks that look at a crossing are listed only for a history
    long enough for them. *)
Definition namesFor (length : Z) : list string :=
  ["RSI 超买"; "接近布林带上轨"]
  ++ (if 35 <=? length then ["MACD 死叉"] else [])
  ++ (if 51 <=? length then ["均线死叉"] else [])
  ++ (if 200 <=? length then ["跌破长期支撑"] else [])
  ++ ["放量滞涨"].

Definition signalNames : list string := namesFor 200.

(** A finite number above zero. *)
Definition positive (x : JS.number) : Prop :=
  exists q : Qc, x = JS.Fin q /\ (0 < q)%Qc.

(* ===================================================================== *)
(** ** src/utils/helpers.ts *)
(* ===================================================================== *)

Module Helpers.
Import JS.



Section WithRetry.
(** The result type of [fn] and the type of what it throws. *)
Variables T E : Type.

(** What [withRetry] did, in order: a call of [fn], the [console.warn]
    after a failure, a [delay]. *)
Inductive Event : Type :=
| Called (i : Z)
| Warned (error : E) (i : Z)
| Delayed (ms : Z).

(** How [withRetry] ends: it returns, or throws [lastError], which is
    [undefined] ([None]) when no call was made. *)
Inductive Outcome : Type :=
| Returned (value : T)
| Threw (lastError : option E).

(** The loop of lines 58-70 from the round [i] on, [n] rounds being left;
    [fn k] is what the [k]-th call of the wrapped function does. *)
Fixpoint retryFrom (fn : nat -> T + E) (retries delayMs : Z) (n : nat)
    (i : Z) (lastError : option E) : Outcome * list Event :=
  match n with
  | O => (Threw lastError, [])
  | S n =>
      match fn (Z.to_nat i) with
      | inl value => (Returned value, [Called i])
      | inr error =>
          let pause :=
            if i <? retries - 1 then [Delayed delayMs] else [] in
          let '(outcome, events) :=
            retryFrom fn retries delayMs n (i + 1) (Some error) in
          (outcome, [Called i; Warned error i] ++ pause ++ events)
      end
  end.

(** [withRetry(fn, retries = 3, delayMs = 1000)] (lines 52-73), for an
    integer [retries]. *)
Definition withRetry (fn : nat -> T + E) (retries delayMs : Z)
  : Outcome * list Event :=
  retryFrom fn retries delayMs (Z.to_nat retries) 0 None.

Definition isCall (e : Event) : bool :=
  match e with Called _ => true | _ => false end.

Definition isDelay (e : Event) : bool :=
  match e with Delayed _ => true | _ => false end.

Definition calls (events : list Event) : Z :=
  len (List.filter isCall events).

Definition delays (events : list Event) : Z :=
  len (List.filter isDelay events).

End WithRetry.

Arguments Called {E} i.
Arguments Warned {E} error i.
Arguments Delayed {E} ms.
Arguments Returned {T E} value.
Arguments Threw {T E} lastError.
Arguments retryFrom {T E} fn retries delayMs n i lastError.
Arguments withRetry {T E} fn retries delayMs.
Arguments calls {E} events.
Arguments delays {E} events.
Arguments isCall {E} e.
Arguments isDelay {E} e.

End Helpers.

(* ===================================================================== *)
(** ** The saved tracking state ([src/index.ts], [src/utils/storage.ts]) *)
(* ===================================================================== *)

(** [startMonitoring] saves the tracked state before its clean-up (lines
    248-260, [saveAnalysisResult]) and the next run reads it back (lines
    58-77, [loadHistoryAnalysis]). *)
Module Storage.
Import JS Monitor.

Definition isFinite (x : number) : bool :=
  match x with Fin _ => true | _ => false end.

(** A number through [JSON.stringify] and [JSON.parse]: NaN and the
    infinities are written as [null]. *)
Definition jsonNumber (x : number) : option number :=
  if isFinite x then Some x else None.

(** Lines 249-258, then [JSON.stringify] and [JSON.parse]: the element of
    [historicalData] that an element of [trackingData] comes back as.
    (Each signal is taken to come back as it was written, which holds for
    the finite strengths that [persistable] asks for.) *)
Definition savedItem (item : TrackedSymbol) : HistoryItem :=
  {| h_symbol := Some (symbol item);
     h_lastPrice := jsonNumber (lastPrice item);
     h_highestPrice := jsonNumber (highestPrice item);
     h_timestamp := jsonNumber (lastUpdateTime item);
     h_signals := Some (signals item);
     h_downtrend := Some (downtrend item);
     h_downtrendConfirmed := Some (downtrendConfirmed item);
     h_downtrendNotified := Some (downtrendNotified item) |}.

(** What the next run reads when the file written by this one is the one
    [loadHistoryAnalysis] finds. *)
Definition reload (now : number) (c : Cycle) : gmap string TrackedSymbol :=
  fold_left (restoreItem now) (map savedItem (trackingData c)) (tracked c).

(** An entry that the file can hold and the restoration accepts: a
    non-empty symbol, and finite numbers other than 0. *)
Definition persistable (t : TrackedSymbol) : bool :=
  negb (String.eqb (symbol t) "")
  && (isFinite (lastPrice t) && truthy (lastPrice t))
  && (isFinite (highestPrice t) && truthy (highestPrice t))
  && (isFinite (lastUpdateTime t) && truthy (lastUpdateTime t))
  && forallb (fun s => isFinite (strength s)) (signals t).

End Storage.

(** OLDUSDT, last listed at 100 at time 1: eight days later nothing has
    touched it. *)
Module SampleOld.
Import JS.

Definition old : TrackedSymbol :=
  {| symbol := "OLDUSDT";
     lastPrice := ofZ 100;
     highestPrice := ofZ 100;
     lastUpdateTime := ofZ 1;
     signals := [];
     downtrend := false;
     downtrendConfirmed := false;
     downtrendNotified := false |}.

Definition eightDays : number := ofZ (8 * 24 * 60 * 60 * 1000).

Definition run : Monitor.Cycle :=
  Monitor.startMonitoring Sample.sqrtFloor Sample.fetch "1h"
    eightDays eightDays [] [] {[ "OLDUSDT" := old ]}.

End SampleOld.

(* ===================================================================== *)
(** ** src/backtesting/backtest.ts *)
(* ===================================================================== *)

Module Backtesting.
Import JS Analyzer.

Record PriceChanges : Type := mkPriceChanges {
  priceChange1d : number;
  priceChange3d : number;
  priceChange7d : number
}.

Record BacktestResult : Type := mkBacktestResult {
  b_symbol : string;
  b_signalPrice : number;
  b_probability : number;
  b_changes : PriceChanges;
  b_successful : bool
}.

Record BacktestConfig : Type := mkBacktestConfig {
  minProbability : number;
  successThreshold : number
}.

(** [candles.length > k ? ((candles[k].close - signalPrice) / signalPrice)
    * 100 : 0] *)
Definition changeAt (candles : list Candle) (signalPrice : number) (k : Z)
  : number :=
  if k <? len candles then
    mul (div (sub (at_ (map close candles) k) signalPrice) signalPrice)
        (ofZ 100)
  else ofZ 0.

Definition noChanges : PriceChanges :=
  {| priceChange1d := ofZ 0; priceChange3d := ofZ 0;
     priceChange7d := ofZ 0 |}.

(** [Math.min(a, b, c)] *)
Definition Math_min3 (a b c : number) : number :=
  Math_min (Math_min a b) c.

Section World.
Variable Math_sqrt : number -> number.
Variable fetchCandles : string -> string -> Z -> Fetched.

(** [getFuturePriceChanges(symbol, date)] (lines 73-118): a failed fetch,
    and the [TypeError] of [candles[0].close] on an empty array, end in the
    [catch] that returns three zeros. *)
Definition getFuturePriceChanges (symbol : string) : PriceChanges :=
  match fetchCandles symbol "1d" 10 with
  | FetchThrows => noChanges
  | Candles candles =>
      match candleAt candles 0 with
      | None => noChanges
      | Some first =>
          let signalPrice := close first in
          {| priceChange1d := changeAt candles signalPrice 1;
             priceChange3d := changeAt candles signalPrice 3;
             priceChange7d := changeAt candles signalPrice 7 |}
      end
  end.

(** [evaluateResult(result, date, config)] (lines 128-154). *)
Definition evaluateResult (result : AnalysisResult) (config : BacktestConfig)
  : BacktestResult :=
  let priceChanges := getFuturePriceChanges (r_symbol result) in
  let maxDrop :=
    Math_min3 (priceChange1d priceChanges) (priceChange3d priceChanges)
              (priceChange7d priceChanges) in
  let successful := le maxDrop (successThreshold config) in
  {| b_symbol := r_symbol result;
     b_signalPrice := r_price result;
     b_probability := r_probability result;
     b_changes := priceChanges;
     b_successful := successful |}.

(** [runDailyBacktest(date, config)] (lines 163-193); [gainersList] is what
    [getHistoricalGainers] resolves to, the empty list when
    [fetchGainersList] throws, and [now] the clock during the analysis. *)
Definition runDailyBacktest (now : number) (gainersList : list GainerInfo)
    (config : BacktestConfig) : list BacktestResult :=
  match gainersList with
  | [] => []
  | _ :: _ =>
      let analysisResults :=
        (analyzeSymbols Math_sqrt fetchCandles now
                        (map gainerSymbolInfo gainersList) "1h").1 in
      let highProbResults :=
        List.filter
          (fun result => ge (r_probability result) (minProbability config))
          analysisResults in
      map (fun result => evaluateResult result config) highProbResults
  end.

End World.

(** Lines 233-234 of [runBacktest]: [successCount] and [successRate]. *)
Definition successCount (results : list BacktestResult) : Z :=
  len (List.filter b_successful results).

Definition successRate (results : list BacktestResult) : number :=
  mul (div (ofZ (successCount results)) (ofZ (len results))) (ofZ 100).

End Backtesting.

(* ===================================================================== *)
(** ** src/analysis/index.ts *)
(* ===================================================================== *)

Module Analysis.
Import JS Technical.




End Analysis.


(* ===================================================================== *)
(** * Properties *)
(* ===================================================================== *)

(** ** Order and arithmetic of [JS.number] *)

Section NumberFacts.
Import JS.
Local Open Scope Qc_scope.

Lemma Qc_ltb_lt (x y : Qc) : Qc_ltb x y = true <-> x < y.
Proof.
  unfold Qc_ltb. rewrite Qclt_alt. destruct (x ?= y); intuition congruence.
Qed.

Lemma Qc_leb_le (x y : Qc) : Qc_leb x y = true <-> x <= y.
Proof.
  unfold Qc_leb. rewrite Qcle_alt. destruct (x ?= y); intuition congruence.
Qed.

Lemma Qc_eqb_eq (x y : Qc) : Qc_eqb x y = true <-> x = y.
Proof.
  unfold Qc_eqb. rewrite Qceq_alt. destruct (x ?= y); intuition congruence.
Qed.

Lemma Qc_ltb_nlt (x y : Qc) : Qc_ltb x y = false <-> y <= x.
Proof.
  rewrite <- not_true_iff_false, Qc_ltb_lt. split.
  - apply Qcnot_lt_le.
  - intros H1 H2. exact (Qcle_not_lt _ _ H1 H2).
Qed.


Lemma lt_irrefl (a : number) : lt a a = false.
Proof.
  destruct a; simpl; try reflexivity.
  apply Qc_ltb_nlt, Qcle_refl.
Qed.

Lemma lt_asym (a b : number) : lt a b = true -> lt b a = false.
Proof.
  destruct a, b; simpl; try congruence.
  rewrite Qc_ltb_lt, Qc_ltb_nlt. apply Qclt_le_weak.
Qed.

Lemma lt_trans (a b c : number) :
  lt a b = true -> lt b c = true -> lt a c = true.
Proof.
  destruct a, b, c; simpl; try congruence.
  rewrite !Qc_ltb_lt. apply Qclt_trans.
Qed.

Lemma gt_lt (a b : number) : gt a b = lt b a.
Proof. reflexivity. Qed.

Lemma ge_le (a b : number) : ge a b = le b a.
Proof. reflexivity. Qed.

Lemma lt_le (a b : number) : lt a b = true -> le a b = true.
Proof.
  destruct a, b; simpl; try congruence.
  rewrite Qc_ltb_lt, Qc_leb_le. apply Qclt_le_weak.
Qed.

Lemma zeroQc_0 : zeroQc = 0.
Proof. reflexivity. Qed.

(** A price measured against itself has dropped by 0 percent, or by NaN when
    the price is zero or not finite. *)
Lemma dropFromHigh_diag (p : number) :
  dropFromHigh p p = Fin 0 \/ dropFromHigh p p = NaN.
Proof.
  unfold dropFromHigh, sub.
  destruct p as [x| | |]; simpl; auto.
  rewrite Qcplus_opp_r.
  destruct (Qc_eqb x zeroQc) eqn:E; simpl.
  - right. reflexivity.
  - left. unfold Qcdiv. rewrite !Qcmult_0_l. reflexivity.
Qed.

Lemma dropFromHigh_diag_gt (p : number) : gt (dropFromHigh p p) c5 = false.
Proof. destruct (dropFromHigh_diag p) as [-> | ->]; reflexivity. Qed.

Lemma dropFromHigh_diag_ge (p : number) : ge (dropFromHigh p p) c5 = false.
Proof. destruct (dropFromHigh_diag p) as [-> | ->]; reflexivity. Qed.

End NumberFacts.

#[local] Arguments JS.lt : simpl never.
#[local] Arguments JS.le : simpl never.
#[local] Arguments JS.gt : simpl never.
#[local] Arguments JS.ge : simpl never.
#[local] Arguments dropFromHigh : simpl never.

(** ** One update of one tracked symbol *)

Lemma raised_refl (h : JS.number) : raised h h.
Proof. left. reflexivity. Qed.

Lemma raised_trans (a b c : JS.number) : raised a b -> raised b c -> raised a c.
Proof.
  intros [-> | Hab] [-> | Hbc]; unfold raised; auto.
  right. eapply lt_trans; eassumption.
Qed.

Lemma raised_not_below (h h' : JS.number) : raised h h' -> JS.lt h' h = false.
Proof.
  intros [-> | H]; [apply lt_irrefl | apply lt_asym, H].
Qed.

Section MonitorStepFacts.
Import JS Monitor.

Lemma monitor_update_high (g : GainerInfo) (now : number) (t : TrackedSymbol) :
  highestPrice (updateTracked g now t) =
  if gt (g_lastPrice g) (highestPrice t) then g_lastPrice g else highestPrice t.
Proof. unfold updateTracked. destruct (gt _ _); reflexivity. Qed.

Lemma monitor_update_last (g : GainerInfo) (now : number) (t : TrackedSymbol) :
  lastPrice (updateTracked g now t) = g_lastPrice g.
Proof. reflexivity. Qed.

Lemma monitor_update_flags_kept (g : GainerInfo) (now : number)
    (t : TrackedSymbol) :
  gt (g_lastPrice g) (highestPrice t) = false ->
  downtrend (updateTracked g now t) = downtrend t
  /\ downtrendConfirmed (updateTracked g now t) = downtrendConfirmed t
  /\ downtrendNotified (updateTracked g now t) = downtrendNotified t.
Proof. unfold updateTracked. intros ->. auto. Qed.

Lemma monitor_update_reset (g : GainerInfo) (now : number) (t : TrackedSymbol) :
  gt (g_lastPrice g) (highestPrice t) = true ->
  flagsCleared (updateTracked g now t).
Proof. unfold updateTracked, flagsCleared. intros ->. auto. Qed.

Lemma monitor_update_raised (g : GainerInfo) (now : number)
    (t : TrackedSymbol) :
  raised (highestPrice t) (highestPrice (updateTracked g now t)).
Proof.
  rewrite monitor_update_high.
  destruct (gt _ _) eqn:E; [right; exact E | left; reflexivity].
Qed.

Lemma applyResult_high (t : TrackedSymbol) (r : AnalysisResult) :
  highestPrice (applyResult t r).1.1 = highestPrice t.
Proof.
  unfold applyResult. simpl.
  repeat (match goal with |- context [if ?b then _ else _] => destruct b end;
          simpl); reflexivity.
Qed.

Lemma applyResult_last (t : TrackedSymbol) (r : AnalysisResult) :
  lastPrice (applyResult t r).1.1 = lastPrice t.
Proof.
  unfold applyResult. simpl.
  repeat (match goal with |- context [if ?b then _ else _] => destruct b end;
          simpl); reflexivity.
Qed.

(** The flags written by [applyResult], in closed form. *)
Lemma applyResult_flags (t : TrackedSymbol) (r : AnalysisResult) :
  let drop := dropFromHigh (highestPrice t) (lastPrice t) in
  let weak := gt (r_probability r) Analyzer.c70
              && lt (lastPrice t) (highestPrice t) && negb (downtrend t) in
  let conf := gt drop c5 && negb (downtrendConfirmed t) in
  downtrend (applyResult t r).1.1 = downtrend t || weak
  /\ downtrendConfirmed (applyResult t r).1.1 = downtrendConfirmed t || conf
  /\ downtrendNotified (applyResult t r).1.1 = downtrendNotified t || conf
  /\ ((applyResult t r).1.2 <> [] <-> weak = true)
  /\ ((applyResult t r).2 <> [] <-> conf && negb (downtrendNotified t) = true)
  /\ (length (applyResult t r).2 <= 1)%nat.
Proof.
  destruct t as [sym last high time sigs d c n].
  unfold applyResult. cbn -[gt lt dropFromHigh].
  destruct (gt (r_probability r) Analyzer.c70), (lt last high), d, c, n,
           (gt (dropFromHigh high last) c5);
    cbn; repeat split; intros; (congruence || lia || auto).
Qed.

End MonitorStepFacts.

Section BacktestStepFacts.
Import JS Backtest.

(** The fields written by the backtest's [updateTracked], in closed form. *)
Lemma backtest_update_fields (results : list AnalysisResult) (sym : string)
    (p date : number) (t : TrackedSymbol) :
  let t' := updateTracked results sym p date t in
  let newHigh := gt p (highestPrice t) in
  let d0 := if newHigh then false else downtrend t in
  let c0 := if newHigh then false else downtrendConfirmed t in
  let high' := if newHigh then p else highestPrice t in
  let d1 := d0 || lt p (lastPrice t) in
  let conf := d1 && ge (dropFromHigh high' p) c5 && negb c0 in
  highestPrice t' = high'
  /\ lastPrice t' = p
  /\ downtrend t' = d1
  /\ downtrendConfirmed t' = c0 || conf
  /\ downtrendNotified t' = (if newHigh then false else downtrendNotified t).
Proof.
  destruct t as [s last high time sigs d c n].
  unfold updateTracked. cbn -[gt lt ge dropFromHigh findResult].
  destruct (gt p high); cbn -[gt lt ge dropFromHigh findResult].
  - destruct (lt p last); cbn -[gt lt ge dropFromHigh findResult];
      [destruct (findResult results sym)|];
      cbn -[gt lt ge dropFromHigh];
      destruct (ge (dropFromHigh p p) c5); cbn; auto.
  - destruct (lt p last), d; cbn -[gt lt ge dropFromHigh findResult];
      try destruct (findResult results sym);
      cbn -[gt lt ge dropFromHigh];
      destruct (ge (dropFromHigh high p) c5), c; cbn; auto.
Qed.

Lemma backtest_update_raised (results : list AnalysisResult) (sym : string)
    (p date : number) (t : TrackedSymbol) :
  raised (highestPrice t) (highestPrice (updateTracked results sym p date t)).
Proof.
  destruct (backtest_update_fields results sym p date t) as (-> & _).
  destruct (gt _ _) eqn:E; [right; exact E | left; reflexivity].
Qed.

(** The fields written by [scanTracked], in closed form. *)
Lemma scanTracked_fields (results : list AnalysisResult) (sym : string)
    (t : TrackedSymbol) :
  let out := scanTracked results sym t in
  let fresh := downtrendConfirmed t && negb (downtrendNotified t) in
  highestPrice out.1.1 = highestPrice t
  /\ lastPrice out.1.1 = lastPrice t
  /\ downtrend out.1.1 = downtrend t
  /\ downtrendConfirmed out.1.1 = downtrendConfirmed t
  /\ downtrendNotified out.1.1 = downtrendNotified t || downtrendConfirmed t
  /\ (out.2 <> [] <-> fresh = true)
  /\ (length out.2 <= 1)%nat.
Proof.
  destruct t as [s last high time sigs d c n].
  unfold scanTracked. cbn -[dropFromHigh findResult].
  destruct (findResult results sym), d, c, n; cbn;
    repeat split; intros; (congruence || lia || auto).
Qed.

End BacktestStepFacts.

(** ** Invariants of the reachable states *)

Section Invariants.
Import JS.





Lemma backtest_new_inv (sym : string) (p date : number) :
  backtestInv (Backtest.newTracked sym p date).
Proof.
  unfold backtestInv. cbn -[lt]. rewrite lt_irrefl. auto.
Qed.

Lemma backtest_update_inv (results : list AnalysisResult) (sym : string)
    (p date : number) (t : TrackedSymbol) :
  backtestInv t -> backtestInv (Backtest.updateTracked results sym p date t).
Proof.
  intros (Hlast & Hnc & Hcd). unfold backtestInv.
  destruct (backtest_update_fields results sym p date t)
    as (-> & -> & -> & -> & ->).
  destruct (gt p (highestPrice t)) eqn:Hhigh.
  - assert (lt p (lastPrice t) = false) as ->.
    { destruct (lt p (lastPrice t)) eqn:E; [|reflexivity].
      rewrite <- Hlast. symmetry. eapply lt_trans; eassumption. }
    rewrite lt_irrefl. cbn. auto.
  - split; [exact Hhigh|].
    destruct (downtrend t), (downtrendConfirmed t), (downtrendNotified t),
             (lt p (lastPrice t)), (ge (dropFromHigh (highestPrice t) p) c5);
      cbn in *; auto.
Qed.

Lemma backtest_scan_inv (results : list AnalysisResult) (sym : string)
    (t : TrackedSymbol) :
  backtestInv t -> backtestInv (Backtest.scanTracked results sym t).1.1.
Proof.
  intros (Hlast & Hnc & Hcd). unfold backtestInv.
  destruct (scanTracked_fields results sym t)
    as (-> & -> & -> & -> & -> & _).
  split; [exact Hlast|].
  destruct (downtrend t), (downtrendConfirmed t), (downtrendNotified t);
    cbn in *; auto.
Qed.

Lemma backtest_step_inv (t : TrackedSymbol) (e : BacktestTrace.Event) :
  backtestInv t -> backtestInv (BacktestTrace.step t e).1.1.
Proof.
  destruct e; cbn [BacktestTrace.step fst];
    [apply backtest_update_inv | apply backtest_scan_inv].
Qed.

Lemma backtest_run_inv (es : list BacktestTrace.Event) (t : TrackedSymbol) :
  backtestInv t -> backtestInv (BacktestTrace.run t es).1.1.
Proof.
  revert t. induction es as [|e es IH]; intros t Ht; [exact Ht|].
  cbn [BacktestTrace.run].
  pose proof (backtest_step_inv t e Ht) as H1.
  destruct (BacktestTrace.step t e) as [[t1 w1] c1].
  specialize (IH t1 H1).
  destruct (BacktestTrace.run t1 es) as [[t2 w2] c2]. exact IH.
Qed.

Lemma backtest_reachable_inv (t : TrackedSymbol) :
  BacktestTrace.Reachable t -> backtestInv t.
Proof.
  intros (sym & p & date & es & <-). apply backtest_run_inv, backtest_new_inv.
Qed.

End Invariants.

(** ** The loops over the map, seen from one symbol *)

Section MonitorLoops.
Import JS Monitor MonitorTrace.

Lemma monitor_run_cons (t : TrackedSymbol) (e : Event) (es : list Event) :
  run t (e :: es) =
  ((run (step t e).1.1 es).1.1,
   (step t e).1.2 ++ (run (step t e).1.1 es).1.2,
   (step t e).2 ++ (run (step t e).1.1 es).2).
Proof.
  cbn [run]. destruct (step t e) as [[t1 w1] c1]. cbn [fst snd].
  destruct (run t1 es) as [[t2 w2] c2]. reflexivity.
Qed.

Lemma monitor_run_app (es1 es2 : list Event) (t : TrackedSymbol) :
  run t (es1 ++ es2) =
  ((run (run t es1).1.1 es2).1.1,
   (run t es1).1.2 ++ (run (run t es1).1.1 es2).1.2,
   (run t es1).2 ++ (run (run t es1).1.1 es2).2).
Proof.
  revert t. induction es1 as [|e es1 IH]; intros t.
  - cbn [app run fst snd]. destruct (run t es2) as [[t2 w2] c2]. reflexivity.
  - rewrite <- app_comm_cons, !monitor_run_cons, IH.
    cbn [fst snd]. rewrite <- !app_assoc. reflexivity.
Qed.

(** Observations queue nothing. *)
Lemma observations_silent (now : number) (s : string)
    (gs : list GainerInfo) (t : TrackedSymbol) :
  (run t (observations now s gs)).1.2 = []
  /\ (run t (observations now s gs)).2 = [].
Proof.
  unfold observations. revert t.
  induction (filter (fun g => g_symbol g = s) gs) as [|g l IH]; intros t.
  - split; reflexivity.
  - cbn [map]. rewrite monitor_run_cons. cbn [step fst snd app]. apply IH.
Qed.

(** The loop over [gainersList], for a symbol that is already tracked. *)
Lemma trackGainer_loop_tracked (now : number) (gs : list GainerInfo)
    (m : gmap string TrackedSymbol) (s : string) (t : TrackedSymbol) :
  m !! s = Some t ->
  fold_left (trackGainer now) gs m !! s =
  Some (run t (observations now s gs)).1.1.
Proof.
  revert m t. induction gs as [|g gs IH]; intros m t Hm; [exact Hm|].
  cbn [fold_left]. unfold observations. rewrite filter_cons.
  destruct (decide (g_symbol g = s)) as [Hs | Hs].
  - cbn [map]. rewrite monitor_run_cons. cbn [step fst].
    apply IH. unfold trackGainer. rewrite Hs, Hm. apply lookup_insert_eq.
  - apply IH. unfold trackGainer.
    destruct (m !! g_symbol g); rewrite lookup_insert_ne; auto.
Qed.

(** The loop over [gainersList], for a symbol that is not tracked yet: it
    stays out, or its first entry creates it and the later ones update
    it. *)
Lemma trackGainer_loop_new (now : number) (gs : list GainerInfo)
    (m : gmap string TrackedSymbol) (s : string) :
  m !! s = None ->
  fold_left (trackGainer now) gs m !! s =
  match filter (fun g => g_symbol g = s) gs with
  | [] => None
  | g :: rest =>
      Some (run (newTracked g now) (map (fun g => Observed g now) rest)).1.1
  end.
Proof.
  revert m. induction gs as [|g gs IH]; intros m Hm; [exact Hm|].
  cbn [fold_left]. rewrite filter_cons.
  destruct (decide (g_symbol g = s)) as [Hs | Hs].
  - apply trackGainer_loop_tracked.
    unfold trackGainer. rewrite Hs, Hm. apply lookup_insert_eq.
  - apply IH. unfold trackGainer.
    destruct (m !! g_symbol g); rewrite lookup_insert_ne; auto.
Qed.

Lemma applyResult_alert_symbols (t : TrackedSymbol) (r : AnalysisResult) :
  Forall (fun a => a_symbol a = r_symbol r) (applyResult t r).1.2
  /\ Forall (fun a => a_symbol a = r_symbol r) (applyResult t r).2.
Proof.
  destruct t as [sym last high time sigs d c n].
  unfold applyResult. cbn -[gt lt dropFromHigh].
  destruct (gt (r_probability r) Analyzer.c70 && lt last high && negb d),
           (gt (dropFromHigh high last) c5), c, n;
    cbn; split; repeat constructor.
Qed.

Lemma filter_all {A} (P : A -> Prop) `{!forall x, Decision (P x)}
    (l : list A) : Forall P l -> filter P l = l.
Proof.
  induction 1 as [|x l Hx _ IH]; [reflexivity|].
  rewrite filter_cons_True by assumption. rewrite IH. reflexivity.
Qed.

Lemma filter_none {A} (P Q : A -> Prop) `{!forall x, Decision (P x)}
    (l : list A) : Forall Q l -> (forall x, Q x -> ~ P x) -> filter P l = [].
Proof.
  intros Hl HQ. induction Hl as [|x l Hx _ IH]; [reflexivity|].
  rewrite filter_cons_False by auto. exact IH.
Qed.

Lemma alertsOf_app (s : string) (q1 q2 : list Alert) :
  alertsOf s (q1 ++ q2) = alertsOf s q1 ++ alertsOf s q2.
Proof. apply filter_app. Qed.

Lemma alertsOf_all (s : string) (q : list Alert) :
  Forall (fun a => a_symbol a = s) q -> alertsOf s q = q.
Proof. apply filter_all. Qed.

Lemma alertsOf_none (s s' : string) (q : list Alert) :
  Forall (fun a => a_symbol a = s') q -> s' <> s -> alertsOf s q = [].
Proof.
  intros Hq Hs. unfold alertsOf.
  apply filter_none with (Q := fun a => a_symbol a = s'); [exact Hq|].
  intros a ->. exact Hs.
Qed.

Lemma analyses_cons (s : string) (r : AnalysisResult)
    (rs : list AnalysisResult) :
  analyses s (r :: rs) =
  if decide (r_symbol r = s) then Analysed r :: analyses s rs
  else analyses s rs.
Proof.
  unfold analyses. rewrite filter_cons. destruct (decide _); reflexivity.
Qed.

Lemma processResult_unfold (m : gmap string TrackedSymbol)
    (w c : list Alert) (r : AnalysisResult) :
  processResult (m, w, c) r =
  match m !! r_symbol r with
  | None => (m, w, c)
  | Some t =>
      (<[r_symbol r := (applyResult t r).1.1]> m,
       w ++ (applyResult t r).1.2, c ++ (applyResult t r).2)
  end.
Proof.
  unfold processResult. destruct (m !! r_symbol r) as [t|]; [|reflexivity].
  destruct (applyResult t r) as [[t1 w1] c1]. reflexivity.
Qed.

(** The loop over [results], seen from the symbol [s]. *)
Lemma processResult_loop (rs : list AnalysisResult)
    (m : gmap string TrackedSymbol) (w c : list Alert) (s : string) :
  (fold_left processResult rs (m, w, c)).1.1 !! s =
    (fun t => (run t (analyses s rs)).1.1) <$> (m !! s)
  /\ alertsOf s (fold_left processResult rs (m, w, c)).1.2 =
     alertsOf s w ++ match m !! s with
                     | Some t => (run t (analyses s rs)).1.2
                     | None => []
                     end
  /\ alertsOf s (fold_left processResult rs (m, w, c)).2 =
     alertsOf s c ++ match m !! s with
                     | Some t => (run t (analyses s rs)).2
                     | None => []
                     end.
Proof.
  revert m w c. induction rs as [|r rs IH]; intros m w c.
  - cbn [fold_left fst snd].
    destruct (m !! s); cbn; rewrite ?app_nil_r; auto.
  - cbn [fold_left]. rewrite processResult_unfold, analyses_cons.
    destruct (m !! r_symbol r) as [t0|] eqn:Hr.
    + pose proof (applyResult_alert_symbols t0 r) as [Hw1 Hc1].
      destruct (applyResult t0 r) as [[t1 w1] c1] eqn:Hap.
      cbn [fst snd] in *.
      destruct (IH (<[r_symbol r := t1]> m) (w ++ w1) (c ++ c1))
        as (IH1 & IH2 & IH3).
      rewrite IH1, IH2, IH3, !alertsOf_app.
      destruct (decide (r_symbol r = s)) as [Hs | Hs].
      * rewrite <- Hs in *. rewrite lookup_insert_eq, Hr.
        cbn [fmap option_fmap option_map].
        rewrite monitor_run_cons. cbn [step fst snd]. rewrite Hap.
        cbn [fst snd].
        rewrite (alertsOf_all _ w1), (alertsOf_all _ c1) by assumption.
        rewrite <- !app_assoc. auto.
      * rewrite lookup_insert_ne by exact Hs.
        rewrite (alertsOf_none _ (r_symbol r) w1),
                (alertsOf_none _ (r_symbol r) c1) by auto.
        rewrite !app_nil_r. auto.
    + destruct (IH m w c) as (IH1 & IH2 & IH3).
      rewrite IH1, IH2, IH3.
      destruct (decide (r_symbol r = s)) as [Hs | Hs]; [|auto].
      rewrite <- Hs, Hr. auto.
Qed.

(** The clean-up loop never brings an entry back. *)
Lemma cleanEntry_loop_gone (now : number)
    (l : list (string * TrackedSymbol))
    (acc : gmap string TrackedSymbol * Z) (s : string) :
  acc.1 !! s = None -> (fold_left (cleanEntry now) l acc).1 !! s = None.
Proof.
  revert acc. induction l as [|[k v] l IH]; intros [m n] Hm; [exact Hm|].
  cbn [fold_left]. apply IH. unfold cleanEntry. cbn [fst snd] in *.
  destruct (inactive now v); cbn [fst]; [|exact Hm].
  destruct (decide (k = s)) as [-> | Hk];
    [apply lookup_delete_eq | rewrite lookup_delete_ne; auto].
Qed.

(** It deletes the key of every inactive entry it visits. *)
Lemma cleanEntry_loop_deleted (now : number)
    (l : list (string * TrackedSymbol))
    (acc : gmap string TrackedSymbol * Z) (s : string) (t : TrackedSymbol) :
  (s, t) ∈ l -> inactive now t = true ->
  (fold_left (cleanEntry now) l acc).1 !! s = None.
Proof.
  revert acc. induction l as [|[k v] l IH]; intros [m n] Hin Ht.
  - inversion Hin.
  - cbn [fold_left]. apply elem_of_cons in Hin as [Heq | Hin].
    + inversion Heq; subst k v. apply cleanEntry_loop_gone.
      unfold cleanEntry. cbn [snd]. rewrite Ht. apply lookup_delete_eq.
    + apply IH; assumption.
Qed.

(** It leaves alone every key whose visited entries are all active. *)
Lemma cleanEntry_loop_kept (now : number)
    (l : list (string * TrackedSymbol))
    (acc : gmap string TrackedSymbol * Z) (s : string) :
  (forall t, (s, t) ∈ l -> inactive now t = false) ->
  (fold_left (cleanEntry now) l acc).1 !! s = acc.1 !! s.
Proof.
  revert acc. induction l as [|[k v] l IH]; intros [m n] Hl; [reflexivity|].
  cbn [fold_left]. rewrite IH.
  - unfold cleanEntry. cbn [fst snd].
    destruct (inactive now v) eqn:Hv; cbn [fst]; [|reflexivity].
    apply lookup_delete_ne. intros ->.
    rewrite Hl in Hv; [discriminate | left].
  - intros t Ht. apply Hl. right. exact Ht.
Qed.

(** The clean-up, seen from the symbol [s]. *)
Lemma cleanup_lookup (now : number) (m : gmap string TrackedSymbol)
    (s : string) :
  (cleanup now m).1 !! s =
  match m !! s with
  | Some t => if inactive now t then None else Some t
  | None => None
  end.
Proof.
  unfold cleanup. destruct (m !! s) as [t|] eqn:Hm.
  - destruct (inactive now t) eqn:Ht.
    + apply cleanEntry_loop_deleted with t; [|exact Ht].
      apply elem_of_map_to_list. exact Hm.
    + rewrite cleanEntry_loop_kept; [exact Hm|].
      intros t' Ht'. apply elem_of_map_to_list in Ht'.
      rewrite Hm in Ht'. inversion Ht'; subst. exact Ht.
  - apply cleanEntry_loop_gone. exact Hm.
Qed.

End MonitorLoops.

Section MonitorCycle.
Import JS Monitor MonitorTrace.
Variable Math_sqrt : number -> number.
Variable fetchCandles : string -> string -> Z -> Analyzer.Fetched.
Variables (interval : string) (now cleanupNow : number).

(** One cycle of the monitor, seen from a symbol that was tracked when the
    cycle began: its state goes through the events of the cycle and is then
    dropped if inactive, and its alerts are those of the events. *)
Lemma monitoringCycle_tracked (gainersList : list GainerInfo)
    (m : gmap string TrackedSymbol) (s : string) (t : TrackedSymbol) :
  m !! s = Some t ->
  let c := monitoringCycle Math_sqrt fetchCandles interval now cleanupNow
                           gainersList m in
  let out := run t (cycleEvents Math_sqrt fetchCandles interval now
                                gainersList m s) in
  tracked c !! s = (if inactive cleanupNow out.1.1 then None
                    else Some out.1.1)
  /\ alertsOf s (weakBullishSymbols c) = out.1.2
  /\ alertsOf s (confirmedDowntrendSymbols c) = out.2.
Proof.
  intros Hm c out. subst c out. unfold monitoringCycle, cycleEvents.
  pose proof (trackGainer_loop_tracked now gainersList m s t Hm) as H1.
  pose proof (observations_silent now s gainersList t) as [Hw Hc].
  set (m1 := fold_left (trackGainer now) gainersList m) in *.
  destruct (Analyzer.analyzeSymbols Math_sqrt fetchCandles now
              (symbolsToAnalyze m1) interval) as [results warns].
  cbn [fst].
  destruct (processResult_loop results m1 [] [] s) as (H2 & H3 & H4).
  destruct (fold_left processResult results (m1, [], []))
    as [[m2 weak] confirmed].
  cbn [fst snd] in *.
  pose proof (cleanup_lookup cleanupNow m2 s) as H5.
  destruct (cleanup cleanupNow m2) as [m3 n]. cbn [fst tracked
    weakBullishSymbols confirmedDowntrendSymbols] in *.
  rewrite monitor_run_app, Hw, Hc. cbn [fst snd app].
  rewrite H1 in H2, H3, H4. cbn in H2, H3, H4.
  rewrite H5, H2, H3, H4. auto.
Qed.

End MonitorCycle.

Section BacktestLoops.
Import JS Backtest BacktestTrace.

Lemma backtest_run_cons (t : TrackedSymbol) (e : Event) (es : list Event) :
  run t (e :: es) =
  ((run (step t e).1.1 es).1.1,
   (step t e).1.2 ++ (run (step t e).1.1 es).1.2,
   (step t e).2 ++ (run (step t e).1.1 es).2).
Proof.
  cbn [run]. destruct (step t e) as [[t1 w1] c1]. cbn [fst snd].
  destruct (run t1 es) as [[t2 w2] c2]. reflexivity.
Qed.

Lemma backtest_run_app (es1 es2 : list Event) (t : TrackedSymbol) :
  run t (es1 ++ es2) =
  ((run (run t es1).1.1 es2).1.1,
   (run t es1).1.2 ++ (run (run t es1).1.1 es2).1.2,
   (run t es1).2 ++ (run (run t es1).1.1 es2).2).
Proof.
  revert t. induction es1 as [|e es1 IH]; intros t.
  - cbn [app run fst snd]. destruct (run t es2) as [[t2 w2] c2]. reflexivity.
  - rewrite <- app_comm_cons, !backtest_run_cons, IH.
    cbn [fst snd]. rewrite <- !app_assoc. reflexivity.
Qed.

Lemma backtest_observed_silent (results : list AnalysisResult) (s : string)
    (date : number) (gs : list GainerInfo) (t : TrackedSymbol) :
  let es := map (fun g => Observed results s (g_lastPrice g) date) gs in
  (run t es).1.2 = [] /\ (run t es).2 = [].
Proof.
  cbn zeta. revert t. induction gs as [|g gs IH]; intros t.
  - split; reflexivity.
  - cbn [map]. rewrite backtest_run_cons. cbn [step fst snd app]. apply IH.
Qed.

(** The loop over [gainers], for a symbol that is already tracked. *)
Lemma backtest_trackGainer_loop (results : list AnalysisResult)
    (date : number) (gs : list GainerInfo)
    (m : gmap string TrackedSymbol) (s : string) (t : TrackedSymbol) :
  m !! s = Some t ->
  fold_left (trackGainer results date) gs m !! s =
  Some (run t (map (fun g => Observed results s (g_lastPrice g) date)
                   (filter (fun g => g_symbol g = s) gs))).1.1.
Proof.
  revert m t. induction gs as [|g gs IH]; intros m t Hm; [exact Hm|].
  cbn [fold_left]. rewrite filter_cons.
  destruct (decide (g_symbol g = s)) as [Hs | Hs].
  - cbn [map]. rewrite backtest_run_cons. cbn [step fst].
    apply IH. unfold trackGainer. rewrite Hs, Hm. apply lookup_insert_eq.
  - apply IH. unfold trackGainer.
    destruct (m !! g_symbol g); rewrite lookup_insert_ne; auto.
Qed.

Lemma findResult_symbol (results : list AnalysisResult) (s : string)
    (r : AnalysisResult) :
  findResult results s = Some r -> r_symbol r = s.
Proof.
  unfold findResult. intros H. apply find_some in H as [_ H].
  apply String.eqb_eq. exact H.
Qed.

Lemma scanTracked_symbols (results : list AnalysisResult) (s : string)
    (t : TrackedSymbol) :
  Forall (fun r => r_symbol r = s) (scanTracked results s t).1.2
  /\ Forall (fun r => r_symbol r = s) (scanTracked results s t).2.
Proof.
  destruct t as [sym last high time sigs d c n].
  unfold scanTracked. cbn -[dropFromHigh findResult].
  destruct (findResult results s) as [r|] eqn:Hr;
    [apply findResult_symbol in Hr|];
    destruct d, c, n; cbn; split; repeat constructor; auto.
Qed.

Lemma signalsOf_app (s : string) (q1 q2 : list AnalysisResult) :
  signalsOf s (q1 ++ q2) = signalsOf s q1 ++ signalsOf s q2.
Proof. apply filter_app. Qed.

Lemma signalsOf_all (s : string) (q : list AnalysisResult) :
  Forall (fun r => r_symbol r = s) q -> signalsOf s q = q.
Proof. apply filter_all. Qed.

Lemma signalsOf_none (s s' : string) (q : list AnalysisResult) :
  Forall (fun r => r_symbol r = s') q -> s' <> s -> signalsOf s q = [].
Proof.
  intros Hq Hs. unfold signalsOf.
  apply filter_none with (Q := fun r => r_symbol r = s'); [exact Hq|].
  intros a ->. exact Hs.
Qed.

Lemma scanEntry_unfold (results : list AnalysisResult)
    (m : gmap string TrackedSymbol) (u c : list AnalysisResult)
    (k : string) (v : TrackedSymbol) :
  scanEntry results (m, u, c) (k, v) =
  (<[k := (scanTracked results k v).1.1]> m,
   u ++ (scanTracked results k v).1.2, c ++ (scanTracked results k v).2).
Proof.
  unfold scanEntry. cbn [fst snd].
  destruct (scanTracked results k v) as [[t1 u1] c1]. reflexivity.
Qed.

(** The second loop leaves alone the symbols that are not among the entries
    it visits. *)
Lemma scanEntry_loop_other (results : list AnalysisResult)
    (l : list (string * TrackedSymbol))
    (m : gmap string TrackedSymbol) (u c : list AnalysisResult) (s : string) :
  s ∉ l.*1 ->
  (fold_left (scanEntry results) l (m, u, c)).1.1 !! s = m !! s
  /\ signalsOf s (fold_left (scanEntry results) l (m, u, c)).1.2 =
     signalsOf s u
  /\ signalsOf s (fold_left (scanEntry results) l (m, u, c)).2 =
     signalsOf s c.
Proof.
  revert m u c. induction l as [|[k v] l IH]; intros m u c Hs; [auto|].
  cbn [fold_left]. rewrite scanEntry_unfold.
  rewrite fmap_cons in Hs. cbn [fst] in Hs.
  apply not_elem_of_cons in Hs as [Hk Hs].
  destruct (scanTracked_symbols results k v) as [Hu1 Hc1].
  destruct (IH (<[k := (scanTracked results k v).1.1]> m)
               (u ++ (scanTracked results k v).1.2)
               (c ++ (scanTracked results k v).2) Hs) as (-> & -> & ->).
  rewrite lookup_insert_ne by auto. rewrite !signalsOf_app.
  rewrite (signalsOf_none s k _ Hu1), (signalsOf_none s k _ Hc1) by auto.
  rewrite !app_nil_r. auto.
Qed.

(** The second loop visits each entry once. *)
Lemma scanEntry_loop_visited (results : list AnalysisResult)
    (l : list (string * TrackedSymbol))
    (m : gmap string TrackedSymbol) (u c : list AnalysisResult)
    (s : string) (t : TrackedSymbol) :
  NoDup l.*1 -> (s, t) ∈ l ->
  (fold_left (scanEntry results) l (m, u, c)).1.1 !! s =
    Some (scanTracked results s t).1.1
  /\ signalsOf s (fold_left (scanEntry results) l (m, u, c)).1.2 =
     signalsOf s u ++ (scanTracked results s t).1.2
  /\ signalsOf s (fold_left (scanEntry results) l (m, u, c)).2 =
     signalsOf s c ++ (scanTracked results s t).2.
Proof.
  revert m u c. induction l as [|[k v] l IH]; intros m u c Hnd Hin.
  - inversion Hin.
  - rewrite fmap_cons in Hnd. cbn [fst] in Hnd.
    apply NoDup_cons in Hnd as [Hk Hnd].
    cbn [fold_left]. rewrite scanEntry_unfold.
    destruct (scanTracked_symbols results k v) as [Hu1 Hc1].
    apply elem_of_cons in Hin as [Heq | Hin].
    + inversion Heq; subst k v.
      destruct (scanEntry_loop_other results l
                  (<[s := (scanTracked results s t).1.1]> m)
                  (u ++ (scanTracked results s t).1.2)
                  (c ++ (scanTracked results s t).2) s Hk) as (-> & -> & ->).
      rewrite lookup_insert_eq, !signalsOf_app.
      rewrite (signalsOf_all s _ Hu1), (signalsOf_all s _ Hc1). auto.
    + assert (k <> s) as Hks.
      { intros ->. apply Hk. apply list_elem_of_fmap. exists (s, t). auto. }
      destruct (IH (<[k := (scanTracked results k v).1.1]> m)
                   (u ++ (scanTracked results k v).1.2)
                   (c ++ (scanTracked results k v).2) Hnd Hin)
        as (-> & -> & ->).
      rewrite !signalsOf_app.
      rewrite (signalsOf_none s k _ Hu1), (signalsOf_none s k _ Hc1) by auto.
      rewrite !app_nil_r. auto.
Qed.

Section Day.
Variable Math_sqrt : number -> number.
Variable fetchCandles : string -> string -> Z -> Analyzer.Fetched.

(** One day of the backtest, seen from a symbol that was tracked when the
    day began. *)
Lemma processDay_tracked (date now : number) (gainers : list GainerInfo)
    (interval : string) (m : gmap string TrackedSymbol)
    (s : string) (t : TrackedSymbol) :
  m !! s = Some t ->
  let d := processDay Math_sqrt fetchCandles date now gainers interval m in
  let results :=
    (Analyzer.analyzeSymbols Math_sqrt fetchCandles now
       (map gainerSymbolInfo gainers) interval).1 in
  let out := run t (dayEvents results date s gainers) in
  allSymbols d !! s = Some out.1.1
  /\ signalsOf s (uptrendFailureSignals d) = out.1.2
  /\ signalsOf s (downtrendConfirmedSignals d) = out.2.
Proof.
  intros Hm d results out. subst d results out.
  unfold processDay, dayEvents.
  destruct (Analyzer.analyzeSymbols Math_sqrt fetchCandles now
              (map gainerSymbolInfo gainers) interval) as [results warns].
  cbn [fst].
  pose proof (backtest_trackGainer_loop results date gainers m s t Hm) as H1.
  pose proof (backtest_observed_silent results s date
                (filter (fun g => g_symbol g = s) gainers) t) as [Hu Hc].
  set (m1 := fold_left (trackGainer results date) gainers m) in *.
  set (es := map (fun g => Observed results s (g_lastPrice g) date)
                 (filter (fun g => g_symbol g = s) gainers)) in *.
  destruct (scanEntry_loop_visited results (map_to_list m1) m1 [] [] s
              (run t es).1.1) as (H2 & H3 & H4).
  { apply NoDup_fst_map_to_list. }
  { apply elem_of_map_to_list. exact H1. }
  destruct (fold_left (scanEntry results) (map_to_list m1) (m1, [], []))
    as [[m2 up] confirmed].
  cbn [fst snd allSymbols uptrendFailureSignals downtrendConfirmedSignals]
    in *.
  rewrite backtest_run_app, Hu, Hc. cbn [fst snd app run step].
  destruct (scanTracked results s (run t es).1.1) as [[t2 u2] c2].
  cbn [fst snd] in *. rewrite !app_nil_r. auto.
Qed.

End Day.

End BacktestLoops.

(** ** The recorded high along the events of one symbol *)

Section HighAlongRuns.
Import JS.

Lemma monitor_run_high (es : list MonitorTrace.Event) (t : TrackedSymbol) :
  let t' := (MonitorTrace.run t es).1.1 in
  highestPrice t' = highestPrice t
  \/ exists g now,
       In (MonitorTrace.Observed g now) es
       /\ highestPrice t' = g_lastPrice g
       /\ lt (highestPrice t) (g_lastPrice g) = true.
Proof.
  cbn zeta. revert t. induction es as [|e es IH]; intros t; [left; reflexivity|].
  rewrite monitor_run_cons. cbn [fst].
  destruct (IH (MonitorTrace.step t e).1.1) as [IH1 | (g & now & Hin & Hh & Hlt)];
    clear IH.
  - rewrite IH1. destruct e as [g now | r]; cbn [MonitorTrace.step fst].
    + rewrite monitor_update_high.
      destruct (gt (g_lastPrice g) (highestPrice t)) eqn:E; [|left; reflexivity].
      right. exists g, now. repeat split; [left; reflexivity | exact E].
    + left. apply applyResult_high.
  - right. exists g, now. split; [right; exact Hin|]. split; [exact Hh|].
    destruct e as [g0 now0 | r]; cbn [MonitorTrace.step fst] in Hlt.
    + rewrite monitor_update_high in Hlt.
      destruct (gt (g_lastPrice g0) (highestPrice t)) eqn:E; [|exact Hlt].
      eapply lt_trans; [exact E | exact Hlt].
    + rewrite applyResult_high in Hlt. exact Hlt.
Qed.

Lemma backtest_run_high (es : list BacktestTrace.Event) (t : TrackedSymbol) :
  let t' := (BacktestTrace.run t es).1.1 in
  highestPrice t' = highestPrice t
  \/ exists results sym p date,
       In (BacktestTrace.Observed results sym p date) es
       /\ highestPrice t' = p
       /\ lt (highestPrice t) p = true.
Proof.
  cbn zeta. revert t. induction es as [|e es IH]; intros t; [left; reflexivity|].
  rewrite backtest_run_cons. cbn [fst].
  destruct (IH (BacktestTrace.step t e).1.1)
    as [IH1 | (rs & sym & p & date & Hin & Hh & Hlt)]; clear IH.
  - rewrite IH1. destruct e as [rs sym p date | rs sym];
      cbn [BacktestTrace.step fst].
    + destruct (backtest_update_fields rs sym p date t) as (-> & _).
      destruct (gt p (highestPrice t)) eqn:E; [|left; reflexivity].
      right. exists rs, sym, p, date.
      repeat split; [left; reflexivity | exact E].
    + left. apply (scanTracked_fields rs sym t).
  - right. exists rs, sym, p, date.
    split; [right; exact Hin|]. split; [exact Hh|].
    destruct e as [rs0 sym0 p0 date0 | rs0 sym0];
      cbn [BacktestTrace.step fst] in Hlt.
    + destruct (backtest_update_fields rs0 sym0 p0 date0 t) as (Hf & _).
      rewrite Hf in Hlt.
      destruct (gt p0 (highestPrice t)) eqn:E; [|exact Hlt].
      eapply lt_trans; [exact E | exact Hlt].
    + destruct (scanTracked_fields rs0 sym0 t) as (Hf & _).
      rewrite Hf in Hlt. exact Hlt.
Qed.

(** A symbol sitting on its high with cleared flags stays so under analysis
    results. *)
Lemma monitor_analyses_on_high (s : string) (rs : list AnalysisResult)
    (t : TrackedSymbol) :
  lastPrice t = highestPrice t -> flagsCleared t ->
  flagsCleared (MonitorTrace.run t (MonitorTrace.analyses s rs)).1.1
  /\ (MonitorTrace.run t (MonitorTrace.analyses s rs)).2 = [].
Proof.
  unfold MonitorTrace.analyses.
  revert t. induction (filter (fun r => r_symbol r = s) rs) as [|r l IH];
    intros t Hlast Hflags; [split; [exact Hflags | reflexivity]|].
  cbn [map]. rewrite monitor_run_cons. cbn [MonitorTrace.step fst snd].
  destruct Hflags as (Hd & Hc & Hn).
  pose proof (applyResult_flags t r) as (Fd & Fc & Fn & _ & Fq & _).
  cbn zeta in *.
  rewrite Hlast, lt_irrefl, dropFromHigh_diag_gt, Hd, Hc, Hn in *.
  rewrite andb_false_r in *. cbn in Fd, Fc, Fn, Fq.
  destruct (IH (Monitor.applyResult t r).1.1) as [IH1 IH2].
  - rewrite applyResult_last, applyResult_high. exact Hlast.
  - repeat split; assumption.
  - split; [exact IH1|]. rewrite IH2, app_nil_r.
    destruct (Monitor.applyResult t r).2 as [|a q]; [reflexivity|].
    exfalso. assert (false = true); [apply Fq|]; congruence.
Qed.

End HighAlongRuns.

(** ** C1: the recorded high never decreases *)

Section HighRule.
Import JS.
Variable Math_sqrt : number -> number.
Variable fetchCandles : string -> string -> Z -> Analyzer.Fetched.

Lemma monitor_cycle_highRule (interval : string) (now cleanupNow : number)
    (gainersList : list GainerInfo) (m : gmap string TrackedSymbol)
    (s : string) (t t' : TrackedSymbol) :
  m !! s = Some t ->
  Monitor.tracked
    (Monitor.monitoringCycle Math_sqrt fetchCandles interval now cleanupNow
                             gainersList m) !! s = Some t' ->
  highRule s gainersList t t'.
Proof.
  intros Hm Hc.
  destruct (monitoringCycle_tracked Math_sqrt fetchCandles interval now
              cleanupNow gainersList m s t Hm) as (H1 & _).
  rewrite Hc in H1.
  set (es := MonitorTrace.cycleEvents Math_sqrt fetchCandles interval now
               gainersList m s) in *.
  destruct (Monitor.inactive cleanupNow (MonitorTrace.run t es).1.1);
    [discriminate|].
  injection H1 as ->.
  assert (highestPrice (MonitorTrace.run t es).1.1 = highestPrice t
          \/ exists g, In g gainersList /\ g_symbol g = s
               /\ highestPrice (MonitorTrace.run t es).1.1 = g_lastPrice g
               /\ gt (g_lastPrice g) (highestPrice t) = true) as Hkeep.
  { destruct (monitor_run_high es t) as [H | (g & now' & Hin & Hh & Hlt)];
      [left; exact H | right].
    exists g. unfold es, MonitorTrace.cycleEvents in Hin.
    apply in_app_or in Hin as [Hin | Hin].
    - unfold MonitorTrace.observations in Hin.
      apply in_map_iff in Hin as (g' & Heq & Hg').
      injection Heq as -> _.
      apply list_elem_of_In, list_elem_of_filter in Hg' as [Hs Hg'].
      apply list_elem_of_In in Hg'. auto.
    - unfold MonitorTrace.analyses in Hin.
      apply in_map_iff in Hin as (r & Heq & _). discriminate. }
  split; [|split; [exact Hkeep|]].
  - apply raised_not_below.
    destruct Hkeep as [-> | (g & _ & _ & -> & Hgt)];
      [apply raised_refl | right; exact Hgt].
  - intros g Hg Hgt. unfold es, MonitorTrace.cycleEvents.
    unfold MonitorTrace.observations. rewrite Hg. cbn [map app].
    rewrite monitor_run_cons. cbn [MonitorTrace.step fst].
    destruct (monitor_analyses_on_high s
                (Analyzer.analyzeSymbols Math_sqrt fetchCandles now
                   (Monitor.symbolsToAnalyze
                      (fold_left (Monitor.trackGainer now) gainersList m))
                   interval).1
                (Monitor.updateTracked g now t)) as [Hflags _].
    + rewrite monitor_update_last, monitor_update_high, Hgt. reflexivity.
    + apply monitor_update_reset, Hgt.
    + split; [|exact Hflags].
      match goal with
      | |- highestPrice (MonitorTrace.run ?t0 ?es0).1.1 = _ =>
          destruct (monitor_run_high es0 t0)
            as [-> | (g' & now' & Hin & _)]
      end.
      * rewrite monitor_update_high, Hgt. reflexivity.
      * unfold MonitorTrace.analyses in Hin.
        apply in_map_iff in Hin as (r & Heq & _). discriminate.
Qed.

Lemma backtest_day_highRule (date now : number) (gainers : list GainerInfo)
    (interval : string) (m : gmap string TrackedSymbol)
    (s : string) (t : TrackedSymbol) :
  m !! s = Some t -> backtestInv t ->
  exists t',
    Backtest.allSymbols
      (Backtest.processDay Math_sqrt fetchCandles date now gainers interval m)
      !! s = Some t'
    /\ highRule s gainers t t'.
Proof.
  intros Hm Hinv.
  destruct (processDay_tracked Math_sqrt fetchCandles date now gainers
              interval m s t Hm) as (H1 & _).
  set (results := (Analyzer.analyzeSymbols Math_sqrt fetchCandles now
                     (map gainerSymbolInfo gainers) interval).1) in *.
  set (es := BacktestTrace.dayEvents results date s gainers) in *.
  exists (BacktestTrace.run t es).1.1. split; [exact H1|].
  assert (highestPrice (BacktestTrace.run t es).1.1 = highestPrice t
          \/ exists g, In g gainers /\ g_symbol g = s
               /\ highestPrice (BacktestTrace.run t es).1.1 = g_lastPrice g
               /\ gt (g_lastPrice g) (highestPrice t) = true) as Hkeep.
  { destruct (backtest_run_high es t)
      as [H | (rs & sym & p & date' & Hin & Hh & Hlt)];
      [left; exact H | right].
    unfold es, BacktestTrace.dayEvents in Hin.
    apply in_app_or in Hin as [Hin | [Hin | []]]; [|discriminate].
    apply in_map_iff in Hin as (g & Heq & Hg).
    injection Heq as _ _ <- _.
    apply list_elem_of_In, list_elem_of_filter in Hg as [Hs Hg].
    apply list_elem_of_In in Hg. exists g. auto. }
  split; [|split; [exact Hkeep|]].
  - apply raised_not_below.
    destruct Hkeep as [-> | (g & _ & _ & -> & Hgt)];
      [apply raised_refl | right; exact Hgt].
  - intros g Hg Hgt. unfold es, BacktestTrace.dayEvents. rewrite Hg.
    cbn [map app]. rewrite !backtest_run_cons.
    cbn [BacktestTrace.step BacktestTrace.run fst].
    assert (lt (g_lastPrice g) (lastPrice t) = false) as Hfall.
    { destruct (lt (g_lastPrice g) (lastPrice t)) eqn:E; [|reflexivity].
      rewrite <- (proj1 Hinv). symmetry.
      eapply lt_trans; [exact Hgt | exact E]. }
    destruct (backtest_update_fields results s (g_lastPrice g) date t)
      as (Fh & _ & Fd & Fc & Fn).
    destruct (scanTracked_fields results s
                (Backtest.updateTracked results s (g_lastPrice g) date t))
      as (Sh & _ & Sd & Sc & Sn & _).
    rewrite Hgt in Fh, Fd, Fc, Fn. rewrite Hfall in Fd, Fc.
    cbn [orb andb negb] in Fd, Fc.
    unfold flagsCleared. rewrite Sh, Sd, Sc, Sn, Fh, Fd, Fc, Fn. auto.
Qed.

End HighRule.

(** C1.  Over one monitoring cycle, and over one backtest day, the recorded
    [highestPrice] of a tracked symbol never decreases: it is kept, or
    replaced by a strictly larger price listed for the symbol; and when the
    symbol is listed (once) at a price above its recorded high, that price
    becomes the high and [downtrend], [downtrendConfirmed] and
    [downtrendNotified] are all false when the cycle (the day) ends.  The
    monitor part holds from any stored state, the backtest part from any
    state the backtest can reach. *)
Theorem highestPrice_never_decreases
    (Math_sqrt : JS.number -> JS.number)
    (fetchCandles : string -> string -> Z -> Analyzer.Fetched)
    (interval : string) (now cleanupNow date : JS.number)
    (gainersList : list GainerInfo) (s : string)
    (mm : gmap string TrackedSymbol) (tm tm' : TrackedSymbol)
    (mb : gmap string TrackedSymbol) (tb : TrackedSymbol) :
  mm !! s = Some tm ->
  Monitor.tracked
    (Monitor.monitoringCycle Math_sqrt fetchCandles interval now cleanupNow
                             gainersList mm) !! s = Some tm' ->
  mb !! s = Some tb ->
  BacktestTrace.Reachable tb ->
  highRule s gainersList tm tm'
  /\ exists tb',
       Backtest.allSymbols
         (Backtest.processDay Math_sqrt fetchCandles date now gainersList
                              interval mb) !! s = Some tb'
       /\ highRule s gainersList tb tb'.
Proof.
  intros Hmm Hcycle Hmb Hreach. split.
  - eapply monitor_cycle_highRule; eassumption.
  - apply backtest_day_highRule; [exact Hmb|].
    apply backtest_reachable_inv, Hreach.
Qed.

Lemma highestPrice_never_decreases_witness :
  highRule "BTCUSDT" [Sample.gainer "BTCUSDT" 120] Sample.btcAt100
           (Monitor.updateTracked (Sample.gainer "BTCUSDT" 120) (JS.ofZ 1)
                                  Sample.btcAt100)
  /\ exists tb',
       Backtest.allSymbols
         (Backtest.processDay Sample.sqrtFloor Sample.fetch (JS.ofZ 3)
            (JS.ofZ 1) [Sample.gainer "BTCUSDT" 120] "1h" Sample.tracking)
         !! "BTCUSDT" = Some tb'
       /\ highRule "BTCUSDT" [Sample.gainer "BTCUSDT" 120] Sample.btcAt100
                   tb'.
Proof.
  apply (highestPrice_never_decreases Sample.sqrtFloor Sample.fetch "1h"
           (JS.ofZ 1) (JS.ofZ 2) (JS.ofZ 3) [Sample.gainer "BTCUSDT" 120]
           "BTCUSDT" Sample.tracking Sample.btcAt100 _
           Sample.tracking Sample.btcAt100).
  - reflexivity.
  - vm_compute. reflexivity.
  - reflexivity.
  - exists "BTCUSDT", (JS.ofZ 100), (JS.ofZ 0), []. reflexivity.
Defined.

(** ** C2: entering the confirmed-downtrend state *)




(** ** C7: uptrend exhaustion in the monitoring loop *)



(** ** C3: order of the three flags *)


Section FlagOrder.
Import JS.





End FlagOrder.



(** ** C4: one confirmed-downtrend notification per high *)

Section NotifiedOnce.
Import JS.

Lemma monitor_quiet_step (t : TrackedSymbol) (e : MonitorTrace.Event) :
  MonitorTrace.isNewHigh t e = false ->
  let out := MonitorTrace.step t e in
  highestPrice out.1.1 = highestPrice t
  /\ (length out.2 <= 1)%nat
  /\ (downtrendNotified t = true ->
      out.2 = [] /\ downtrendNotified out.1.1 = true)
  /\ (out.2 <> [] -> downtrendNotified out.1.1 = true).
Proof.
  destruct e as [g now | r];
    cbn [MonitorTrace.isNewHigh MonitorTrace.step fst snd]; intros Hq.
  - rewrite monitor_update_high, Hq.
    destruct (monitor_update_flags_kept g now t Hq) as (_ & _ & ->).
    repeat split; auto; try (intros []; reflexivity).
  - rewrite applyResult_high.
    destruct (applyResult_flags t r) as (_ & _ & Fn & _ & Fq & Fl).
    cbn zeta in *. rewrite Fn. split; [reflexivity|]. split; [exact Fl|].
    split.
    + intros Hn. rewrite Hn in *. cbn [negb orb] in *.
      rewrite andb_false_r in Fq. split; [|reflexivity].
      destruct (Monitor.applyResult t r).2; [reflexivity|].
      exfalso. assert (false = true); [apply Fq|]; congruence.
    + intros Hne. apply Fq in Hne. apply andb_true_iff in Hne as [-> _].
      apply orb_true_r.
Qed.

Lemma backtest_quiet_step (t : TrackedSymbol) (e : BacktestTrace.Event) :
  BacktestTrace.isNewHigh t e = false ->
  let out := BacktestTrace.step t e in
  highestPrice out.1.1 = highestPrice t
  /\ (length out.2 <= 1)%nat
  /\ (downtrendNotified t = true ->
      out.2 = [] /\ downtrendNotified out.1.1 = true)
  /\ (out.2 <> [] -> downtrendNotified out.1.1 = true).
Proof.
  destruct e as [rs sym p date | rs sym];
    cbn [BacktestTrace.isNewHigh BacktestTrace.step fst snd]; intros Hq.
  - destruct (backtest_update_fields rs sym p date t)
      as (-> & _ & _ & _ & ->).
    rewrite Hq. repeat split; auto; try (intros []; reflexivity).
  - destruct (scanTracked_fields rs sym t)
      as (-> & _ & _ & _ & Fn & Fq & Fl).
    cbn zeta in *. rewrite Fn. split; [reflexivity|]. split; [exact Fl|].
    split.
    + intros Hn. rewrite Hn in *. cbn [negb orb] in *.
      rewrite andb_false_r in Fq. split; [|reflexivity].
      destruct (Backtest.scanTracked rs sym t).2; [reflexivity|].
      exfalso. assert (false = true); [apply Fq|]; congruence.
    + intros Hne. apply Fq in Hne. apply andb_true_iff in Hne as [-> _].
      apply orb_true_r.
Qed.

Lemma monitor_isNewHigh_high (t t' : TrackedSymbol) (e : MonitorTrace.Event) :
  highestPrice t' = highestPrice t ->
  MonitorTrace.isNewHigh t' e = MonitorTrace.isNewHigh t e.
Proof. intros H. destruct e; cbn -[JS.gt]; rewrite ?H; reflexivity. Qed.

Lemma backtest_isNewHigh_high (t t' : TrackedSymbol)
    (e : BacktestTrace.Event) :
  highestPrice t' = highestPrice t ->
  BacktestTrace.isNewHigh t' e = BacktestTrace.isNewHigh t e.
Proof. intros H. destruct e; cbn -[JS.gt]; rewrite ?H; reflexivity. Qed.

Lemma monitor_quiet_run (es : list MonitorTrace.Event) (t : TrackedSymbol) :
  Forall (fun e => MonitorTrace.isNewHigh t e = false) es ->
  (length (MonitorTrace.run t es).2 <= 1)%nat
  /\ (downtrendNotified t = true ->
      (MonitorTrace.run t es).2 = []
      /\ downtrendNotified (MonitorTrace.run t es).1.1 = true).
Proof.
  revert t. induction es as [|e es IH]; intros t Hq.
  - cbn. split; [lia | auto].
  - apply Forall_cons in Hq as [He Hq].
    destruct (monitor_quiet_step t e He) as (Hh & Hl & Hn & Hf).
    rewrite monitor_run_cons. cbn [fst snd].
    destruct (IH (MonitorTrace.step t e).1.1) as [IHl IHn].
    { eapply Forall_impl; [exact Hq|]. intros e' He'. cbn beta in *.
      rewrite (monitor_isNewHigh_high t _ e' Hh). exact He'. }
    split.
    + destruct (MonitorTrace.step t e).2 as [|a q] eqn:Eq.
      * exact IHl.
      * destruct IHn as [-> _]; [apply Hf; discriminate|].
        rewrite app_nil_r. exact Hl.
    + intros Ht. destruct (Hn Ht) as [-> Hn1].
      destruct (IHn Hn1) as [-> IHn2]. auto.
Qed.

Lemma backtest_quiet_run (es : list BacktestTrace.Event) (t : TrackedSymbol) :
  Forall (fun e => BacktestTrace.isNewHigh t e = false) es ->
  (length (BacktestTrace.run t es).2 <= 1)%nat
  /\ (downtrendNotified t = true ->
      (BacktestTrace.run t es).2 = []
      /\ downtrendNotified (BacktestTrace.run t es).1.1 = true).
Proof.
  revert t. induction es as [|e es IH]; intros t Hq.
  - cbn. split; [lia | auto].
  - apply Forall_cons in Hq as [He Hq].
    destruct (backtest_quiet_step t e He) as (Hh & Hl & Hn & Hf).
    rewrite backtest_run_cons. cbn [fst snd].
    destruct (IH (BacktestTrace.step t e).1.1) as [IHl IHn].
    { eapply Forall_impl; [exact Hq|]. intros e' He'. cbn beta in *.
      rewrite (backtest_isNewHigh_high t _ e' Hh). exact He'. }
    split.
    + destruct (BacktestTrace.step t e).2 as [|a q] eqn:Eq.
      * exact IHl.
      * destruct IHn as [-> _]; [apply Hf; discriminate|].
        rewrite app_nil_r. exact Hl.
    + intros Ht. destruct (Hn Ht) as [-> Hn1].
      destruct (IHn Hn1) as [-> IHn2]. auto.
Qed.

End NotifiedOnce.

(** C4.  Along any sequence of events of one tracked symbol in which no
    observed price exceeds the recorded high, the monitor queues at most one
    confirmed-downtrend alert and the backtest pushes at most one
    confirmed-downtrend signal; and if [downtrendNotified] is already set,
    none is produced and the flag stays set.  (A price above the recorded
    high is the only event that clears the flag, see C1 and C3.) *)
Theorem confirmed_notification_once
    (tm : TrackedSymbol) (esm : list MonitorTrace.Event)
    (tb : TrackedSymbol) (esb : list BacktestTrace.Event) :
  Forall (fun e => MonitorTrace.isNewHigh tm e = false) esm ->
  Forall (fun e => BacktestTrace.isNewHigh tb e = false) esb ->
  ((length (MonitorTrace.run tm esm).2 <= 1)%nat
   /\ (downtrendNotified tm = true ->
       (MonitorTrace.run tm esm).2 = []
       /\ downtrendNotified (MonitorTrace.run tm esm).1.1 = true))
  /\ ((length (BacktestTrace.run tb esb).2 <= 1)%nat
      /\ (downtrendNotified tb = true ->
          (BacktestTrace.run tb esb).2 = []
          /\ downtrendNotified (BacktestTrace.run tb esb).1.1 = true)).
Proof.
  intros Hm Hb. split;
    [apply monitor_quiet_run, Hm | apply backtest_quiet_run, Hb].
Qed.

Lemma confirmed_notification_once_witness :
  ((length
      (MonitorTrace.run Sample.btcAt100
         [MonitorTrace.Observed (Sample.gainer "BTCUSDT" 90) (JS.ofZ 1);
          MonitorTrace.Analysed (Sample.calm "BTCUSDT");
          MonitorTrace.Observed (Sample.gainer "BTCUSDT" 80) (JS.ofZ 2);
          MonitorTrace.Analysed (Sample.calm "BTCUSDT")]).2 <= 1)%nat
   /\ (downtrendNotified Sample.btcAt100 = true ->
       (MonitorTrace.run Sample.btcAt100
          [MonitorTrace.Observed (Sample.gainer "BTCUSDT" 90) (JS.ofZ 1);
           MonitorTrace.Analysed (Sample.calm "BTCUSDT");
           MonitorTrace.Observed (Sample.gainer "BTCUSDT" 80) (JS.ofZ 2);
           MonitorTrace.Analysed (Sample.calm "BTCUSDT")]).2 = []
       /\ downtrendNotified
            (MonitorTrace.run Sample.btcAt100
               [MonitorTrace.Observed (Sample.gainer "BTCUSDT" 90) (JS.ofZ 1);
                MonitorTrace.Analysed (Sample.calm "BTCUSDT");
                MonitorTrace.Observed (Sample.gainer "BTCUSDT" 80) (JS.ofZ 2);
                MonitorTrace.Analysed (Sample.calm "BTCUSDT")]).1.1 = true))
  /\ ((length
         (BacktestTrace.run Sample.btcAt100
            [BacktestTrace.Observed [] "BTCUSDT" (JS.ofZ 90) (JS.ofZ 1);
             BacktestTrace.Scanned [] "BTCUSDT";
             BacktestTrace.Observed [] "BTCUSDT" (JS.ofZ 80) (JS.ofZ 2);
             BacktestTrace.Scanned [] "BTCUSDT"]).2 <= 1)%nat
      /\ (downtrendNotified Sample.btcAt100 = true ->
          (BacktestTrace.run Sample.btcAt100
             [BacktestTrace.Observed [] "BTCUSDT" (JS.ofZ 90) (JS.ofZ 1);
              BacktestTrace.Scanned [] "BTCUSDT";
              BacktestTrace.Observed [] "BTCUSDT" (JS.ofZ 80) (JS.ofZ 2);
              BacktestTrace.Scanned [] "BTCUSDT"]).2 = []
          /\ downtrendNotified
               (BacktestTrace.run Sample.btcAt100
                  [BacktestTrace.Observed [] "BTCUSDT" (JS.ofZ 90) (JS.ofZ 1);
                   BacktestTrace.Scanned [] "BTCUSDT";
                   BacktestTrace.Observed [] "BTCUSDT" (JS.ofZ 80) (JS.ofZ 2);
                   BacktestTrace.Scanned [] "BTCUSDT"]).1.1 = true)).
Proof.
  apply (confirmed_notification_once Sample.btcAt100
           [MonitorTrace.Observed (Sample.gainer "BTCUSDT" 90) (JS.ofZ 1);
            MonitorTrace.Analysed (Sample.calm "BTCUSDT");
            MonitorTrace.Observed (Sample.gainer "BTCUSDT" 80) (JS.ofZ 2);
            MonitorTrace.Analysed (Sample.calm "BTCUSDT")]
           Sample.btcAt100
           [BacktestTrace.Observed [] "BTCUSDT" (JS.ofZ 90) (JS.ofZ 1);
            BacktestTrace.Scanned [] "BTCUSDT";
            BacktestTrace.Observed [] "BTCUSDT" (JS.ofZ 80) (JS.ofZ 2);
            BacktestTrace.Scanned [] "BTCUSDT"]).
  - repeat (constructor; [vm_compute; reflexivity|]). constructor.
  - repeat (constructor; [vm_compute; reflexivity|]). constructor.
Defined.

(** ** C8: clean-up of inactive symbols *)


(** ** The analyzer *)

Section AnalyzerFacts.
Import JS Technical Analyzer.
Variable Math_sqrt : number -> number.

Lemma candleAt_in_range (candles : list Candle) (i : Z) :
  0 <= i < len candles -> exists c, candleAt candles i = Some c.
Proof.
  unfold candleAt, len. intros [H0 H1].
  destruct (i <? 0) eqn:E; [lia|].
  destruct (candles !! Z.to_nat i) as [c|] eqn:Hc; [eauto|].
  apply lookup_ge_None in Hc. lia.
Qed.

(** With two candles or more none of the six checks raises. *)
Lemma detectSignals_total (candles : list Candle) (lastCandle : Candle) :
  2 <= len candles ->
  exists acc, detectSignals Math_sqrt candles lastCandle = Some acc.
Proof.
  intros Hlen. unfold detectSignals. cbv zeta.
  destruct (candleAt_in_range candles (len candles - 1 - 1)) as [prev Hprev];
    [lia|].
  unfold supportBreakSignal, volumeSignal. rewrite Hprev.
  destruct (lt (close lastCandle) _); cbn [mbind option_bind]; eauto.
Qed.

Lemma scoreSignals_signals (sigs : list Signal) (w : number) :
  (scoreSignals sigs w).2 = sigs.
Proof.
  unfold scoreSignals. destruct sigs; [reflexivity|].
  unfold len. cbn [length].
  destruct (0 <? Z.of_nat (S (length sigs))) eqn:E; [reflexivity|].
  apply Z.ltb_ge in E. lia.
Qed.

(** [analyzeSymbol] in terms of its two halves. *)
Lemma analyzeSymbol_unfold (now : number) (symbol : string)
    (candles : list Candle) (lastCandle : Candle) (sigs : list Signal)
    (w : number) :
  candleAt candles (len candles - 1) = Some lastCandle ->
  detectSignals Math_sqrt candles lastCandle = Some (sigs, w) ->
  exists r,
    analyzeSymbol Math_sqrt now symbol candles = Some r
    /\ r_symbol r = symbol
    /\ r_signals r = sigs
    /\ r_probability r = (scoreSignals sigs w).1.
Proof.
  intros Hlast Hdet. unfold analyzeSymbol. rewrite Hlast.
  cbn [mbind option_bind]. rewrite Hdet. cbn [mbind option_bind].
  pose proof (scoreSignals_signals sigs w) as Hs.
  destruct (scoreSignals sigs w) as [p sigs']. cbn [fst snd] in *.
  eexists. split; [reflexivity|]. cbn. auto.
Qed.

Lemma analyzeSymbol_total (now : number) (symbol : string)
    (candles : list Candle) :
  2 <= len candles ->
  exists r lastCandle sigs w,
    candleAt candles (len candles - 1) = Some lastCandle
    /\ detectSignals Math_sqrt candles lastCandle = Some (sigs, w)
    /\ analyzeSymbol Math_sqrt now symbol candles = Some r
    /\ r_symbol r = symbol
    /\ r_signals r = sigs
    /\ r_probability r = (scoreSignals sigs w).1.
Proof.
  intros Hlen.
  destruct (candleAt_in_range candles (len candles - 1)) as [lastCandle Hl];
    [lia|].
  destruct (detectSignals_total candles lastCandle Hlen) as [[sigs w] Hd].
  destruct (analyzeSymbol_unfold now symbol candles lastCandle sigs w Hl Hd)
    as (r & H1 & H2 & H3 & H4).
  exists r, lastCandle, sigs, w. repeat split; assumption.
Qed.

End AnalyzerFacts.

(** ** Arithmetic of the score *)

Section ScoreArithmetic.
Import JS Technical Analyzer.
Local Open Scope Qc_scope.

Lemma Qc_of_pos (n : Z) : (0 < n)%Z -> 0 < Q2Qc (inject_Z n).
Proof.
  intros Hn. unfold Qclt. cbn [this Q2Qc].
  rewrite (Qred_correct (inject_Z n)), (Qred_correct 0).
  unfold Qlt. cbn. lia.
Qed.

Lemma Qc_of_nonneg (n : Z) : (0 <= n)%Z -> 0 <= Q2Qc (inject_Z n).
Proof.
  intros Hn. unfold Qcle. cbn [this Q2Qc].
  rewrite (Qred_correct (inject_Z n)), (Qred_correct 0).
  unfold Qle. cbn. lia.
Qed.

Lemma Qc_pos_neq (x : Qc) : 0 < x -> x <> 0.
Proof. intros H ->. exact (Qclt_not_eq _ _ H eq_refl). Qed.

Lemma Qcmult_pos (x y : Qc) : 0 < x -> 0 < y -> 0 < x * y.
Proof.
  intros Hx Hy. rewrite <- (Qcmult_0_l y).
  apply Qcmult_lt_compat_r; assumption.
Qed.

Lemma Qcmult_nonneg (x y : Qc) : 0 <= x -> 0 <= y -> 0 <= x * y.
Proof.
  intros Hx Hy. rewrite <- (Qcmult_0_l y).
  apply Qcmult_le_compat_r; assumption.
Qed.

Lemma Qcplus_nonneg (x y : Qc) : 0 <= x -> 0 <= y -> 0 <= x + y.
Proof.
  intros Hx Hy. rewrite <- (Qcplus_0_l 0).
  apply Qcplus_le_compat; assumption.
Qed.

Lemma Qcinv_pos (x : Qc) : 0 < x -> 0 < / x.
Proof.
  intros Hx. unfold Qclt in *. cbn [this Qcinv Q2Qc] in *.
  rewrite (Qred_correct (/ x)), (Qred_correct 0).
  rewrite (Qred_correct 0) in Hx.
  apply Qinv_lt_0_compat. exact Hx.
Qed.

Lemma Qcdiv_nonneg (x y : Qc) : 0 <= x -> 0 < y -> 0 <= x / y.
Proof.
  intros Hx Hy. unfold Qcdiv. apply Qcmult_nonneg; [exact Hx|].
  apply Qclt_le_weak, Qcinv_pos, Hy.
Qed.

Lemma signedInf_pos (x : Qc) : 0 < x -> signedInf x = PInf.
Proof.
  intros Hx. unfold signedInf.
  apply Qc_ltb_lt in Hx. rewrite zeroQc_0, Hx. reflexivity.
Qed.

Lemma Qc_eqb_pos (x : Qc) : 0 < x -> Qc_eqb x zeroQc = false.
Proof.
  intros Hx. apply not_true_iff_false. rewrite Qc_eqb_eq, zeroQc_0.
  apply Qc_pos_neq, Hx.
Qed.

Lemma Qc_ltb_pos (x : Qc) : 0 < x -> Qc_ltb x zeroQc = false.
Proof.
  intros Hx. apply Qc_ltb_nlt. rewrite zeroQc_0. apply Qclt_le_weak, Hx.
Qed.

(** [(w / (n * 100)) * 100] is [w / n], whatever [w] is. *)
Lemma weight_over_count (w : number) (n : Z) :
  (0 < n)%Z ->
  mul (div w (mul (ofZ n) n100)) n100 = div w (ofZ n).
Proof.
  intros Hn. pose proof (Qc_of_pos n Hn) as Hqn.
  pose proof (Qc_of_pos 100 eq_refl) as H100.
  pose proof (Qcmult_pos _ _ Hqn H100) as Hprod.
  unfold n100, ofZ. cbn [mul].
  destruct w as [x| | |]; cbn [div mul].
  - rewrite (Qc_eqb_pos _ Hprod), (Qc_eqb_pos _ Hqn). cbn [mul]. f_equal.
    field. split; apply Qc_pos_neq; assumption.
  - rewrite (Qc_ltb_pos _ Hprod), (Qc_ltb_pos _ Hqn). cbn [mul].
    apply signedInf_pos, H100.
  - rewrite (Qc_ltb_pos _ Hprod), (Qc_ltb_pos _ Hqn). cbn [mul].
    unfold signedInf. reflexivity.
  - reflexivity.
Qed.

Lemma sum_snoc (xs : list number) (x : number) :
  sum (xs ++ [x]) = add (sum xs) x.
Proof. unfold sum. rewrite fold_left_app. reflexivity. Qed.


Lemma percentage_nonneg (x : number) : percentage x -> nonneg x.
Proof. intros (q & -> & H0 & _). exists q. auto. Qed.

(** [Math.min(100, x)] is a percentage as soon as [x] is not negative,
    plus infinity included. *)
Lemma min100_percentage (x : number) :
  nonneg x \/ x = PInf -> percentage (Math_min n100 x).
Proof.
  intros [(q & -> & Hq) | ->].
  - unfold Math_min, lt, n100, ofZ.
    destruct (Qc_ltb q (Q2Qc (inject_Z 100))) eqn:E.
    + exists q. apply Qc_ltb_lt in E.
      split; [reflexivity|]. split; [exact Hq | apply Qclt_le_weak, E].
    + exists (Q2Qc (inject_Z 100)).
      repeat split; [apply Qc_of_nonneg; lia | apply Qcle_refl].
  - exists (Q2Qc (inject_Z 100)).
    repeat split; [apply Qc_of_nonneg; lia | apply Qcle_refl].
Qed.

Lemma gt_cases (x : number) (c : Qc) :
  gt x (Fin c) = true -> (exists q, x = Fin q /\ c < q) \/ x = PInf.
Proof.
  unfold gt, lt. destruct x as [q| | |]; try discriminate; auto.
  intros H. left. exists q. split; [reflexivity | apply Qc_ltb_lt, H].
Qed.

Lemma rsi_strength_percentage (x : number) :
  gt x c70 = true -> percentage (Math_min n100 (mul (sub x c70) c3_33)).
Proof.
  intros H. apply min100_percentage.
  apply gt_cases in H as [(q & -> & Hq) | ->]; [left | right; reflexivity].
  unfold sub, c70, c3_33, ofZ, ofQ. cbn [neg add mul]. eexists.
  split; [reflexivity|].
  apply Qcmult_nonneg.
  - apply Qclt_minus_iff in Hq. apply Qclt_le_weak. exact Hq.
  - apply Qclt_le_weak. reflexivity.
Qed.

Lemma bollinger_strength_percentage (x : number) :
  gt x c0_8 = true -> percentage (Math_min n100 (mul x n100)).
Proof.
  intros H. apply min100_percentage.
  apply gt_cases in H as [(q & -> & Hq) | ->]; [left | right; reflexivity].
  unfold n100, ofZ. cbn [mul]. eexists. split; [reflexivity|].
  apply Qcmult_nonneg; [|apply Qc_of_nonneg; lia].
  apply Qclt_le_weak. eapply Qclt_trans; [|exact Hq]. reflexivity.
Qed.

Lemma constant_strength_percentage (n : Z) :
  (0 <= n <= 100)%Z -> percentage (ofZ n).
Proof.
  intros [H0 H1]. exists (Q2Qc (inject_Z n)).
  repeat split; [apply Qc_of_nonneg, H0|].
  unfold Qcle. cbn [this Q2Qc].
  rewrite (Qred_correct (inject_Z n)), (Qred_correct (inject_Z 100)).
  unfold Qle. cbn. lia.
Qed.

Lemma tally_fire (acc : list Signal * number) (s : Signal) :
  tally acc -> percentage (strength s) -> tally (fire acc s).
Proof.
  intros [Hsum Hall] Hs. unfold tally, fire. cbn [fst snd]. split.
  - rewrite map_app. cbn [map]. rewrite sum_snoc, Hsum. reflexivity.
  - apply Forall_app. split; [exact Hall | repeat constructor; exact Hs].
Qed.

Lemma tally_rsiSignal (rsi : list (option number)) (lastIndex : Z)
    (acc : list Signal * number) :
  tally acc -> tally (rsiSignal rsi lastIndex acc).
Proof.
  intros Hacc. unfold rsiSignal.
  destruct (gt (atNullable rsi lastIndex) c70) eqn:E; [|exact Hacc].
  apply tally_fire; [exact Hacc|]. cbn [strength].
  apply rsi_strength_percentage, E.
Qed.

Lemma tally_bollingerSignal (bands : Bands) (lastCandle : Candle)
    (lastIndex : Z) (acc : list Signal * number) :
  tally acc -> tally (bollingerSignal bands lastCandle lastIndex acc).
Proof.
  intros Hacc. unfold bollingerSignal. cbv zeta.
  match goal with |- context [gt ?r c0_8] => destruct (gt r c0_8) eqn:E end;
    [|exact Hacc].
  apply tally_fire; [exact Hacc|]. cbn [strength].
  apply bollinger_strength_percentage, E.
Qed.

Lemma tally_macdSignal (macd : MACDResult) (lastIndex : Z)
    (acc : list Signal * number) :
  tally acc -> tally (macdSignal macd lastIndex acc).
Proof.
  intros Hacc. unfold macdSignal.
  match goal with |- context [if ?b then _ else _] => destruct b end;
    [|exact Hacc].
  apply tally_fire; [exact Hacc|].
  apply (constant_strength_percentage 90). lia.
Qed.

Lemma tally_deathCrossSignal (mas : MovingAverages) (lastIndex : Z)
    (acc : list Signal * number) :
  tally acc -> tally (deathCrossSignal mas lastIndex acc).
Proof.
  intros Hacc. unfold deathCrossSignal.
  match goal with |- context [if ?b then _ else _] => destruct b end;
    [|exact Hacc].
  apply tally_fire; [exact Hacc|].
  apply (constant_strength_percentage 85). lia.
Qed.

Lemma tally_supportBreakSignal (mas : MovingAverages)
    (candles : list Candle) (lastCandle : Candle) (lastIndex : Z)
    (acc acc' : list Signal * number) :
  tally acc ->
  supportBreakSignal mas candles lastCandle lastIndex acc = Some acc' ->
  tally acc'.
Proof.
  intros Hacc. unfold supportBreakSignal.
  destruct (lt (close lastCandle) _).
  - destruct (candleAt candles (lastIndex - 1)) as [prev|];
      cbn [mbind option_bind]; [|discriminate].
    intros [= <-]. destruct (gt (close prev) _); [|exact Hacc].
    apply tally_fire; [exact Hacc|].
    apply (constant_strength_percentage 80). lia.
  - intros [= <-]. exact Hacc.
Qed.

Lemma tally_volumeSignal (candles : list Candle) (lastCandle : Candle)
    (lastIndex : Z) (acc acc' : list Signal * number) :
  tally acc ->
  volumeSignal candles lastCandle lastIndex acc = Some acc' ->
  tally acc'.
Proof.
  intros Hacc. unfold volumeSignal.
  destruct (candleAt candles (lastIndex - 1)) as [prev|];
    cbn [mbind option_bind]; [|discriminate].
  intros [= <-].
  match goal with |- context [if ?b then _ else _] => destruct b end;
    [|exact Hacc].
  apply tally_fire; [exact Hacc|].
  apply (constant_strength_percentage 75). lia.
Qed.

Lemma tally_detectSignals (Math_sqrt : number -> number)
    (candles : list Candle) (lastCandle : Candle)
    (acc : list Signal * number) :
  detectSignals Math_sqrt candles lastCandle = Some acc -> tally acc.
Proof.
  unfold detectSignals. cbv zeta.
  match goal with
  | |- context [supportBreakSignal ?mas ?cs ?lc ?li ?a] =>
      assert (tally a) as Ha;
      [|destruct (supportBreakSignal mas cs lc li a) as [acc5|] eqn:E5]
  end.
  - apply tally_deathCrossSignal, tally_macdSignal, tally_bollingerSignal,
      tally_rsiSignal.
    split; [reflexivity | constructor].
  - cbn [mbind option_bind]. intros H6.
    eapply tally_volumeSignal; [|exact H6].
    eapply tally_supportBreakSignal; [exact Ha | exact E5].
  - discriminate.
Qed.

Lemma sum_nonneg_from (xs : list number) (x0 : number) :
  nonneg x0 -> Forall percentage xs -> nonneg (fold_left add xs x0).
Proof.
  revert x0. induction xs as [|x xs IH]; intros x0 H0 Hxs; [exact H0|].
  apply Forall_cons in Hxs as [Hx Hxs]. cbn [fold_left]. apply IH; [|exact Hxs].
  destruct H0 as (q0 & -> & Hq0). destruct Hx as (q & -> & Hq & _).
  exists (q0 + q). split; [reflexivity | apply Qcplus_nonneg; assumption].
Qed.

Lemma tally_weight_nonneg (acc : list Signal * number) :
  tally acc -> nonneg acc.2.
Proof.
  intros [-> Hall]. unfold sum. apply sum_nonneg_from.
  - exists 0. split; [reflexivity | apply Qcle_refl].
  - apply Forall_fmap. exact Hall.
Qed.

(** The probability computed from a tally is a percentage. *)
Lemma scoreSignals_percentage (sigs : list Signal) (w : number) :
  tally (sigs, w) -> percentage (scoreSignals sigs w).1.
Proof.
  intros Ht. apply tally_weight_nonneg in Ht as (x & Hw & Hx).
  cbn [snd] in Hw. subst w. unfold scoreSignals.
  destruct (0 <? len sigs)%Z eqn:E0.
  - apply Z.ltb_lt in E0. rewrite weight_over_count by exact E0.
    assert (percentage (Math_min n100 (div (Fin x) (ofZ (len sigs)))))
      as Hp.
    { apply min100_percentage. left. unfold ofZ. cbn [div].
      rewrite (Qc_eqb_pos _ (Qc_of_pos _ E0)). eexists.
      split; [reflexivity|].
      apply Qcdiv_nonneg; [exact Hx | apply Qc_of_pos, E0]. }
    destruct (2 <=? len sigs)%Z; cbn [fst]; [|exact Hp].
    apply min100_percentage. left.
    destruct Hp as (q & -> & Hq & _). unfold c1_2, ofQ. cbn [mul].
    eexists. split; [reflexivity|].
    apply Qcmult_nonneg; [exact Hq|]. apply Qclt_le_weak. reflexivity.
  - cbn [fst]. apply (constant_strength_percentage 0). lia.
Qed.

End ScoreArithmetic.

(** ** The loop of [analyzeSymbols] *)

Section AnalyzeSymbolsLoop.
Import JS Technical Analyzer.
Variable Math_sqrt : number -> number.
Variable fetchCandles : string -> string -> Z -> Fetched.
Variable now : number.
Variable interval : string.

(** One turn of the loop: an analysable symbol adds its result, any other
    symbol adds a warning. *)
Lemma analyzeOne_cases (rs : list AnalysisResult) (log : list Warning)
    (si : SymbolInfo) :
  if analysable fetchCandles interval si
  then exists r,
         analyzeOne Math_sqrt fetchCandles now interval (rs, log) si
         = (rs ++ [r], log)
         /\ resultFor Math_sqrt fetchCandles now interval r si
         /\ r_symbol r = si_symbol si
         /\ r_price r = si_lastPrice si
         /\ percentage (r_probability r)
  else analyzeOne Math_sqrt fetchCandles now interval (rs, log) si
       = (rs, log ++ [warningFor fetchCandles interval si]).
Proof.
  unfold analysable, analyzeOne, warningFor, resultFor.
  destruct (fetchCandles (si_symbol si) interval 100) as [candles|];
    [|reflexivity].
  destruct (30 <=? len candles) eqn:E.
  - apply Z.leb_le in E.
    assert ((len candles <? 30) = false) as -> by (apply Z.ltb_ge; lia).
    destruct (analyzeSymbol_total Math_sqrt now (si_symbol si) candles)
      as (r & lastCandle & sigs & w & Hl & Hd & Hr & Hsym & Hsigs & Hp);
      [lia|].
    rewrite Hr. eexists. split; [reflexivity|].
    split; [exists candles, r; auto|].
    cbn [setPrice r_symbol r_price r_probability]. repeat split; auto.
    rewrite Hp. apply scoreSignals_percentage.
    eapply tally_detectSignals. exact Hd.
  - apply Z.leb_gt in E.
    assert ((len candles <? 30) = true) as -> by (apply Z.ltb_lt; lia).
    reflexivity.
Qed.

Lemma analyzeSymbols_loop (symbols : list SymbolInfo)
    (rs : list AnalysisResult) (log : list Warning) (done : list SymbolInfo) :
  Forall2 (resultFor Math_sqrt fetchCandles now interval) rs done ->
  Forall (fun r => percentage (r_probability r)) rs ->
  let out := fold_left (analyzeOne Math_sqrt fetchCandles now interval)
                       symbols (rs, log) in
  Forall2 (resultFor Math_sqrt fetchCandles now interval) out.1
          (done ++ List.filter (analysable fetchCandles interval) symbols)
  /\ map r_symbol out.1
     = map r_symbol rs
       ++ map si_symbol
            (List.filter (analysable fetchCandles interval) symbols)
  /\ map r_price out.1
     = map r_price rs
       ++ map si_lastPrice
            (List.filter (analysable fetchCandles interval) symbols)
  /\ out.2
     = log ++ map (warningFor fetchCandles interval)
                  (List.filter
                     (fun si => negb (analysable fetchCandles interval si))
                     symbols)
  /\ Forall (fun r => percentage (r_probability r)) out.1.
Proof.
  cbv zeta. revert rs log done.
  induction symbols as [|si symbols IH]; intros rs log done H2 Hp.
  - cbn [fold_left List.filter map fst snd]. rewrite !app_nil_r. auto.
  - cbn [fold_left List.filter].
    pose proof (analyzeOne_cases rs log si) as Hcase.
    destruct (analysable fetchCandles interval si) eqn:Hok; cbn [negb].
    + destruct Hcase as (r & -> & Hfor & Hsym & Hprice & Hperc).
      destruct (IH (rs ++ [r]) log (done ++ [si])) as (I1 & I2 & I3 & I4 & I5).
      { apply Forall2_app; [exact H2 | repeat constructor; exact Hfor]. }
      { apply Forall_app. split; [exact Hp | repeat constructor; exact Hperc]. }
      rewrite <- app_assoc in I1. cbn [app] in I1.
      rewrite I2, I3, I4, !map_app. cbn [map].
      rewrite Hsym, Hprice, <- !app_assoc. cbn [app]. auto.
    + rewrite Hcase.
      destruct (IH rs (log ++ [warningFor fetchCandles interval si]) done
                  H2 Hp) as (I1 & I2 & I3 & I4 & I5).
      rewrite I2, I3, I4. cbn [map]. rewrite <- app_assoc. cbn [app]. auto.
Qed.

End AnalyzeSymbolsLoop.

(** ** C5 and C6: the reversal probability *)



(** C6.  On thirty candles or more [analyzeSymbol] returns a result, and
    its probability is a number between 0 and 100; so is the probability of
    every result returned by [analyzeSymbols]. *)
Theorem probability_in_range
    (Math_sqrt : JS.number -> JS.number)
    (fetchCandles : string -> string -> Z -> Analyzer.Fetched)
    (now : JS.number) (symbol : string) (candles : list Candle)
    (symbols : list SymbolInfo) (interval : string) :
  30 <= JS.len candles ->
  (exists r,
     Analyzer.analyzeSymbol Math_sqrt now symbol candles = Some r
     /\ percentage (r_probability r))
  /\ Forall (fun r => percentage (r_probability r))
            (Analyzer.analyzeSymbols Math_sqrt fetchCandles now symbols
                                     interval).1.
Proof.
  intros Hlen. split.
  - destruct (analyzeSymbol_total Math_sqrt now symbol candles)
      as (r & lastCandle & sigs & w & Hl & Hd & Hr & Hsym & Hsigs & Hp);
      [lia|].
    exists r. split; [exact Hr|]. rewrite Hp.
    apply scoreSignals_percentage. eapply tally_detectSignals. exact Hd.
  - unfold Analyzer.analyzeSymbols.
    apply (analyzeSymbols_loop Math_sqrt fetchCandles now interval symbols
             [] [] []); constructor.
Qed.

Lemma probability_in_range_witness :
  (exists r,
     Analyzer.analyzeSymbol Sample.sqrtFloor (JS.ofZ 0) "UPUSDT"
                            Sample.risingCandles = Some r
     /\ percentage (r_probability r))
  /\ Forall (fun r => percentage (r_probability r))
            (Analyzer.analyzeSymbols Sample.sqrtFloor Sample.fetch (JS.ofZ 0)
               [mkSymbolInfo "UPUSDT" (JS.ofZ 129)] "1h").1.
Proof.
  apply (probability_in_range Sample.sqrtFloor Sample.fetch (JS.ofZ 0)
           "UPUSDT" Sample.risingCandles
           [mkSymbolInfo "UPUSDT" (JS.ofZ 129)] "1h").
  vm_compute. discriminate.
Defined.

(** ** C9 and C10: failures and short histories in [analyzeSymbols] *)

(** C9.  [analyzeSymbols] always returns: the symbols whose fetch throws
    and those with fewer than 30 candles are skipped, each with a logged
    warning, and the returned array holds, in input order, exactly the
    analyses of the other symbols. *)
Theorem analyzeSymbols_skips_failures
    (Math_sqrt : JS.number -> JS.number)
    (fetchCandles : string -> string -> Z -> Analyzer.Fetched)
    (now : JS.number) (symbols : list SymbolInfo) (interval : string) :
  Forall2 (resultFor Math_sqrt fetchCandles now interval)
          (Analyzer.analyzeSymbols Math_sqrt fetchCandles now symbols
                                   interval).1
          (List.filter (analysable fetchCandles interval) symbols)
  /\ map r_symbol
         (Analyzer.analyzeSymbols Math_sqrt fetchCandles now symbols
                                  interval).1
     = map si_symbol (List.filter (analysable fetchCandles interval) symbols)
  /\ (Analyzer.analyzeSymbols Math_sqrt fetchCandles now symbols interval).2
     = map (warningFor fetchCandles interval)
           (List.filter (fun si => negb (analysable fetchCandles interval si))
                        symbols).
Proof.
  unfold Analyzer.analyzeSymbols.
  destruct (analyzeSymbols_loop Math_sqrt fetchCandles now interval symbols
              [] [] []) as (H1 & H2 & _ & H4 & _); [constructor..|].
  auto.
Qed.

Section ShortHistory.
Import JS.

Lemma monitor_update_signals (g : GainerInfo) (now : number)
    (t : TrackedSymbol) :
  signals (Monitor.updateTracked g now t) = signals t.
Proof.
  unfold Monitor.updateTracked. destruct (gt _ _); reflexivity.
Qed.

(** What the loop over the gainers list leaves untouched. *)
Lemma observations_frame (now : number) (s : string) (gs : list GainerInfo)
    (t : TrackedSymbol) :
  let t1 := (MonitorTrace.run t (MonitorTrace.observations now s gs)).1.1 in
  signals t1 = signals t
  /\ (Forall (fun g => g_symbol g = s ->
                       gt (g_lastPrice g) (highestPrice t) = false) gs ->
      highestPrice t1 = highestPrice t
      /\ downtrend t1 = downtrend t
      /\ downtrendConfirmed t1 = downtrendConfirmed t
      /\ downtrendNotified t1 = downtrendNotified t).
Proof.
  cbv zeta. unfold MonitorTrace.observations. revert t.
  induction gs as [|g gs IH]; intros t; [cbn; auto|].
  rewrite filter_cons. destruct (decide (g_symbol g = s)) as [Hs | Hs].
  - cbn [map]. rewrite monitor_run_cons. cbn [MonitorTrace.step fst].
    destruct (IH (Monitor.updateTracked g now t)) as [IH1 IH2].
    split; [rewrite IH1; apply monitor_update_signals|].
    intros Hq. apply Forall_cons in Hq as [Hg Hq]. specialize (Hg Hs).
    destruct (monitor_update_flags_kept g now t Hg) as (Fd & Fc & Fn).
    assert (highestPrice (Monitor.updateTracked g now t) = highestPrice t)
      as Fh by (rewrite monitor_update_high, Hg; reflexivity).
    rewrite Fh in IH2. destruct (IH2 Hq) as (-> & -> & -> & ->). auto.
  - destruct (IH t) as [IH1 IH2]. split; [exact IH1|].
    intros Hq. apply Forall_cons in Hq as [_ Hq]. auto.
Qed.

Lemma short_history_not_analysable
    (fetchCandles : string -> string -> Z -> Analyzer.Fetched)
    (interval : string) (s : string) (candles : list Candle)
    (si : SymbolInfo) :
  fetchCandles s interval 100 = Analyzer.Candles candles ->
  len candles < 30 ->
  analysable fetchCandles interval si = true -> si_symbol si <> s.
Proof.
  intros Hf Hlen Hok Heq. unfold analysable in Hok. rewrite Heq, Hf in Hok.
  apply Z.leb_le in Hok. lia.
Qed.

Lemma short_history_no_result
    (Math_sqrt : number -> number)
    (fetchCandles : string -> string -> Z -> Analyzer.Fetched)
    (now : number) (interval : string) (s : string) (candles : list Candle)
    (symbols : list SymbolInfo) :
  fetchCandles s interval 100 = Analyzer.Candles candles ->
  len candles < 30 ->
  Forall (fun r => r_symbol r <> s)
         (Analyzer.analyzeSymbols Math_sqrt fetchCandles now symbols
                                  interval).1.
Proof.
  intros Hf Hlen. unfold Analyzer.analyzeSymbols.
  destruct (analyzeSymbols_loop Math_sqrt fetchCandles now interval symbols
              [] [] []) as (_ & Hsym & _); [constructor..|].
  cbn [map app] in Hsym.
  apply Forall_fmap with (f := r_symbol) (P := fun x => x <> s).
  change (Forall (.≠ s) (map r_symbol
    (fold_left (Analyzer.analyzeOne Math_sqrt fetchCandles now interval)
               symbols ([], [])).1)).
  rewrite Hsym. apply Forall_fmap, Forall_forall. intros si Hin.
  apply list_elem_of_In, filter_In in Hin as [_ Hok].
  eapply short_history_not_analysable; eassumption.
Qed.

End ShortHistory.

(** C10.  A symbol whose fetched candle list has fewer than 30 entries gets
    no result from [analyzeSymbols]; a monitoring cycle then leaves its
    tracked state as the loop over the gainers list left it (subject to the
    final clean-up) and queues no alert for it: the signal list is the one
    it had, and so are the three flags and the recorded high unless the
    symbol was listed above its high. *)
Theorem short_history_leaves_state
    (Math_sqrt : JS.number -> JS.number)
    (fetchCandles : string -> string -> Z -> Analyzer.Fetched)
    (interval : string) (now cleanupNow : JS.number)
    (gainersList : list GainerInfo) (m : gmap string TrackedSymbol)
    (s : string) (t : TrackedSymbol) (candles : list Candle) :
  fetchCandles s interval 100 = Analyzer.Candles candles ->
  JS.len candles < 30 ->
  m !! s = Some t ->
  let c := Monitor.monitoringCycle Math_sqrt fetchCandles interval now
                                   cleanupNow gainersList m in
  let t1 :=
    (MonitorTrace.run t (MonitorTrace.observations now s gainersList)).1.1 in
  (forall symbols,
     Forall (fun r => r_symbol r <> s)
            (Analyzer.analyzeSymbols Math_sqrt fetchCandles now symbols
                                     interval).1)
  /\ Monitor.tracked c !! s
     = (if Monitor.inactive cleanupNow t1 then None else Some t1)
  /\ MonitorTrace.alertsOf s (Monitor.weakBullishSymbols c) = []
  /\ MonitorTrace.alertsOf s (Monitor.confirmedDowntrendSymbols c) = []
  /\ signals t1 = signals t
  /\ (Forall (fun g => g_symbol g = s ->
                       JS.gt (g_lastPrice g) (highestPrice t) = false)
             gainersList ->
      highestPrice t1 = highestPrice t
      /\ downtrend t1 = downtrend t
      /\ downtrendConfirmed t1 = downtrendConfirmed t
      /\ downtrendNotified t1 = downtrendNotified t).
Proof.
  intros Hf Hlen Hm c t1. subst c t1.
  split; [intros symbols; eapply short_history_no_result; eassumption|].
  destruct (monitoringCycle_tracked Math_sqrt fetchCandles interval now
              cleanupNow gainersList m s t Hm) as (H1 & H2 & H3).
  destruct (observations_frame now s gainersList t) as [Hsig Hflags].
  destruct (observations_silent now s gainersList t) as [Hw Hc].
  assert (MonitorTrace.cycleEvents Math_sqrt fetchCandles interval now
            gainersList m s
          = MonitorTrace.observations now s gainersList) as Hev.
  { unfold MonitorTrace.cycleEvents, MonitorTrace.analyses.
    rewrite (filter_none _ (fun r => r_symbol r <> s)).
    - apply app_nil_r.
    - eapply short_history_no_result; eassumption.
    - intros r Hr. exact Hr. }
  rewrite Hev in H1, H2, H3. rewrite H1, H2, H3, Hw, Hc. auto.
Qed.

Lemma short_history_leaves_state_witness :
  (forall symbols,
     Forall (fun r => r_symbol r <> "NEWUSDT")
            (Analyzer.analyzeSymbols Sample.sqrtFloor Sample.fetch
               (JS.ofZ 1000) symbols "1h").1)
  /\ Monitor.tracked
       (Monitor.monitoringCycle Sample.sqrtFloor Sample.fetch "1h"
          (JS.ofZ 1000) (JS.ofZ 2000) [Sample.gainer "NEWUSDT" 90]
          Sample.shortTracking) !! "NEWUSDT"
     = (if Monitor.inactive (JS.ofZ 2000)
             (MonitorTrace.run Sample.newAt100
                (MonitorTrace.observations (JS.ofZ 1000) "NEWUSDT"
                   [Sample.gainer "NEWUSDT" 90])).1.1
        then None
        else Some (MonitorTrace.run Sample.newAt100
                     (MonitorTrace.observations (JS.ofZ 1000) "NEWUSDT"
                        [Sample.gainer "NEWUSDT" 90])).1.1)
  /\ MonitorTrace.alertsOf "NEWUSDT"
       (Monitor.weakBullishSymbols
          (Monitor.monitoringCycle Sample.sqrtFloor Sample.fetch "1h"
             (JS.ofZ 1000) (JS.ofZ 2000) [Sample.gainer "NEWUSDT" 90]
             Sample.shortTracking)) = []
  /\ MonitorTrace.alertsOf "NEWUSDT"
       (Monitor.confirmedDowntrendSymbols
          (Monitor.monitoringCycle Sample.sqrtFloor Sample.fetch "1h"
             (JS.ofZ 1000) (JS.ofZ 2000) [Sample.gainer "NEWUSDT" 90]
             Sample.shortTracking)) = []
  /\ signals
       (MonitorTrace.run Sample.newAt100
          (MonitorTrace.observations (JS.ofZ 1000) "NEWUSDT"
             [Sample.gainer "NEWUSDT" 90])).1.1
     = signals Sample.newAt100
  /\ (Forall (fun g => g_symbol g = "NEWUSDT" ->
                       JS.gt (g_lastPrice g) (highestPrice Sample.newAt100)
                       = false)
             [Sample.gainer "NEWUSDT" 90] ->
      highestPrice
        (MonitorTrace.run Sample.newAt100
           (MonitorTrace.observations (JS.ofZ 1000) "NEWUSDT"
              [Sample.gainer "NEWUSDT" 90])).1.1
      = highestPrice Sample.newAt100
      /\ downtrend
           (MonitorTrace.run Sample.newAt100
              (MonitorTrace.observations (JS.ofZ 1000) "NEWUSDT"
                 [Sample.gainer "NEWUSDT" 90])).1.1
         = downtrend Sample.newAt100
      /\ downtrendConfirmed
           (MonitorTrace.run Sample.newAt100
              (MonitorTrace.observations (JS.ofZ 1000) "NEWUSDT"
                 [Sample.gainer "NEWUSDT" 90])).1.1
         = downtrendConfirmed Sample.newAt100
      /\ downtrendNotified
           (MonitorTrace.run Sample.newAt100
              (MonitorTrace.observations (JS.ofZ 1000) "NEWUSDT"
                 [Sample.gainer "NEWUSDT" 90])).1.1
         = downtrendNotified Sample.newAt100).
Proof.
  apply (short_history_leaves_state Sample.sqrtFloor Sample.fetch "1h"
           (JS.ofZ 1000) (JS.ofZ 2000) [Sample.gainer "NEWUSDT" 90]
           Sample.shortTracking "NEWUSDT" Sample.newAt100
           (take 10 Sample.fallingCandles)).
  - reflexivity.
  - vm_compute. reflexivity.
  - reflexivity.
Defined.

(* ===================================================================== *)
(** * Further properties of the code *)
(* ===================================================================== *)

(** ** The map of the monitor: keys, alerts per symbol, clean-up count *)

Section MonitorMap.
Import JS Monitor MonitorTrace.

Lemma monitor_update_symbol (g : GainerInfo) (now : number)
    (t : TrackedSymbol) :
  symbol (updateTracked g now t) = symbol t.
Proof. unfold updateTracked. destruct (gt _ _); reflexivity. Qed.

Lemma applyResult_symbol (t : TrackedSymbol) (r : AnalysisResult) :
  symbol (applyResult t r).1.1 = symbol t.
Proof.
  destruct t as [sym last high time sigs d c n].
  unfold applyResult. cbn -[gt lt dropFromHigh].
  destruct (gt (r_probability r) Analyzer.c70 && lt last high && negb d),
           (gt (dropFromHigh high last) c5), c, n; reflexivity.
Qed.

Lemma restoreItem_keyed (now : number) (m : gmap string TrackedSymbol)
    (item : HistoryItem) :
  keyed m -> keyed (restoreItem now m item).
Proof.
  intros Hm. unfold restoreItem.
  destruct (h_symbol item) as [sym|]; [|exact Hm].
  destruct (h_lastPrice item) as [last|]; [|exact Hm].
  destruct (negb (String.eqb sym "") && truthy last); [|exact Hm].
  apply map_Forall_insert_2; [reflexivity | exact Hm].
Qed.

Lemma trackGainer_keyed (now : number) (m : gmap string TrackedSymbol)
    (g : GainerInfo) :
  keyed m -> keyed (trackGainer now m g).
Proof.
  intros Hm. unfold trackGainer.
  destruct (m !! g_symbol g) as [t|] eqn:Ht.
  - apply map_Forall_insert_2; [|exact Hm].
    rewrite monitor_update_symbol. exact (Hm _ _ Ht).
  - apply map_Forall_insert_2; [reflexivity | exact Hm].
Qed.

Lemma processResult_keyed
    (acc : gmap string TrackedSymbol * list Alert * list Alert)
    (r : AnalysisResult) :
  keyed acc.1.1 -> keyed (processResult acc r).1.1.
Proof.
  destruct acc as [[m w] c]. cbn [fst]. intros Hm.
  rewrite processResult_unfold.
  destruct (m !! r_symbol r) as [t|] eqn:Ht; cbn [fst]; [|exact Hm].
  apply map_Forall_insert_2; [|exact Hm].
  rewrite applyResult_symbol. exact (Hm _ _ Ht).
Qed.

Lemma fold_left_invariant {A B} (P : A -> Prop) (f : A -> B -> A)
    (l : list B) (a : A) :
  (forall a b, P a -> P (f a b)) -> P a -> P (fold_left f l a).
Proof.
  intros Hf. revert a. induction l as [|b l IH]; intros a Ha; [exact Ha|].
  cbn [fold_left]. apply IH, Hf, Ha.
Qed.

Lemma cleanup_keyed (now : number) (m : gmap string TrackedSymbol) :
  keyed m -> keyed (cleanup now m).1.
Proof.
  intros Hm k t Hk. rewrite cleanup_lookup in Hk.
  destruct (m !! k) as [t0|] eqn:Ht0; [|discriminate].
  destruct (inactive now t0); [discriminate|].
  injection Hk as <-. exact (Hm _ _ Ht0).
Qed.

(** The symbols handed to [analyzeSymbols] are the keys of the map, each
    once, as long as the map is keyed. *)
Lemma symbolsToAnalyze_NoDup (m : gmap string TrackedSymbol) :
  keyed m -> NoDup (map si_symbol (symbolsToAnalyze m)).
Proof.
  intros Hm. unfold symbolsToAnalyze. rewrite map_map. cbn [si_symbol].
  assert (map (fun item : string * TrackedSymbol => symbol item.2)
              (map_to_list m) = (map_to_list m).*1) as ->.
  { apply map_ext_in. intros [k t] Hin. cbn [fst snd].
    apply list_elem_of_In, elem_of_map_to_list in Hin. exact (Hm _ _ Hin). }
  apply NoDup_fst_map_to_list.
Qed.

Lemma NoDup_map_filter_bool {A B} (g : A -> B) (f : A -> bool) (l : list A) :
  NoDup (map g l) -> NoDup (map g (List.filter f l)).
Proof.
  induction l as [|x l IH]; cbn [map List.filter]; intros Hnd; [constructor|].
  apply NoDup_cons in Hnd as [Hx Hnd].
  destruct (f x); [|apply IH, Hnd].
  cbn [map]. apply NoDup_cons. split; [|apply IH, Hnd].
  intros Hin. apply Hx.
  apply list_elem_of_In, in_map_iff in Hin as (y & Hy & Hin).
  apply filter_In in Hin as [Hin _].
  apply list_elem_of_In, in_map_iff. exists y. auto.
Qed.

(** In a list of results with distinct symbols at most one concerns [s]. *)
Lemma analyses_at_most_one (s : string) (rs : list AnalysisResult) :
  NoDup (map r_symbol rs) -> (length (analyses s rs) <= 1)%nat.
Proof.
  unfold analyses. rewrite length_map.
  induction rs as [|r rs IH]; cbn [map]; intros Hnd; [cbn; lia|].
  apply NoDup_cons in Hnd as [Hr Hnd]. rewrite filter_cons.
  destruct (decide (r_symbol r = s)) as [Hs | Hs]; [|apply IH, Hnd].
  assert (filter (fun r0 => r_symbol r0 = s) rs = []) as ->; [|cbn; lia].
  apply (filter_none _ (fun r0 => r_symbol r0 <> s)); [|auto].
  apply Forall_forall. intros r0 Hin Heq. apply Hr.
  rewrite Hs, <- Heq. apply list_elem_of_fmap. exists r0. auto.
Qed.

Lemma run_analyses_at_most_one (s : string) (rs : list AnalysisResult)
    (t : TrackedSymbol) :
  (length (analyses s rs) <= 1)%nat ->
  (length (run t (analyses s rs)).1.2 <= 1)%nat
  /\ (length (run t (analyses s rs)).2 <= 1)%nat.
Proof.
  unfold analyses.
  destruct (filter (fun r => r_symbol r = s) rs) as [|r [|r' l]];
    cbn [map length]; intros Hlen; [cbn; lia | | lia].
  rewrite monitor_run_cons. cbn [run step fst snd]. rewrite !app_nil_r.
  destruct (applyResult_flags t r) as (_ & _ & _ & _ & _ & Hc).
  split; [|exact Hc].
  destruct t as [sym last high time sigs d c n].
  unfold applyResult. cbn -[gt lt dropFromHigh].
  destruct (gt (r_probability r) Analyzer.c70 && lt last high && negb d),
           (gt (dropFromHigh high last) c5), c, n; cbn; lia.
Qed.

End MonitorMap.

Section MonitorRun.
Import JS Monitor MonitorTrace.
Variable Math_sqrt : number -> number.
Variable fetchCandles : string -> string -> Z -> Analyzer.Fetched.
Variables (interval : string) (now cleanupNow : number).

Lemma monitoringCycle_keyed (gainersList : list GainerInfo)
    (m : gmap string TrackedSymbol) :
  keyed m ->
  keyed (tracked (monitoringCycle Math_sqrt fetchCandles interval now
                                  cleanupNow gainersList m)).
Proof.
  intros Hm. unfold monitoringCycle.
  assert (keyed (fold_left (trackGainer now) gainersList m)) as H1.
  { apply fold_left_invariant; [apply trackGainer_keyed | exact Hm]. }
  destruct (Analyzer.analyzeSymbols _ _ _ _ _) as [results warns].
  assert (keyed (fold_left processResult results
                   (fold_left (trackGainer now) gainersList m, [], [])).1.1)
    as H2.
  { apply (fold_left_invariant (fun acc => keyed acc.1.1));
      [apply processResult_keyed | exact H1]. }
  destruct (fold_left processResult results _) as [[pre weak] confirmed].
  cbn [fst] in H2. pose proof (cleanup_keyed cleanupNow pre H2) as H3.
  destruct (cleanup cleanupNow pre) as [m3 n]. exact H3.
Qed.

(** The results of a cycle carry distinct symbols. *)
Lemma cycle_results_NoDup (m1 : gmap string TrackedSymbol) :
  keyed m1 ->
  NoDup (map r_symbol
           (Analyzer.analyzeSymbols Math_sqrt fetchCandles now
              (symbolsToAnalyze m1) interval).1).
Proof.
  intros Hm1. unfold Analyzer.analyzeSymbols.
  destruct (analyzeSymbols_loop Math_sqrt fetchCandles now interval
              (symbolsToAnalyze m1) [] [] [])
    as (_ & Hsym & _); [constructor..|].
  cbn [map app] in Hsym. rewrite Hsym.
  apply NoDup_map_filter_bool, symbolsToAnalyze_NoDup, Hm1.
Qed.

Lemma monitoringCycle_alerts_once (gainersList : list GainerInfo)
    (m : gmap string TrackedSymbol) (s : string) :
  keyed m ->
  (length (alertsOf s
             (weakBullishSymbols
                (monitoringCycle Math_sqrt fetchCandles interval now
                                 cleanupNow gainersList m))) <= 1)%nat
  /\ (length (alertsOf s
                (confirmedDowntrendSymbols
                   (monitoringCycle Math_sqrt fetchCandles interval now
                                    cleanupNow gainersList m))) <= 1)%nat.
Proof.
  intros Hm. unfold monitoringCycle.
  assert (keyed (fold_left (trackGainer now) gainersList m)) as H1.
  { apply fold_left_invariant; [apply trackGainer_keyed | exact Hm]. }
  pose proof (cycle_results_NoDup _ H1) as Hnd.
  set (m1 := fold_left (trackGainer now) gainersList m) in *.
  destruct (Analyzer.analyzeSymbols _ _ _ _ _) as [results warns].
  cbn [fst] in Hnd.
  destruct (processResult_loop results m1 [] [] s) as (_ & Hw & Hc).
  destruct (fold_left processResult results (m1, [], []))
    as [[pre weak] confirmed].
  destruct (cleanup cleanupNow pre) as [m3 n].
  cbn [fst snd weakBullishSymbols confirmedDowntrendSymbols] in *.
  rewrite Hw, Hc. cbn [alertsOf filter app].
  destruct (m1 !! s) as [t1|]; [|cbn; lia].
  apply run_analyses_at_most_one, analyses_at_most_one, Hnd.
Qed.

End MonitorRun.

(** X1.  A run of [startMonitoring] keeps the map keyed: if every entry is
    stored under the symbol it carries before the run, so it is after the
    restoration, the loop over the gainers list, the loop over the results
    and the clean-up. *)
Theorem startMonitoring_keeps_keys
    (Math_sqrt : JS.number -> JS.number)
    (fetchCandles : string -> string -> Z -> Analyzer.Fetched)
    (interval : string) (now cleanupNow : JS.number)
    (historicalData : list Monitor.HistoryItem)
    (gainersList : list GainerInfo) (m : gmap string TrackedSymbol) :
  keyed m ->
  keyed (Monitor.tracked
           (Monitor.startMonitoring Math_sqrt fetchCandles interval now
              cleanupNow historicalData gainersList m)).
Proof.
  intros Hm. unfold Monitor.startMonitoring.
  apply monitoringCycle_keyed.
  apply fold_left_invariant; [apply restoreItem_keyed | exact Hm].
Qed.

Lemma startMonitoring_keeps_keys_witness :
  keyed (Monitor.tracked
           (Monitor.startMonitoring Sample.sqrtFloor Sample.fetch "1h"
              (JS.ofZ 1000) (JS.ofZ 2000) []
              [Sample.gainer "BTCUSDT" 90; Sample.gainer "UPUSDT" 129]
              Sample.tracking)).
Proof.
  apply (startMonitoring_keeps_keys Sample.sqrtFloor Sample.fetch "1h"
           (JS.ofZ 1000) (JS.ofZ 2000) []
           [Sample.gainer "BTCUSDT" 90; Sample.gainer "UPUSDT" 129]
           Sample.tracking).
  apply map_Forall_singleton. reflexivity.
Defined.

(** X2.  On a keyed map one run of [startMonitoring] queues at most one
    weak-bullish alert and at most one confirmed-downtrend alert per
    symbol. *)
Theorem startMonitoring_one_alert_per_symbol
    (Math_sqrt : JS.number -> JS.number)
    (fetchCandles : string -> string -> Z -> Analyzer.Fetched)
    (interval : string) (now cleanupNow : JS.number)
    (historicalData : list Monitor.HistoryItem)
    (gainersList : list GainerInfo) (m : gmap string TrackedSymbol)
    (s : string) :
  keyed m ->
  (length (MonitorTrace.alertsOf s
             (Monitor.weakBullishSymbols
                (Monitor.startMonitoring Math_sqrt fetchCandles interval now
                   cleanupNow historicalData gainersList m))) <= 1)%nat
  /\ (length (MonitorTrace.alertsOf s
                (Monitor.confirmedDowntrendSymbols
                   (Monitor.startMonitoring Math_sqrt fetchCandles interval
                      now cleanupNow historicalData gainersList m)))
      <= 1)%nat.
Proof.
  intros Hm. unfold Monitor.startMonitoring.
  apply monitoringCycle_alerts_once.
  apply fold_left_invariant; [apply restoreItem_keyed | exact Hm].
Qed.

Lemma startMonitoring_one_alert_per_symbol_witness :
  (length (MonitorTrace.alertsOf "BTCUSDT"
             (Monitor.weakBullishSymbols
                (Monitor.startMonitoring Sample.sqrtFloor Sample.fetch "1h"
                   (JS.ofZ 1000) (JS.ofZ 2000) []
                   [Sample.gainer "BTCUSDT" 90] Sample.tracking))) <= 1)%nat
  /\ (length (MonitorTrace.alertsOf "BTCUSDT"
                (Monitor.confirmedDowntrendSymbols
                   (Monitor.startMonitoring Sample.sqrtFloor Sample.fetch
                      "1h" (JS.ofZ 1000) (JS.ofZ 2000) []
                      [Sample.gainer "BTCUSDT" 90] Sample.tracking)))
      <= 1)%nat.
Proof.
  apply (startMonitoring_one_alert_per_symbol Sample.sqrtFloor Sample.fetch
           "1h" (JS.ofZ 1000) (JS.ofZ 2000) [] [Sample.gainer "BTCUSDT" 90]
           Sample.tracking "BTCUSDT").
  apply map_Forall_singleton. reflexivity.
Defined.

Section CleanupCount.
Import JS Monitor.

Lemma cleanEntry_loop_count (now : number)
    (l : list (string * TrackedSymbol))
    (acc : gmap string TrackedSymbol * Z) :
  NoDup l.*1 ->
  (forall k v, (k, v) ∈ l -> acc.1 !! k = Some v) ->
  Z.of_nat (size (fold_left (cleanEntry now) l acc).1)
  + (fold_left (cleanEntry now) l acc).2
  = Z.of_nat (size acc.1) + acc.2.
Proof.
  revert acc. induction l as [|[k v] l IH]; intros [m n] Hnd Hl;
    [reflexivity|].
  rewrite fmap_cons in Hnd. cbn [fst] in Hnd.
  apply NoDup_cons in Hnd as [Hk Hnd]. cbn [fold_left].
  assert (m !! k = Some v) as Hkv by (apply (Hl k v); left).
  rewrite IH; [|exact Hnd|].
  - unfold cleanEntry. cbn [fst snd].
    destruct (inactive now v); cbn [fst snd]; [|reflexivity].
    rewrite map_size_delete, Hkv.
    assert (size m <> 0%nat) as Hne.
    { intros H0. apply map_size_empty_inv in H0. subst m.
      rewrite lookup_empty in Hkv. discriminate. }
    lia.
  - intros k' v' Hin. unfold cleanEntry. cbn [fst snd].
    destruct (inactive now v); cbn [fst]; [|apply Hl; right; exact Hin].
    rewrite lookup_delete_ne; [apply Hl; right; exact Hin|].
    intros ->. apply Hk. apply list_elem_of_fmap. exists (k', v'). auto.
Qed.

Lemma cleanup_count (now : number) (m : gmap string TrackedSymbol) :
  Z.of_nat (size (cleanup now m).1) + (cleanup now m).2 = Z.of_nat (size m).
Proof.
  unfold cleanup. rewrite cleanEntry_loop_count.
  - cbn [fst snd]. lia.
  - apply NoDup_fst_map_to_list.
  - intros k v Hin. apply elem_of_map_to_list. exact Hin.
Qed.

End CleanupCount.

(** X3.  [cleanedCount] is the number of symbols the clean-up removed: the
    number of entries saved as [trackingData] is the number of entries left
    in the map plus [cleanedCount] (which is therefore never negative). *)
Theorem cleanedCount_is_number_removed
    (Math_sqrt : JS.number -> JS.number)
    (fetchCandles : string -> string -> Z -> Analyzer.Fetched)
    (interval : string) (now cleanupNow : JS.number)
    (historicalData : list Monitor.HistoryItem)
    (gainersList : list GainerInfo) (m : gmap string TrackedSymbol) :
  Z.of_nat (length (Monitor.trackingData
                      (Monitor.startMonitoring Math_sqrt fetchCandles
                         interval now cleanupNow historicalData gainersList
                         m)))
  = Z.of_nat (size (Monitor.tracked
                      (Monitor.startMonitoring Math_sqrt fetchCandles
                         interval now cleanupNow historicalData gainersList
                         m)))
    + Monitor.cleanedCount
        (Monitor.startMonitoring Math_sqrt fetchCandles interval now
           cleanupNow historicalData gainersList m)
  /\ 0 <= Monitor.cleanedCount
            (Monitor.startMonitoring Math_sqrt fetchCandles interval now
               cleanupNow historicalData gainersList m).
Proof.
  unfold Monitor.startMonitoring, Monitor.monitoringCycle.
  destruct (Analyzer.analyzeSymbols _ _ _ _ _) as [results warns].
  destruct (fold_left Monitor.processResult results _)
    as [[pre weak] confirmed].
  pose proof (cleanup_count cleanupNow pre) as Hcount.
  pose proof (cleanup_lookup cleanupNow pre) as Hlook.
  destruct (Monitor.cleanup cleanupNow pre) as [m3 n].
  cbn [Monitor.trackingData Monitor.tracked Monitor.cleanedCount fst snd] in *.
  rewrite length_fmap, length_map_to_list.
  split; [lia|].
  assert (size m3 <= size pre)%nat; [|lia].
  apply map_subseteq_size, map_subseteq_spec. intros k v Hk.
  rewrite Hlook in Hk. destruct (pre !! k) as [t|]; [|discriminate].
  destruct (Monitor.inactive cleanupNow t); [discriminate | exact Hk].
Qed.

(** ** A symbol seen for the first time *)

Section FirstSight.
Import JS Monitor MonitorTrace.

Lemma applyResult_time (t : TrackedSymbol) (r : AnalysisResult) :
  lastUpdateTime (applyResult t r).1.1 = lastUpdateTime t.
Proof.
  destruct t as [sym last high time sigs d c n].
  unfold applyResult. cbn -[gt lt dropFromHigh].
  destruct (gt (r_probability r) Analyzer.c70 && lt last high && negb d),
           (gt (dropFromHigh high last) c5), c, n; reflexivity.
Qed.

(** A symbol sitting on its high with cleared flags: analysis results
    change nothing but its signal list, and queue nothing. *)
Lemma analyses_on_high_quiet (s : string) (rs : list AnalysisResult)
    (t : TrackedSymbol) :
  lastPrice t = highestPrice t -> flagsCleared t ->
  let out := run t (analyses s rs) in
  flagsCleared out.1.1
  /\ lastPrice out.1.1 = lastPrice t
  /\ highestPrice out.1.1 = highestPrice t
  /\ lastUpdateTime out.1.1 = lastUpdateTime t
  /\ out.1.2 = [] /\ out.2 = [].
Proof.
  cbv zeta. unfold analyses.
  revert t. induction (filter (fun r => r_symbol r = s) rs) as [|r l IH];
    intros t Hlast Hflags; [cbn; auto 10|].
  cbn [map]. rewrite monitor_run_cons. cbn [step fst snd].
  destruct Hflags as (Hd & Hc & Hn).
  pose proof (applyResult_flags t r) as (Fd & Fc & Fn & Fw & Fq & _).
  cbn zeta in *.
  rewrite Hlast, lt_irrefl, dropFromHigh_diag_gt, Hd, Hc, Hn in *.
  rewrite andb_false_r in *. cbn in Fd, Fc, Fn, Fw, Fq.
  destruct (IH (applyResult t r).1.1) as (I1 & I2 & I3 & I4 & I5 & I6).
  - rewrite applyResult_last, applyResult_high. exact Hlast.
  - repeat split; assumption.
  - rewrite I2, I3, I4, I5, I6, applyResult_last, applyResult_high,
      applyResult_time, !app_nil_r, Hlast.
    destruct I1 as (? & ? & ?). repeat split; try assumption.
    + destruct (applyResult t r).1.2 as [|a q]; [reflexivity|].
      exfalso. assert (false = true); [apply Fw|]; congruence.
    + destruct (applyResult t r).2 as [|a q]; [reflexivity|].
      exfalso. assert (false = true); [apply Fq|]; congruence.
Qed.

End FirstSight.

(** X4.  A symbol that is not tracked when a monitoring cycle starts: if
    the gainers list does not name it, it is not tracked when the cycle
    ends; if the list names it once, the cycle creates it with the listed
    price as last and highest price, the clock as update time and the
    three flags false, queues no alert for it whatever its analysis says,
    and leaves it so (the clean-up looks at it like at any other entry). *)
Theorem first_sight_is_quiet
    (Math_sqrt : JS.number -> JS.number)
    (fetchCandles : string -> string -> Z -> Analyzer.Fetched)
    (interval : string) (now cleanupNow : JS.number)
    (gainersList : list GainerInfo) (m : gmap string TrackedSymbol)
    (s : string) :
  m !! s = None ->
  (filter (fun g => g_symbol g = s) gainersList = [] ->
   Monitor.tracked
     (Monitor.monitoringCycle Math_sqrt fetchCandles interval now cleanupNow
                              gainersList m) !! s = None)
  /\ (forall g,
        filter (fun g => g_symbol g = s) gainersList = [g] ->
        exists t,
          Monitor.tracked
            (Monitor.monitoringCycle Math_sqrt fetchCandles interval now
                                     cleanupNow gainersList m) !! s
          = (if Monitor.inactive cleanupNow t then None else Some t)
          /\ lastPrice t = g_lastPrice g
          /\ highestPrice t = g_lastPrice g
          /\ lastUpdateTime t = now
          /\ flagsCleared t
          /\ MonitorTrace.alertsOf s
               (Monitor.weakBullishSymbols
                  (Monitor.monitoringCycle Math_sqrt fetchCandles interval
                     now cleanupNow gainersList m)) = []
          /\ MonitorTrace.alertsOf s
               (Monitor.confirmedDowntrendSymbols
                  (Monitor.monitoringCycle Math_sqrt fetchCandles interval
                     now cleanupNow gainersList m)) = []).
Proof.
  intros Hm.
  pose proof (trackGainer_loop_new now gainersList m s Hm) as H1.
  unfold Monitor.monitoringCycle.
  set (m1 := fold_left (Monitor.trackGainer now) gainersList m) in *.
  destruct (Analyzer.analyzeSymbols _ _ _ _ _) as [results warns].
  destruct (processResult_loop results m1 [] [] s) as (H2 & Hw & Hc).
  destruct (fold_left Monitor.processResult results (m1, [], []))
    as [[pre weak] confirmed].
  pose proof (cleanup_lookup cleanupNow pre s) as H3.
  destruct (Monitor.cleanup cleanupNow pre) as [m3 n].
  cbn [fst snd Monitor.tracked Monitor.weakBullishSymbols
       Monitor.confirmedDowntrendSymbols] in *.
  split.
  - intros Hnone. rewrite Hnone in H1. rewrite H1 in H2. cbn in H2.
    rewrite H3, H2. reflexivity.
  - intros g Hg. rewrite Hg in H1. cbn [map MonitorTrace.run fst] in H1.
    rewrite H1 in H2, Hw, Hc. cbn [fmap option_fmap option_map] in H2.
    destruct (analyses_on_high_quiet s results (Monitor.newTracked g now))
      as (Hflags & Hlast & Hhigh & Htime & Hqw & Hqc);
      [reflexivity | repeat split |].
    eexists. split; [rewrite H3, H2; reflexivity|].
    rewrite Hw, Hc, Hqw, Hqc. destruct Hflags as (? & ? & ?).
    repeat split; try assumption; try reflexivity.
Qed.

Lemma first_sight_is_quiet_witness :
  (filter (fun g => g_symbol g = "UPUSDT") [Sample.gainer "UPUSDT" 129] = [] ->
   Monitor.tracked
     (Monitor.monitoringCycle Sample.sqrtFloor Sample.fetch "1h"
        (JS.ofZ 1000) (JS.ofZ 2000) [Sample.gainer "UPUSDT" 129]
        Sample.tracking) !! "UPUSDT" = None)
  /\ (forall g,
        filter (fun g => g_symbol g = "UPUSDT") [Sample.gainer "UPUSDT" 129]
        = [g] ->
        exists t,
          Monitor.tracked
            (Monitor.monitoringCycle Sample.sqrtFloor Sample.fetch "1h"
               (JS.ofZ 1000) (JS.ofZ 2000) [Sample.gainer "UPUSDT" 129]
               Sample.tracking) !! "UPUSDT"
          = (if Monitor.inactive (JS.ofZ 2000) t then None else Some t)
          /\ lastPrice t = g_lastPrice g
          /\ highestPrice t = g_lastPrice g
          /\ lastUpdateTime t = JS.ofZ 1000
          /\ flagsCleared t
          /\ MonitorTrace.alertsOf "UPUSDT"
               (Monitor.weakBullishSymbols
                  (Monitor.monitoringCycle Sample.sqrtFloor Sample.fetch "1h"
                     (JS.ofZ 1000) (JS.ofZ 2000) [Sample.gainer "UPUSDT" 129]
                     Sample.tracking)) = []
          /\ MonitorTrace.alertsOf "UPUSDT"
               (Monitor.confirmedDowntrendSymbols
                  (Monitor.monitoringCycle Sample.sqrtFloor Sample.fetch "1h"
                     (JS.ofZ 1000) (JS.ofZ 2000) [Sample.gainer "UPUSDT" 129]
                     Sample.tracking)) = []).
Proof.
  apply (first_sight_is_quiet Sample.sqrtFloor Sample.fetch "1h"
           (JS.ofZ 1000) (JS.ofZ 2000) [Sample.gainer "UPUSDT" 129]
           Sample.tracking "UPUSDT").
  reflexivity.
Defined.

(** ** The backtest, day by day *)

Section BacktestMap.
Import JS Backtest BacktestTrace.

Lemma backtest_update_symbol (results : list AnalysisResult) (sym : string)
    (p date : number) (t : TrackedSymbol) :
  symbol (updateTracked results sym p date t) = symbol t.
Proof.
  unfold updateTracked. cbv zeta.
  repeat match goal with
         | |- context [if ?b then _ else _] => destruct b
         | |- context [match findResult ?a ?b with _ => _ end] =>
             destruct (findResult a b)
         end; reflexivity.
Qed.

Lemma scanTracked_symbol (results : list AnalysisResult) (sym : string)
    (t : TrackedSymbol) :
  symbol (scanTracked results sym t).1.1 = symbol t.
Proof.
  unfold scanTracked.
  destruct (downtrendConfirmed t && negb (downtrendNotified t)); reflexivity.
Qed.

Lemma scanTracked_settled (results : list AnalysisResult) (sym : string)
    (t : TrackedSymbol) :
  settled (scanTracked results sym t).1.1.
Proof.
  unfold settled.
  pose proof (scanTracked_fields results sym t) as (_ & _ & _ & Hc & Hn & _).
  cbn zeta in *. rewrite Hc, Hn. intros ->. apply orb_true_r.
Qed.

Lemma scanTracked_lengths (results : list AnalysisResult) (sym : string)
    (t : TrackedSymbol) :
  (length (scanTracked results sym t).1.2 <= 1)%nat
  /\ (length (scanTracked results sym t).2 <= 1)%nat.
Proof.
  unfold scanTracked.
  destruct (downtrend t && negb (downtrendNotified t)),
           (downtrendConfirmed t && negb (downtrendNotified t)),
           (findResult results sym); cbn; lia.
Qed.

(** What the first loop of a day makes of the map, key by key. *)
Lemma backtest_trackGainer_lookup (results : list AnalysisResult)
    (date : number) (gs : list GainerInfo) (m : gmap string TrackedSymbol)
    (s : string) :
  fold_left (trackGainer results date) gs m !! s =
  match m !! s, filter (fun g => g_symbol g = s) gs with
  | Some t, l =>
      Some (run t (map (fun g => Observed results s (g_lastPrice g) date)
                       l)).1.1
  | None, [] => None
  | None, g :: l =>
      Some (run (newTracked s (g_lastPrice g) date)
                (map (fun g => Observed results s (g_lastPrice g) date)
                     l)).1.1
  end.
Proof.
  destruct (m !! s) as [t|] eqn:Hm.
  { apply backtest_trackGainer_loop. exact Hm. }
  revert m Hm. induction gs as [|g gs IH]; intros m Hm; [exact Hm|].
  cbn [fold_left]. rewrite filter_cons.
  destruct (decide (g_symbol g = s)) as [Hs | Hs].
  - apply backtest_trackGainer_loop.
    unfold trackGainer. rewrite Hs, Hm. apply lookup_insert_eq.
  - apply IH. unfold trackGainer.
    destruct (m !! g_symbol g); rewrite lookup_insert_ne; auto.
Qed.

(** What the second loop of a day makes of the map and of the two arrays,
    key by key. *)
Lemma scanEntry_loop_lookup (results : list AnalysisResult)
    (m : gmap string TrackedSymbol) (s : string) :
  (fold_left (scanEntry results) (map_to_list m) (m, [], [])).1.1 !! s =
    (fun t => (scanTracked results s t).1.1) <$> m !! s
  /\ signalsOf s
       (fold_left (scanEntry results) (map_to_list m) (m, [], [])).1.2 =
     from_option (fun t => (scanTracked results s t).1.2) [] (m !! s)
  /\ signalsOf s
       (fold_left (scanEntry results) (map_to_list m) (m, [], [])).2 =
     from_option (fun t => (scanTracked results s t).2) [] (m !! s).
Proof.
  destruct (m !! s) as [t|] eqn:Hm; cbn [fmap option_fmap option_map from_option].
  - apply (scanEntry_loop_visited results (map_to_list m) m [] [] s t).
    + apply NoDup_fst_map_to_list.
    + apply elem_of_map_to_list. exact Hm.
  - destruct (scanEntry_loop_other results (map_to_list m) m [] [] s)
      as (-> & -> & ->); [|auto].
    intros Hin. apply list_elem_of_fmap in Hin as ([k v] & -> & Hin).
    apply elem_of_map_to_list in Hin. cbn in Hm. congruence.
Qed.

Lemma backtest_run_symbol (es : list Event) (t : TrackedSymbol) :
  symbol (run t es).1.1 = symbol t.
Proof.
  revert t. induction es as [|e es IH]; intros t; [reflexivity|].
  rewrite backtest_run_cons. cbn [fst]. rewrite IH.
  destruct e; cbn [step fst].
  - apply backtest_update_symbol.
  - apply scanTracked_symbol.
Qed.

Section Day.
Variable Math_sqrt : number -> number.
Variable fetchCandles : string -> string -> Z -> Analyzer.Fetched.

(** One day, key by key: the entry is the first loop's entry after the
    visit of the second loop, and the two arrays hold what that visit
    pushed. *)
Lemma processDay_lookup (date now : number) (gainers : list GainerInfo)
    (interval : string) (m : gmap string TrackedSymbol) (s : string) :
  let d := processDay Math_sqrt fetchCandles date now gainers interval m in
  let results :=
    (Analyzer.analyzeSymbols Math_sqrt fetchCandles now
       (map gainerSymbolInfo gainers) interval).1 in
  let m1 := fold_left (trackGainer results date) gainers m in
  allSymbols d !! s = (fun t => (scanTracked results s t).1.1) <$> m1 !! s
  /\ signalsOf s (uptrendFailureSignals d) =
     from_option (fun t => (scanTracked results s t).1.2) [] (m1 !! s)
  /\ signalsOf s (downtrendConfirmedSignals d) =
     from_option (fun t => (scanTracked results s t).2) [] (m1 !! s).
Proof.
  cbv zeta. unfold processDay.
  destruct (Analyzer.analyzeSymbols Math_sqrt fetchCandles now
              (map gainerSymbolInfo gainers) interval) as [results warns].
  cbn [fst].
  pose proof (scanEntry_loop_lookup results
                (fold_left (trackGainer results date) gainers m) s) as H.
  destruct (fold_left (scanEntry results) _ _) as [[m2 up] confirmed].
  exact H.
Qed.

Lemma processDay_is_Some (date now : number) (gainers : list GainerInfo)
    (interval : string) (m : gmap string TrackedSymbol) (s : string) :
  is_Some (allSymbols (processDay Math_sqrt fetchCandles date now gainers
                                  interval m) !! s)
  <-> is_Some (m !! s) \/ Exists (fun g => g_symbol g = s) gainers.
Proof.
  destruct (processDay_lookup date now gainers interval m s) as (-> & _).
  rewrite fmap_is_Some, backtest_trackGainer_lookup.
  destruct (m !! s) as [t|] eqn:Hm.
  - split; [left|]; eauto.
  - destruct (filter (fun g => g_symbol g = s) gainers) as [|g l] eqn:Hf.
    + split; [intros [? ?]; congruence|].
      intros [[? ?] | Hex]; [congruence|].
      apply Exists_exists in Hex as (g & Hin & Hg).
      assert (g ∈ filter (fun g => g_symbol g = s) gainers) as Hin'.
      { apply list_elem_of_filter. split; [exact Hg | exact Hin]. }
      rewrite Hf in Hin'. inversion Hin'.
    + split; [|eauto]. intros _. right.
      assert (g ∈ filter (fun g => g_symbol g = s) gainers) as Hin
        by (rewrite Hf; left).
      apply list_elem_of_filter in Hin as [Hg Hin].
      apply Exists_exists. exists g. split; [exact Hin | exact Hg].
Qed.

Lemma processDay_entry (date now : number) (gainers : list GainerInfo)
    (interval : string) (m : gmap string TrackedSymbol) :
  map_Forall (fun k t => symbol t = k /\ backtestInv t) m ->
  map_Forall (fun k t => symbol t = k /\ backtestInv t /\ settled t)
    (allSymbols (processDay Math_sqrt fetchCandles date now gainers
                            interval m)).
Proof.
  intros Hm s t'.
  destruct (processDay_lookup date now gainers interval m s) as (-> & _).
  rewrite backtest_trackGainer_lookup.
  set (results := (Analyzer.analyzeSymbols Math_sqrt fetchCandles now
                     (map gainerSymbolInfo gainers) interval).1).
  assert (forall t es, symbol t = s -> backtestInv t ->
            symbol (scanTracked results s (run t es).1.1).1.1 = s
            /\ backtestInv (scanTracked results s (run t es).1.1).1.1
            /\ settled (scanTracked results s (run t es).1.1).1.1) as Hrun.
  { intros t es Hs Hinv. split; [|split].
    - rewrite scanTracked_symbol, backtest_run_symbol. exact Hs.
    - apply backtest_scan_inv, backtest_run_inv. exact Hinv.
    - apply scanTracked_settled. }
  destruct (m !! s) as [t|] eqn:Hms.
  - cbn. intros [= <-]. destruct (Hm s t Hms). apply Hrun; assumption.
  - destruct (filter (fun g => g_symbol g = s) gainers) as [|g l];
      cbn; [discriminate|].
    intros [= <-]. apply Hrun; [reflexivity | apply backtest_new_inv].
Qed.

End Day.

End BacktestMap.

(** X5.  When a day of the backtest is over, no tracked symbol is left
    confirmed without its signal having been issued: whatever the map was
    before the day, every entry with [downtrendConfirmed] set has
    [downtrendNotified] set. *)
Theorem processDay_settles
    (Math_sqrt : JS.number -> JS.number)
    (fetchCandles : string -> string -> Z -> Analyzer.Fetched)
    (date now : JS.number) (gainers : list GainerInfo) (interval : string)
    (m : gmap string TrackedSymbol) (s : string) (t : TrackedSymbol) :
  Backtest.allSymbols
    (Backtest.processDay Math_sqrt fetchCandles date now gainers interval m)
    !! s = Some t ->
  downtrendConfirmed t = true ->
  downtrendNotified t = true.
Proof.
  destruct (processDay_lookup Math_sqrt fetchCandles date now gainers
              interval m s) as (-> & _).
  intros Hs. apply fmap_Some in Hs as (t1 & _ & ->).
  apply scanTracked_settled.
Qed.

Lemma processDay_settles_witness :
  downtrendNotified SampleRun.btcConfirmed = true.
Proof.
  apply (processDay_settles Sample.sqrtFloor Sample.fetch (JS.ofZ 2)
           (JS.ofZ 20) [Sample.gainer "BTCUSDT" 90] "1h" Sample.tracking
           "BTCUSDT" SampleRun.btcConfirmed).
  - vm_compute. reflexivity.
  - reflexivity.
Defined.

(** X6.  One day of the backtest pushes at most one element per symbol on
    each of its two signal arrays, and none for a symbol that is not
    tracked when the day ends. *)
Theorem processDay_one_signal_per_symbol
    (Math_sqrt : JS.number -> JS.number)
    (fetchCandles : string -> string -> Z -> Analyzer.Fetched)
    (date now : JS.number) (gainers : list GainerInfo) (interval : string)
    (m : gmap string TrackedSymbol) (s : string) :
  (length (BacktestTrace.signalsOf s
             (Backtest.uptrendFailureSignals
                (Backtest.processDay Math_sqrt fetchCandles date now gainers
                                     interval m))) <= 1)%nat
  /\ (length (BacktestTrace.signalsOf s
                (Backtest.downtrendConfirmedSignals
                   (Backtest.processDay Math_sqrt fetchCandles date now
                                        gainers interval m))) <= 1)%nat
  /\ (Backtest.allSymbols
        (Backtest.processDay Math_sqrt fetchCandles date now gainers
                             interval m) !! s = None ->
      BacktestTrace.signalsOf s
        (Backtest.uptrendFailureSignals
           (Backtest.processDay Math_sqrt fetchCandles date now gainers
                                interval m)) = []
      /\ BacktestTrace.signalsOf s
           (Backtest.downtrendConfirmedSignals
              (Backtest.processDay Math_sqrt fetchCandles date now gainers
                                   interval m)) = []).
Proof.
  destruct (processDay_lookup Math_sqrt fetchCandles date now gainers
              interval m s) as (-> & -> & ->).
  destruct (fold_left _ gainers m !! s) as [t|]; cbn.
  - destruct (scanTracked_lengths
                (Analyzer.analyzeSymbols Math_sqrt fetchCandles now
                   (map gainerSymbolInfo gainers) interval).1 s t).
    repeat split; try assumption; discriminate.
  - repeat split; lia.
Qed.

Section BacktestDays.
Import JS Backtest BacktestRun.
Variable Math_sqrt : number -> number.

Lemma runDay_loop_entries (interval : string) (days : list DayInput)
    (acc : gmap string TrackedSymbol * list Day) :
  map_Forall (fun k t => symbol t = k /\ backtestInv t /\ settled t) acc.1 ->
  map_Forall (fun k t => symbol t = k /\ backtestInv t /\ settled t)
    (fold_left (runDay Math_sqrt interval) days acc).1.
Proof.
  apply (fold_left_invariant
           (fun acc => map_Forall
              (fun k t => symbol t = k /\ backtestInv t /\ settled t) acc.1)).
  intros a d Ha. cbn [runDay fst]. apply processDay_entry.
  intros k t Hk. destruct (Ha k t Hk) as (? & ? & ?). auto.
Qed.

Lemma runDay_loop_is_Some (interval : string) (days : list DayInput)
    (acc : gmap string TrackedSymbol * list Day) (s : string) :
  is_Some ((fold_left (runDay Math_sqrt interval) days acc).1 !! s)
  <-> is_Some (acc.1 !! s)
      \/ Exists (fun d => Exists (fun g => g_symbol g = s) (gainersOf d)) days.
Proof.
  revert acc. induction days as [|d days IH]; intros acc.
  - cbn. rewrite Exists_nil. tauto.
  - cbn [fold_left]. rewrite IH, Exists_cons. cbn [runDay fst].
    rewrite processDay_is_Some. tauto.
Qed.

Lemma runDay_loop_days (interval : string) (days : list DayInput)
    (acc : gmap string TrackedSymbol * list Day) :
  length (fold_left (runDay Math_sqrt interval) days acc).2
  = (length acc.2 + length days)%nat.
Proof.
  revert acc. induction days as [|d days IH]; intros acc; cbn [fold_left].
  - cbn. lia.
  - rewrite IH. cbn [runDay snd]. rewrite length_app. cbn. lia.
Qed.

End BacktestDays.

(** X7.  Whatever the days of a backtest bring, an entry of the final map
    is stored under its own symbol, its recorded high is not below its
    last price, it is notified exactly when it is confirmed, and it is
    confirmed only when it is in downtrend. *)
Theorem runBacktest_final_entries
    (Math_sqrt : JS.number -> JS.number)
    (days : list BacktestRun.DayInput) (interval : string)
    (s : string) (t : TrackedSymbol) :
  (BacktestRun.runBacktest Math_sqrt days interval).1 !! s = Some t ->
  symbol t = s
  /\ JS.lt (highestPrice t) (lastPrice t) = false
  /\ downtrendNotified t = downtrendConfirmed t
  /\ (downtrendConfirmed t = true -> downtrend t = true).
Proof.
  intros Hs.
  destruct (runDay_loop_entries Math_sqrt interval days (∅, [])
              (map_Forall_empty _) s t Hs) as (Hk & (Hh & Hnc & Hcd) & Hset).
  repeat split; try assumption.
  unfold settled in Hset.
  destruct (downtrendNotified t), (downtrendConfirmed t); auto.
  symmetry. auto.
Qed.

Lemma runBacktest_final_entries_witness :
  symbol SampleRun.btcConfirmed = "BTCUSDT"
  /\ JS.lt (highestPrice SampleRun.btcConfirmed)
           (lastPrice SampleRun.btcConfirmed) = false
  /\ downtrendNotified SampleRun.btcConfirmed
     = downtrendConfirmed SampleRun.btcConfirmed
  /\ (downtrendConfirmed SampleRun.btcConfirmed = true ->
      downtrend SampleRun.btcConfirmed = true).
Proof.
  apply (runBacktest_final_entries Sample.sqrtFloor
           [SampleRun.day1; SampleRun.day2] "1h" "BTCUSDT").
  vm_compute. reflexivity.
Defined.

(** X8.  The backtest never forgets a symbol: the symbols of its final map
    are exactly those listed on some day of the range, in the mock list
    when the day's historical list came back empty; and it saves one
    analysis per day. *)
Theorem runBacktest_tracks_every_listed_symbol
    (Math_sqrt : JS.number -> JS.number)
    (days : list BacktestRun.DayInput) (interval : string) (s : string) :
  (is_Some ((BacktestRun.runBacktest Math_sqrt days interval).1 !! s)
   <-> Exists (fun d => Exists (fun g => g_symbol g = s)
                               (BacktestRun.gainersOf d)) days)
  /\ length (BacktestRun.runBacktest Math_sqrt days interval).2
     = length days.
Proof.
  unfold BacktestRun.runBacktest. split.
  - rewrite runDay_loop_is_Some. cbn [fst]. rewrite lookup_empty.
    split; [intros [[? ?] | ?]; [discriminate | assumption] | auto].
  - rewrite runDay_loop_days. reflexivity.
Qed.

(** ** The indicator arrays *)

Section IndicatorArrays.
Import JS Technical.

Lemma lookup_map {A B} (f : A -> B) (l : list A) (i : nat) :
  map f l !! i = f <$> l !! i.
Proof.
  revert i. induction l as [|a l IH]; intros [|i]; cbn; auto.
Qed.

Lemma len_map {A B} (f : A -> B) (l : list A) : len (map f l) = len l.
Proof. unfold len. rewrite length_map. reflexivity. Qed.

Lemma len_seqZ (m n : Z) : 0 <= n -> len (seqZ m n) = n.
Proof. intros Hn. unfold len. rewrite length_seqZ. lia. Qed.

Lemma len_nonneg {A} (l : list A) : 0 <= len l.
Proof. unfold len. lia. Qed.

Lemma len_fill {A} (n : Z) (x : A) : 0 <= n -> len (fill n x) = n.
Proof. intros Hn. unfold len, fill. rewrite length_replicate. lia. Qed.

Lemma len_app {A} (l k : list A) : len (l ++ k) = len l + len k.
Proof. unfold len. rewrite length_app. lia. Qed.



Lemma ema_loop_length (data : list number) (k : number) (l : list Z)
    (ema : list number) :
  len (fold_left
         (fun ema i =>
            ema ++ [add (mul (at_ data i) k)
                        (mul (at_ ema (len ema - 1)) (sub n1 k))])
         l ema)
  = len ema + len l.
Proof.
  revert ema. induction l as [|i l IH]; intros ema.
  - cbn. unfold len at 3. cbn. lia.
  - cbn [fold_left]. rewrite IH, len_app. unfold len. cbn [length]. lia.
Qed.

Lemma rsi_loop_length (closes : list number) (period : Z) (l : list Z)
    (acc : number * number * list number) :
  len (fold_left (rsiSmooth closes period) l acc).2
  = len acc.2 + len l.
Proof.
  revert acc. induction l as [|i l IH]; intros [[g ls] rsi].
  - cbn. unfold len at 3. cbn. lia.
  - cbn [fold_left]. rewrite IH. unfold rsiSmooth. cbv zeta.
    destruct (ge _ n0); cbn [snd]; rewrite len_app; unfold len;
      cbn [length]; lia.
Qed.

Lemma len_calculateEMA (data : list number) (period : Z) :
  1 <= period ->
  len (calculateEMA data period) = Z.max (len data) period.
Proof.
  intros Hp. unfold calculateEMA. cbv zeta.
  rewrite len_app, ema_loop_length, len_fill by lia.
  pose proof (len_nonneg data).
  unfold len at 1 2. rewrite length_seqZ. cbn [length]. lia.
Qed.

(** A sum that meets NaN is NaN. *)
Lemma add_loop_NaN {A} (f : A -> number) (l : list A) :
  fold_left (fun sum i => add sum (f i)) l NaN = NaN.
Proof. induction l as [|a l IH]; [reflexivity | exact IH]. Qed.

Lemma add_NaN_r (a : number) : add a NaN = NaN.
Proof. destruct a; reflexivity. Qed.

Lemma add_loop_meets_NaN {A} (f : A -> number) (l1 l2 : list A) (a : A)
    (x0 : number) :
  f a = NaN ->
  fold_left (fun sum i => add sum (f i)) (l1 ++ a :: l2) x0 = NaN.
Proof.
  intros Ha. rewrite fold_left_app. cbn [fold_left].
  rewrite Ha, add_NaN_r. apply add_loop_NaN.
Qed.

Lemma at_past_end (l : list number) (i : Z) : len l <= i -> at_ l i = NaN.
Proof.
  intros Hi. unfold at_. pose proof (len_nonneg l).
  destruct (i <? 0) eqn:E; [reflexivity|].
  rewrite (proj2 (lookup_ge_None l (Z.to_nat i))); [reflexivity|].
  unfold len in *. lia.
Qed.

Lemma seqZ_split (n k : Z) :
  0 <= k < n -> seqZ 0 n = seqZ 0 k ++ k :: seqZ (k + 1) (n - k - 1).
Proof.
  intros Hk. replace n with (k + (n - k)) at 1 by lia.
  rewrite seqZ_app by lia. f_equal. rewrite Z.add_0_l.
  rewrite seqZ_cons by lia. reflexivity.
Qed.

Lemma div_NaN_l (a : number) : div NaN a = NaN.
Proof. reflexivity. Qed.


End IndicatorArrays.

(** ** Where the MACD arrays start *)

Section MACDPrefix.
Import JS Technical.

Lemma at_map_seqZ (g : Z -> number) (n i : Z) :
  at_ (map g (seqZ 0 n)) i = if (0 <=? i) && (i <? n) then g i else NaN.
Proof.
  unfold at_. destruct (i <? 0) eqn:E0.
  - apply Z.ltb_lt in E0. destruct (0 <=? i) eqn:E; [|reflexivity].
    apply Z.leb_le in E. lia.
  - apply Z.ltb_ge in E0. rewrite (proj2 (Z.leb_le 0 i) E0). cbn [andb].
    rewrite lookup_map.
    destruct (seqZ 0 n !! Z.to_nat i) as [k|] eqn:Hk;
      cbn [fmap option_fmap option_map].
    + apply lookup_seqZ in Hk as [-> Hlt].
      rewrite Z2Nat.id in * by exact E0. rewrite Z.add_0_l.
      rewrite (proj2 (Z.ltb_lt i n)) by lia. reflexivity.
    + apply lookup_ge_None in Hk. rewrite length_seqZ in Hk.
      destruct (i <? n) eqn:E; [|reflexivity].
      apply Z.ltb_lt in E. lia.
Qed.

Lemma at_fill_NaN (n i : Z) (l : list number) :
  i < n -> at_ (fill n NaN ++ l) i = NaN.
Proof.
  intros Hi. unfold at_, fill. destruct (i <? 0) eqn:E0; [reflexivity|].
  apply Z.ltb_ge in E0.
  rewrite lookup_app_l by (rewrite length_replicate; lia).
  rewrite lookup_replicate_2 by lia. reflexivity.
Qed.

Lemma at_all_NaN (n i : Z) : at_ (fill n NaN) i = NaN.
Proof.
  unfold at_, fill. destruct (i <? 0); [reflexivity|].
  destruct (replicate (Z.to_nat n) NaN !! Z.to_nat i) as [x|] eqn:Hx;
    [|reflexivity].
  apply lookup_replicate in Hx as [-> _]. reflexivity.
Qed.

(** The first [period - 1] entries of an EMA are NaN. *)
Lemma calculateEMA_early (data : list number) (period i : Z) :
  i < period - 1 -> at_ (calculateEMA data period) i = NaN.
Proof.
  intros Hi. unfold calculateEMA. cbv zeta. apply at_fill_NaN, Hi.
Qed.

Lemma at_insert_ne (l : list number) (a i : Z) (x : number) :
  0 <= a -> i <> a -> at_ (<[Z.to_nat a := x]> l) i = at_ l i.
Proof.
  intros Ha Hne. unfold at_. destruct (i <? 0) eqn:E0; [reflexivity|].
  apply Z.ltb_ge in E0. rewrite list_lookup_insert_ne by lia. reflexivity.
Qed.

Lemma at_insert_eq (l : list number) (a : Z) (x : number) :
  at_ (<[Z.to_nat a := x]> l) a = x
  \/ at_ (<[Z.to_nat a := x]> l) a = at_ l a.
Proof.
  unfold at_. destruct (a <? 0); [right; reflexivity|].
  destruct (Nat.lt_ge_cases (Z.to_nat a) (length l)) as [Hlt | Hge].
  - left. rewrite list_lookup_insert_eq by exact Hlt. reflexivity.
  - right. rewrite list_insert_ge by exact Hge. reflexivity.
Qed.

(** The loop that spreads the signal line over the MACD indexes: while
    the MACD is NaN below [P] and the spread values are NaN below [Q],
    nothing but NaN is written below [P + Q]. *)
Lemma signal_loop_early (MACD validSignal : list number) (P Q : Z) :
  (forall i, i < P -> at_ MACD i = NaN) ->
  (forall j, j < Q -> at_ validSignal j = NaN) ->
  forall (n : nat) (a : Z) (acc : list number * Z),
    0 <= a ->
    acc.2 <= Z.max 0 (a - P) ->
    (forall i, i < P + Q -> at_ acc.1 i = NaN) ->
    forall i, i < P + Q ->
      at_ (fold_left
             (fun '(signal, validIndex) i =>
                if negb (isNaN (at_ MACD i))
                   && (validIndex <? len validSignal)
                then (<[Z.to_nat i := at_ validSignal validIndex]> signal,
                      validIndex + 1)
                else (signal, validIndex))
             (seqZ a (Z.of_nat n)) acc).1 i = NaN.
Proof.
  intros HM HV. induction n as [|n IH]; intros a [sig vi] Ha Hvi Hsig i Hi.
  - cbn. apply Hsig, Hi.
  - rewrite seqZ_cons by lia. cbn [fold_left].
    replace (Z.pred (Z.of_nat (S n))) with (Z.of_nat n) by lia.
    cbn [fst snd] in *.
    destruct (negb (isNaN (at_ MACD a)) && (vi <? len validSignal)) eqn:E.
    + apply andb_prop in E as [Ea _].
      assert (P <= a) as HPa.
      { destruct (Z.lt_ge_cases a P) as [Hlt|]; [|assumption].
        rewrite (HM a Hlt) in Ea. discriminate. }
      apply IH; [unfold Z.succ; lia | cbn [snd]; unfold Z.succ; lia | | exact Hi].
      cbn [fst]. intros k Hk. destruct (Z.eq_dec k a) as [-> | Hne].
      * destruct (at_insert_eq sig a (at_ validSignal vi)) as [-> | ->].
        -- apply HV. lia.
        -- apply Hsig, Hk.
      * rewrite at_insert_ne by assumption. apply Hsig, Hk.
    + apply IH; [unfold Z.succ; lia | cbn [snd]; unfold Z.succ; lia
                | exact Hsig | exact Hi].
Qed.

(** The MACD line is NaN before index [slowPeriod - 1], the signal line
    and the histogram before index [slowPeriod - 1 + signalPeriod - 1]. *)
Lemma calculateMACD_early (candles : list Candle)
    (fastPeriod slowPeriod signalPeriod : Z) (i : Z) :
  let macd := calculateMACD candles fastPeriod slowPeriod signalPeriod in
  (i < slowPeriod - 1 -> at_ (MACD macd) i = NaN)
  /\ (i < slowPeriod - 1 + (signalPeriod - 1) ->
      at_ (signal macd) i = NaN /\ at_ (histogram macd) i = NaN).
Proof.
  cbv zeta. unfold calculateMACD. cbv zeta.
  set (closes := map close candles).
  set (macdLine := map _ (seqZ 0 (len closes))).
  assert (forall k, k < slowPeriod - 1 -> at_ macdLine k = NaN) as HM.
  { intros k Hk. subst macdLine. rewrite at_map_seqZ.
    destruct ((0 <=? k) && (k <? len closes)); [|reflexivity].
    rewrite (calculateEMA_early closes slowPeriod k Hk).
    cbn [isNaN]. rewrite orb_true_r. reflexivity. }
  set (validSignal := calculateEMA _ signalPeriod).
  assert (forall j, j < signalPeriod - 1 -> at_ validSignal j = NaN) as HV.
  { intros j Hj. apply calculateEMA_early, Hj. }
  pose proof (signal_loop_early macdLine validSignal (slowPeriod - 1)
                (signalPeriod - 1) HM HV (Z.to_nat (len macdLine)) 0
                (fill (len macdLine) NaN, 0)) as Hloop.
  rewrite Z2Nat.id in Hloop by apply len_nonneg.
  cbn [fst snd] in Hloop.
  specialize (Hloop (Z.le_refl 0) (Z.le_max_l 0 _)
                    (fun k _ => at_all_NaN _ k)).
  destruct (fold_left _ (seqZ 0 (len macdLine)) _) as [sig vi].
  cbn [MACD signal histogram fst] in *.
  split; [apply HM|]. intros Hi. split; [apply Hloop, Hi|].
  unfold at_ at 1. destruct (i <? 0) eqn:E0; [reflexivity|].
  apply Z.ltb_ge in E0. rewrite list_lookup_imap.
  destruct (macdLine !! Z.to_nat i) as [v|] eqn:Hv;
    cbn [fmap option_fmap option_map]; [|reflexivity].
  rewrite Z2Nat.id by exact E0. rewrite (Hloop i Hi).
  cbn [isNaN]. rewrite orb_true_r. reflexivity.
Qed.

End MACDPrefix.

(** ** The analyser at the edges *)

Section AnalyzerEdges.
Import JS Technical Analyzer.

Lemma lt_NaN_r (a : number) : lt a NaN = false.
Proof. unfold lt. destruct a; reflexivity. Qed.

Lemma lt_NaN_l (a : number) : lt NaN a = false.
Proof. reflexivity. Qed.

(** The first [n - 1] entries of a moving average are NaN, and so is every
    read outside the array. *)
Lemma movingAverage_early (prices : list number) (n i : Z) :
  i < n - 1 -> at_ (movingAverage prices n) i = NaN.
Proof.
  intros Hi. unfold at_, movingAverage.
  destruct (i <? 0) eqn:E0; [reflexivity|]. apply Z.ltb_ge in E0.
  rewrite lookup_map.
  destruct (seqZ 0 (len prices) !! Z.to_nat i) as [k|] eqn:Hk;
    cbn [fmap option_fmap option_map]; [|reflexivity].
  apply lookup_seqZ in Hk as [-> _].
  rewrite Z2Nat.id by exact E0. rewrite Z.add_0_l.
  destruct (i <? n - 1) eqn:E; [reflexivity|]. apply Z.ltb_ge in E. lia.
Qed.

Lemma names_fire (acc : list Signal * number) (s : Signal)
    (l : list string) (nm : string) :
  name s = nm ->
  sublist (map name acc.1) l ->
  sublist (map name (fire acc s).1) (l ++ [nm]).
Proof.
  intros <- H. unfold fire. cbn [fst]. rewrite map_app. cbn [map].
  apply sublist_app; [exact H | reflexivity].
Qed.

Lemma names_skip (acc : list Signal * number) (l k : list string) :
  sublist (map name acc.1) l -> sublist (map name acc.1) (l ++ k).
Proof. intros H. apply sublist_inserts_r. exact H. Qed.

Variable Math_sqrt : number -> number.

(** The names pushed by the six checks, for a history of the given
    length. *)
Lemma detectSignals_names (candles : list Candle) (lastCandle : Candle)
    (acc : list Signal * number) :
  detectSignals Math_sqrt candles lastCandle = Some acc ->
  sublist (map name acc.1) (namesFor (len candles)).
Proof.
  unfold detectSignals. cbv zeta.
  set (li := len candles - 1).
  set (mas := calculateMovingAverages candles).
  set (a0 := ([], n0) : list Signal * number).
  assert (sublist (map name a0.1) []) as H0 by reflexivity.
  set (a1 := rsiSignal _ li a0).
  assert (sublist (map name a1.1) ([] ++ ["RSI 超买"])) as H1.
  { subst a1. unfold rsiSignal. destruct (gt _ c70).
    - apply names_fire; [reflexivity | exact H0].
    - apply names_skip, H0. }
  set (a2 := bollingerSignal _ lastCandle li a1).
  assert (sublist (map name a2.1)
            (([] ++ ["RSI 超买"]) ++ ["接近布林带上轨"])) as H2.
  { subst a2. unfold bollingerSignal. cbv zeta. destruct (gt _ c0_8).
    - apply names_fire; [reflexivity | exact H1].
    - apply names_skip, H1. }
  cbn [app] in H2.
  set (a3 := macdSignal _ li a2).
  assert (sublist (map name a3.1)
            (["RSI 超买"; "接近布林带上轨"]
             ++ (if 35 <=? len candles then ["MACD 死叉"] else []))) as H3.
  { subst a3. unfold macdSignal.
    destruct (35 <=? len candles) eqn:E.
    - match goal with |- context [if ?b then _ else _] => destruct b end.
      + apply names_fire; [reflexivity | exact H2].
      + apply names_skip, H2.
    - apply Z.leb_gt in E.
      destruct (calculateMACD_early candles 12 26 9 (li - 1)) as [_ Hs].
      destruct Hs as [Hs _]; [subst li; lia|]. cbv zeta in Hs.
      rewrite Hs. unfold gt. rewrite lt_NaN_l, andb_false_r.
      apply names_skip, H2. }
  set (a4 := deathCrossSignal mas li a3).
  assert (sublist (map name a4.1)
            ((["RSI 超买"; "接近布林带上轨"]
              ++ (if 35 <=? len candles then ["MACD 死叉"] else []))
             ++ (if 51 <=? len candles then ["均线死叉"] else []))) as H4.
  { subst a4. unfold deathCrossSignal.
    destruct (51 <=? len candles) eqn:E.
    - match goal with |- context [if ?b then _ else _] => destruct b end.
      + apply names_fire; [reflexivity | exact H3].
      + apply names_skip, H3.
    - apply Z.leb_gt in E.
      subst mas. unfold calculateMovingAverages. cbn [ma20 ma50].
      rewrite (movingAverage_early _ 50 (li - 1)) by (subst li; lia).
      unfold gt. rewrite lt_NaN_l, andb_false_r.
      apply names_skip, H3. }
  intros H.
  destruct (supportBreakSignal mas candles lastCandle li a4) as [a5|] eqn:E5;
    cbn [mbind option_bind] in H; [|discriminate].
  assert (sublist (map name a5.1)
            (((["RSI 超买"; "接近布林带上轨"]
               ++ (if 35 <=? len candles then ["MACD 死叉"] else []))
              ++ (if 51 <=? len candles then ["均线死叉"] else []))
             ++ (if 200 <=? len candles then ["跌破长期支撑"] else [])))
    as H5.
  { unfold supportBreakSignal in E5.
    destruct (200 <=? len candles) eqn:E.
    - destruct (lt (close lastCandle) _).
      + destruct (candleAt candles (li - 1)) as [prev|];
          cbn [mbind option_bind] in E5; [|discriminate].
        injection E5 as <-. destruct (gt (close prev) _).
        * apply names_fire; [reflexivity | exact H4].
        * apply names_skip, H4.
      + injection E5 as <-. apply names_skip, H4.
    - apply Z.leb_gt in E.
      subst mas. unfold calculateMovingAverages in E5. cbn [ma200] in E5.
      rewrite (movingAverage_early _ 200 li) in E5 by (subst li; lia).
      rewrite lt_NaN_r in E5. injection E5 as <-.
      apply names_skip, H4. }
  unfold volumeSignal in H.
  destruct (candleAt candles (li - 1)) as [prev|];
    cbn [mbind option_bind] in H; [|discriminate].
  injection H as <-. unfold namesFor. rewrite !app_assoc.
  match goal with |- context [if ?b then fire _ _ else _] => destruct b end.
  - apply names_fire; [reflexivity | exact H5].
  - apply names_skip, H5.
Qed.

Lemma analyzeSymbol_signals (now : number) (symbol : string)
    (candles : list Candle) (r : AnalysisResult) :
  analyzeSymbol Math_sqrt now symbol candles = Some r ->
  exists lastCandle w,
    detectSignals Math_sqrt candles lastCandle = Some (r_signals r, w)
    /\ r_probability r = (scoreSignals (r_signals r) w).1.
Proof.
  intros H. pose proof H as H'. unfold analyzeSymbol in H'.
  destruct (candleAt candles (len candles - 1)) as [lastCandle|] eqn:Hl;
    cbn [mbind option_bind] in H'; [|discriminate].
  destruct (detectSignals Math_sqrt candles lastCandle) as [[sigs w]|] eqn:Hd;
    cbn [mbind option_bind] in H'; [|discriminate].
  destruct (analyzeSymbol_unfold Math_sqrt now symbol candles lastCandle
              sigs w Hl Hd) as (r' & Hr & _ & Hs & Hp).
  rewrite H in Hr. injection Hr as <-.
  exists lastCandle, w. rewrite Hs. split; [exact Hd | exact Hp].
Qed.

Lemma namesFor_sublist (n : Z) : sublist (namesFor n) signalNames.
Proof.
  unfold signalNames, namesFor.
  destruct (35 <=? n), (51 <=? n), (200 <=? n); cbn;
    repeat first [apply sublist_nil | apply sublist_skip
                 | apply sublist_cons].
Qed.

End AnalyzerEdges.

(** X9.  [analyzeSymbol] throws exactly on a history of fewer than two
    candles: on none the read of the last candle fails, on one the read
    of the candle before it does; on two or more it returns. *)
Theorem analyzeSymbol_throws_iff_short
    (Math_sqrt : JS.number -> JS.number) (now : JS.number) (symbol : string)
    (candles : list Candle) :
  Analyzer.analyzeSymbol Math_sqrt now symbol candles = None
  <-> JS.len candles < 2.
Proof.
  split.
  - intros Hnone.
    destruct (Z.lt_ge_cases (JS.len candles) 2) as [Hlt | Hge];
      [exact Hlt|].
    destruct (analyzeSymbol_total Math_sqrt now symbol candles Hge)
      as (r & ? & ? & ? & _ & _ & Hr & _). congruence.
  - intros Hlen. destruct candles as [|c [|c' l]].
    + reflexivity.
    + unfold Analyzer.analyzeSymbol.
      change (Analyzer.candleAt [c] (JS.len [c] - 1)) with (Some c).
      cbn [mbind option_bind].
      unfold Analyzer.detectSignals. cbv zeta.
      unfold Analyzer.supportBreakSignal, Analyzer.volumeSignal.
      change (Analyzer.candleAt [c] (JS.len [c] - 1 - 1))
        with (@None Candle).
      destruct (JS.lt (close c) _); reflexivity.
    + unfold JS.len in Hlen. cbn [length] in Hlen. lia.
Qed.

(** X10.  The signals of an analysis carry names of the six checks, in the
    order of the checks and each at most once; so there are at most six. *)
Theorem analyzeSymbol_signal_names
    (Math_sqrt : JS.number -> JS.number) (now : JS.number) (symbol : string)
    (candles : list Candle) (r : AnalysisResult) :
  Analyzer.analyzeSymbol Math_sqrt now symbol candles = Some r ->
  sublist (map name (r_signals r)) signalNames
  /\ NoDup (map name (r_signals r))
  /\ JS.len (r_signals r) <= 6.
Proof.
  intros H.
  destruct (analyzeSymbol_signals Math_sqrt now symbol candles r H)
    as (lastCandle & w & Hd & _).
  apply detectSignals_names in Hd. cbn [fst] in Hd.
  assert (sublist (map name (r_signals r)) signalNames) as Hsub.
  { etransitivity; [exact Hd | apply namesFor_sublist]. }
  split; [exact Hsub|]. split.
  - eapply sublist_NoDup; [|exact Hsub]. unfold signalNames, namesFor. cbn.
    repeat (constructor; [intros Hin; repeat (apply elem_of_cons in Hin as [Hin|Hin]; [discriminate|]); inversion Hin|]).
    constructor.
  - apply sublist_length in Hsub. rewrite length_map in Hsub.
    unfold JS.len. cbn in Hsub. lia.
Qed.

Lemma analyzeSymbol_signal_names_witness :
  sublist
    (map name
       (r_signals
          (default (Sample.calm "UPUSDT")
             (Analyzer.analyzeSymbol Sample.sqrtFloor (JS.ofZ 0) "UPUSDT"
                                     Sample.risingCandles))))
    signalNames
  /\ NoDup
       (map name
          (r_signals
             (default (Sample.calm "UPUSDT")
                (Analyzer.analyzeSymbol Sample.sqrtFloor (JS.ofZ 0) "UPUSDT"
                                        Sample.risingCandles))))
  /\ JS.len
       (r_signals
          (default (Sample.calm "UPUSDT")
             (Analyzer.analyzeSymbol Sample.sqrtFloor (JS.ofZ 0) "UPUSDT"
                                     Sample.risingCandles))) <= 6.
Proof.
  apply (analyzeSymbol_signal_names Sample.sqrtFloor (JS.ofZ 0) "UPUSDT"
           Sample.risingCandles).
  vm_compute. reflexivity.
Defined.

(** X11.  The three checks that look at a crossing need a long history:
    with fewer than 35 candles no analysis reports the MACD bearish cross,
    with fewer than 51 none reports the MA20/MA50 death cross, and with
    fewer than 200 none reports the break below MA200. *)
Theorem crossing_signals_need_history
    (Math_sqrt : JS.number -> JS.number) (now : JS.number) (symbol : string)
    (candles : list Candle) (r : AnalysisResult) :
  Analyzer.analyzeSymbol Math_sqrt now symbol candles = Some r ->
  (JS.len candles < 35 -> "MACD 死叉" ∉ map name (r_signals r))
  /\ (JS.len candles < 51 -> "均线死叉" ∉ map name (r_signals r))
  /\ (JS.len candles < 200 -> "跌破长期支撑" ∉ map name (r_signals r)).
Proof.
  intros H.
  destruct (analyzeSymbol_signals Math_sqrt now symbol candles r H)
    as (lastCandle & w & Hd & _).
  apply detectSignals_names in Hd. cbn [fst] in Hd.
  apply sublist_submseteq in Hd.
  split; [|split]; intros Hlen Hin;
    apply (fun H => elem_of_submseteq _ _ _ H Hd) in Hin;
    unfold namesFor in Hin.
  - destruct (35 <=? JS.len candles) eqn:E; [apply Z.leb_le in E; lia|].
    destruct (51 <=? JS.len candles), (200 <=? JS.len candles);
      repeat (apply elem_of_cons in Hin as [Hin|Hin]; [discriminate|]);
      inversion Hin.
  - destruct (51 <=? JS.len candles) eqn:E; [apply Z.leb_le in E; lia|].
    destruct (35 <=? JS.len candles), (200 <=? JS.len candles);
      repeat (apply elem_of_cons in Hin as [Hin|Hin]; [discriminate|]);
      inversion Hin.
  - destruct (200 <=? JS.len candles) eqn:E; [apply Z.leb_le in E; lia|].
    destruct (35 <=? JS.len candles), (51 <=? JS.len candles);
      repeat (apply elem_of_cons in Hin as [Hin|Hin]; [discriminate|]);
      inversion Hin.
Qed.

Lemma crossing_signals_need_history_witness :
  (JS.len Sample.risingCandles < 35 ->
   "MACD 死叉" ∉
     map name
       (r_signals
          (default (Sample.calm "UPUSDT")
             (Analyzer.analyzeSymbol Sample.sqrtFloor (JS.ofZ 0) "UPUSDT"
                                     Sample.risingCandles))))
  /\ (JS.len Sample.risingCandles < 51 ->
      "均线死叉" ∉
        map name
          (r_signals
             (default (Sample.calm "UPUSDT")
                (Analyzer.analyzeSymbol Sample.sqrtFloor (JS.ofZ 0) "UPUSDT"
                                        Sample.risingCandles))))
  /\ (JS.len Sample.risingCandles < 200 ->
      "跌破长期支撑" ∉
        map name
          (r_signals
             (default (Sample.calm "UPUSDT")
                (Analyzer.analyzeSymbol Sample.sqrtFloor (JS.ofZ 0) "UPUSDT"
                                        Sample.risingCandles)))).
Proof.
  apply (crossing_signals_need_history Sample.sqrtFloor (JS.ofZ 0)
           "UPUSDT" Sample.risingCandles).
  vm_compute. reflexivity.
Defined.

(** ** A fired signal weighs something *)

Section PositiveScore.
Import JS Technical Analyzer.
Local Open Scope Qc_scope.

Lemma Qcplus_pos_nonneg (x y : Qc) : 0 < x -> 0 <= y -> 0 < x + y.
Proof.
  intros Hx Hy. apply (Qclt_le_trans _ x); [exact Hx|].
  rewrite <- (Qcplus_0_r x) at 1.
  apply Qcplus_le_compat; [apply Qcle_refl | exact Hy].
Qed.

Lemma positive_not_zero (x : number) : positive x -> x <> ofZ 0.
Proof.
  intros (q & -> & Hq) [= Heq]. subst q. exact (Qclt_not_eq _ _ Hq eq_refl).
Qed.

Lemma min100_positive (x : number) :
  positive x \/ x = PInf -> positive (Math_min n100 x).
Proof.
  intros [(q & -> & Hq) | ->].
  - unfold Math_min, lt, n100, ofZ.
    destruct (Qc_ltb q (Q2Qc (inject_Z 100))).
    + exists q. auto.
    + eexists. split; [reflexivity|]. apply Qc_of_pos. lia.
  - eexists. split; [reflexivity|]. apply Qc_of_pos. lia.
Qed.

Lemma rsi_strength_positive (x : number) :
  gt x c70 = true -> positive (Math_min n100 (mul (sub x c70) c3_33)).
Proof.
  intros H. apply min100_positive.
  apply gt_cases in H as [(q & -> & Hq) | ->]; [left | right; reflexivity].
  unfold sub, c70, c3_33, ofZ, ofQ. cbn [neg add mul]. eexists.
  split; [reflexivity|].
  apply Qcmult_pos; [|reflexivity].
  apply Qclt_minus_iff in Hq. exact Hq.
Qed.

Lemma bollinger_strength_positive (x : number) :
  gt x c0_8 = true -> positive (Math_min n100 (mul x n100)).
Proof.
  intros H. apply min100_positive.
  apply gt_cases in H as [(q & -> & Hq) | ->]; [left | right; reflexivity].
  unfold n100, ofZ. cbn [mul]. eexists. split; [reflexivity|].
  apply Qcmult_pos; [|apply Qc_of_pos; lia].
  eapply Qclt_trans; [|exact Hq]. reflexivity.
Qed.

Lemma constant_strength_positive (n : Z) : (0 < n)%Z -> positive (ofZ n).
Proof.
  intros Hn. eexists. split; [reflexivity | apply Qc_of_pos, Hn].
Qed.

(** Every strength pushed so far is above zero. *)
Lemma firm_fire (acc : list Signal * number) (s : Signal) :
  Forall (fun s => positive (strength s)) acc.1 ->
  positive (strength s) ->
  Forall (fun s => positive (strength s)) (fire acc s).1.
Proof.
  intros Hall Hs. unfold fire. cbn [fst].
  apply Forall_app. split; [exact Hall | repeat constructor; exact Hs].
Qed.

Lemma detectSignals_firm (Math_sqrt : number -> number)
    (candles : list Candle) (lastCandle : Candle)
    (acc : list Signal * number) :
  detectSignals Math_sqrt candles lastCandle = Some acc ->
  Forall (fun s => positive (strength s)) acc.1.
Proof.
  unfold detectSignals. cbv zeta.
  set (li := (len candles - 1)%Z).
  set (a0 := ([], n0) : list Signal * number).
  assert (Forall (fun s => positive (strength s)) a0.1) as H0
    by constructor.
  set (a1 := rsiSignal _ li a0).
  assert (Forall (fun s => positive (strength s)) a1.1) as H1.
  { subst a1. unfold rsiSignal. destruct (gt _ c70) eqn:E; [|exact H0].
    apply firm_fire; [exact H0|]. apply rsi_strength_positive, E. }
  set (a2 := bollingerSignal _ lastCandle li a1).
  assert (Forall (fun s => positive (strength s)) a2.1) as H2.
  { subst a2. unfold bollingerSignal. cbv zeta.
    destruct (gt _ c0_8) eqn:E; [|exact H1].
    apply firm_fire; [exact H1|]. apply bollinger_strength_positive, E. }
  set (a3 := macdSignal _ li a2).
  assert (Forall (fun s => positive (strength s)) a3.1) as H3.
  { subst a3. unfold macdSignal.
    match goal with |- context [if ?b then _ else _] => destruct b end;
      [|exact H2].
    apply firm_fire; [exact H2|]. apply (constant_strength_positive 90).
    lia. }
  set (a4 := deathCrossSignal _ li a3).
  assert (Forall (fun s => positive (strength s)) a4.1) as H4.
  { subst a4. unfold deathCrossSignal.
    match goal with |- context [if ?b then _ else _] => destruct b end;
      [|exact H3].
    apply firm_fire; [exact H3|]. apply (constant_strength_positive 85).
    lia. }
  intros H.
  destruct (supportBreakSignal _ candles lastCandle li a4) as [a5|] eqn:E5;
    cbn [mbind option_bind] in H; [|discriminate].
  assert (Forall (fun s => positive (strength s)) a5.1) as H5.
  { unfold supportBreakSignal in E5.
    destruct (lt (close lastCandle) _).
    - destruct (candleAt candles (li - 1)) as [prev|];
        cbn [mbind option_bind] in E5; [|discriminate].
      injection E5 as <-. destruct (gt (close prev) _); [|exact H4].
      apply firm_fire; [exact H4|]. apply (constant_strength_positive 80).
      lia.
    - injection E5 as <-. exact H4. }
  unfold volumeSignal in H.
  destruct (candleAt candles (li - 1)) as [prev|];
    cbn [mbind option_bind] in H; [|discriminate].
  injection H as <-.
  match goal with |- context [if ?b then fire _ _ else _] => destruct b end;
    [|exact H5].
  apply firm_fire; [exact H5|]. apply (constant_strength_positive 75). lia.
Qed.

Lemma sum_positive_from (xs : list number) (x0 : number) :
  positive x0 -> Forall positive xs -> positive (fold_left add xs x0).
Proof.
  revert x0. induction xs as [|x xs IH]; intros x0 H0 Hxs; [exact H0|].
  apply Forall_cons in Hxs as [Hx Hxs]. cbn [fold_left].
  apply IH; [|exact Hxs].
  destruct H0 as (q0 & -> & Hq0). destruct Hx as (q & -> & Hq).
  exists (q0 + q). split; [reflexivity|].
  apply Qcplus_pos_nonneg; [exact Hq0 | apply Qclt_le_weak, Hq].
Qed.

Lemma sum_positive (xs : list number) :
  xs <> [] -> Forall positive xs -> positive (sum xs).
Proof.
  destruct xs as [|x xs]; [congruence|]. intros _ Hxs.
  apply Forall_cons in Hxs as [Hx Hxs]. unfold sum. cbn [fold_left].
  apply sum_positive_from; [|exact Hxs].
  destruct Hx as (q & -> & Hq). exists (0 + q). split.
  - cbn [add]. rewrite zeroQc_0. reflexivity.
  - rewrite Qcplus_0_l. exact Hq.
Qed.

(** With a signal fired, each above zero, the probability is above
    zero. *)
Lemma scoreSignals_positive (sigs : list Signal) :
  sigs <> [] -> Forall (fun s => positive (strength s)) sigs ->
  positive (scoreSignals sigs (sum (map strength sigs))).1.
Proof.
  intros Hne Hall.
  assert (positive (sum (map strength sigs))) as (x & Hw & Hx).
  { apply sum_positive; [destruct sigs; [congruence | discriminate]|].
    apply Forall_fmap in Hall. exact Hall. }
  rewrite Hw. unfold scoreSignals.
  assert (0 < len sigs)%Z as E0.
  { destruct sigs; [congruence|]. unfold len. cbn [length]. lia. }
  destruct (0 <? len sigs)%Z eqn:E; [|apply Z.ltb_ge in E; lia].
  rewrite weight_over_count by exact E0.
  assert (positive (Math_min n100 (div (Fin x) (ofZ (len sigs))))) as Hp.
  { apply min100_positive. left. unfold ofZ. cbn [div].
    rewrite (Qc_eqb_pos _ (Qc_of_pos _ E0)). eexists.
    split; [reflexivity|].
    unfold Qcdiv. apply Qcmult_pos; [exact Hx|].
    apply Qcinv_pos, Qc_of_pos, E0. }
  destruct (2 <=? len sigs)%Z; cbn [fst]; [|exact Hp].
  apply min100_positive. left.
  destruct Hp as (q & -> & Hq). unfold c1_2, ofQ. cbn [mul].
  eexists. split; [reflexivity|].
  apply Qcmult_pos; [exact Hq | reflexivity].
Qed.

End PositiveScore.

(** X12.  The probability of an analysis is zero exactly when no check
    fired; with a signal it is a finite number above zero. *)
Theorem probability_zero_iff_no_signal
    (Math_sqrt : JS.number -> JS.number) (now : JS.number) (symbol : string)
    (candles : list Candle) (r : AnalysisResult) :
  Analyzer.analyzeSymbol Math_sqrt now symbol candles = Some r ->
  (r_probability r = JS.ofZ 0 <-> r_signals r = [])
  /\ (r_signals r <> [] -> positive (r_probability r)).
Proof.
  intros H.
  destruct (analyzeSymbol_signals Math_sqrt now symbol candles r H)
    as (lastCandle & w & Hd & Hp).
  pose proof (detectSignals_firm _ _ _ _ Hd) as Hfirm.
  pose proof (tally_detectSignals _ _ _ _ Hd) as [Hsum _].
  cbn [fst snd] in Hfirm, Hsum. subst w.
  assert (r_signals r <> [] -> positive (r_probability r)) as Hpos.
  { intros Hne. rewrite Hp. apply scoreSignals_positive; assumption. }
  split; [|exact Hpos]. split.
  - intros Hzero. destruct (r_signals r) as [|s l] eqn:E; [reflexivity|].
    exfalso. apply (positive_not_zero (r_probability r)); [|exact Hzero].
    apply Hpos. discriminate.
  - intros Hnil. rewrite Hp, Hnil. reflexivity.
Qed.

Lemma probability_zero_iff_no_signal_witness :
  (r_probability
     (default (Sample.calm "UPUSDT")
        (Analyzer.analyzeSymbol Sample.sqrtFloor (JS.ofZ 0) "UPUSDT"
                                Sample.risingCandles)) = JS.ofZ 0
   <-> r_signals
         (default (Sample.calm "UPUSDT")
            (Analyzer.analyzeSymbol Sample.sqrtFloor (JS.ofZ 0) "UPUSDT"
                                    Sample.risingCandles)) = [])
  /\ (r_signals
        (default (Sample.calm "UPUSDT")
           (Analyzer.analyzeSymbol Sample.sqrtFloor (JS.ofZ 0) "UPUSDT"
                                   Sample.risingCandles)) <> [] ->
      positive
        (r_probability
           (default (Sample.calm "UPUSDT")
              (Analyzer.analyzeSymbol Sample.sqrtFloor (JS.ofZ 0) "UPUSDT"
                                      Sample.risingCandles)))).
Proof.
  apply (probability_zero_iff_no_signal Sample.sqrtFloor (JS.ofZ 0) "UPUSDT"
           Sample.risingCandles).
  vm_compute. reflexivity.
Defined.


(** X14.  [calculateRSI] returns the empty array on fewer than
    [period + 1] candles, and otherwise one entry per candle, the first
    [period] of them [null]. *)
Theorem calculateRSI_length (candles : list Candle) (period : Z) :
  0 <= period ->
  (JS.len candles < period + 1 -> Technical.calculateRSI candles period = [])
  /\ (period + 1 <= JS.len candles ->
      JS.len (Technical.calculateRSI candles period) = JS.len candles
      /\ take (Z.to_nat period) (Technical.calculateRSI candles period)
         = JS.fill period None
      /\ forall i, period <= i < JS.len candles ->
                   exists x, Technical.calculateRSI candles period
                               !! Z.to_nat i = Some (Some x)).
Proof.
  intros Hp. unfold Technical.calculateRSI. split.
  - intros Hlen. apply Z.ltb_lt in Hlen. rewrite Hlen. reflexivity.
  - intros Hlen. destruct (JS.len candles <? period + 1) eqn:E;
      [apply Z.ltb_lt in E; lia|].
    destruct (fold_left _ (seqZ 1 period) _) as [gains losses].
    pose proof (rsi_loop_length (map close candles) period
                  (seqZ (period + 1)
                        (JS.len (map close candles) - (period + 1)))
                  (gains, losses, [Technical.rsiPoint gains losses]))
      as Hloop.
    destruct (fold_left _ _ (gains, losses, _)) as [[g l] rsi].
    cbn [snd] in Hloop.
    rewrite len_map in Hloop. rewrite len_seqZ in Hloop by lia.
    unfold JS.len at 2 in Hloop. cbn [length] in Hloop.
    assert (JS.len rsi = JS.len candles - period) as Hrsi by lia.
    split; [|split].
    + rewrite len_app, len_fill, len_map by lia. lia.
    + unfold JS.fill. rewrite take_app_length'; [reflexivity|].
      rewrite length_replicate. reflexivity.
    + intros i Hi. unfold JS.fill.
      rewrite lookup_app_r by (rewrite length_replicate; lia).
      rewrite length_replicate, lookup_map.
      destruct (rsi !! (Z.to_nat i - Z.to_nat period)%nat) as [x|] eqn:Hx;
        [exists x; reflexivity|].
      apply lookup_ge_None in Hx. unfold JS.len in *. lia.
Qed.

Lemma calculateRSI_length_witness :
  (JS.len Sample.risingCandles < 14 + 1 ->
   Technical.calculateRSI Sample.risingCandles 14 = [])
  /\ (14 + 1 <= JS.len Sample.risingCandles ->
      JS.len (Technical.calculateRSI Sample.risingCandles 14)
      = JS.len Sample.risingCandles
      /\ take (Z.to_nat 14) (Technical.calculateRSI Sample.risingCandles 14)
         = JS.fill 14 None
      /\ forall i, 14 <= i < JS.len Sample.risingCandles ->
                   exists x, Technical.calculateRSI Sample.risingCandles 14
                               !! Z.to_nat i = Some (Some x)).
Proof.
  apply (calculateRSI_length Sample.risingCandles 14). lia.
Defined.

(** X15.  [calculateEMA] returns one entry per data point only when there
    are at least [period] of them: on shorter data it returns [period]
    entries, all NaN. *)
Theorem calculateEMA_length (data : list JS.number) (period : Z) :
  1 <= period ->
  JS.len (Technical.calculateEMA data period) = Z.max (JS.len data) period
  /\ take (Z.to_nat (period - 1)) (Technical.calculateEMA data period)
     = JS.fill (period - 1) JS.NaN
  /\ (JS.len data < period ->
      Technical.calculateEMA data period = JS.fill period JS.NaN).
Proof.
  intros Hp. split; [apply len_calculateEMA, Hp|]. split.
  - unfold Technical.calculateEMA. cbv zeta. unfold JS.fill.
    rewrite take_app_length'; [reflexivity|].
    rewrite length_replicate. reflexivity.
  - intros Hlen. unfold Technical.calculateEMA. cbv zeta.
    pose proof (len_nonneg data).
    rewrite (seqZ_split period (JS.len data)) by lia.
    rewrite (add_loop_meets_NaN (fun i => JS.at_ data i))
      by (apply at_past_end; lia).
    rewrite div_NaN_l.
    replace (seqZ period (JS.len data - period)) with (@nil Z).
    2:{ symmetry. apply length_zero_iff_nil. rewrite length_seqZ. lia. }
    cbn [fold_left]. unfold JS.fill.
    replace (Z.to_nat period) with (Z.to_nat (period - 1) + 1)%nat by lia.
    rewrite replicate_add. reflexivity.
Qed.

Lemma calculateEMA_length_witness :
  JS.len (Technical.calculateEMA [JS.ofZ 1; JS.ofZ 2] 3)
  = Z.max (JS.len [JS.ofZ 1; JS.ofZ 2]) 3
  /\ take (Z.to_nat (3 - 1)) (Technical.calculateEMA [JS.ofZ 1; JS.ofZ 2] 3)
     = JS.fill (3 - 1) JS.NaN
  /\ (JS.len [JS.ofZ 1; JS.ofZ 2] < 3 ->
      Technical.calculateEMA [JS.ofZ 1; JS.ofZ 2] 3 = JS.fill 3 JS.NaN).
Proof.
  apply (calculateEMA_length [JS.ofZ 1; JS.ofZ 2] 3). lia.
Defined.

(** ** src/utils/helpers.ts *)

Section Retry.
Import JS Helpers.
Context {T E : Type}.

Lemma calls_app (l k : list (Event E)) : calls (l ++ k) = calls l + calls k.
Proof. unfold calls. rewrite List.filter_app. apply len_app. Qed.

Lemma delays_app (l k : list (Event E)) :
  delays (l ++ k) = delays l + delays k.
Proof. unfold delays. rewrite List.filter_app. apply len_app. Qed.

(** The loop when every call left fails. *)
Lemma retryFrom_all_fail (fn : nat -> T + E) (retries delayMs : Z)
    (n : nat) (i : Z) (lastError : option E) :
  0 <= i -> i + Z.of_nat n = retries ->
  (forall j, i <= j < retries -> exists e, fn (Z.to_nat j) = inr e) ->
  exists events,
    retryFrom fn retries delayMs n i lastError
    = (Threw (match n with
              | O => lastError
              | S _ => match fn (Z.to_nat (retries - 1)) with
                       | inr e => Some e
                       | inl _ => None
                       end
              end), events)
    /\ calls events = Z.of_nat n
    /\ delays events = Z.max 0 (Z.of_nat n - 1)
    /\ Forall (fun e => isDelay e = true -> e = Delayed delayMs) events.
Proof.
  revert i lastError. induction n as [|n IH]; intros i lastError Hi Hn Hfail.
  - exists []. cbn. auto.
  - cbn [retryFrom]. destruct (Hfail i) as [e He]; [lia|]. rewrite He.
    destruct (IH (i + 1) (Some e)) as (events & Hrun & Hcalls & Hdelays & Hms);
      [lia | lia | intros j Hj; apply Hfail; lia|].
    rewrite Hrun. eexists. split; [|split; [|split]].
    + f_equal. destruct n as [|n'].
      * replace (retries - 1) with i by lia. rewrite He. reflexivity.
      * reflexivity.
    + rewrite !calls_app, Hcalls.
      destruct (i <? retries - 1); unfold calls; cbn; unfold len; cbn; lia.
    + rewrite !delays_app, Hdelays.
      destruct (i <? retries - 1) eqn:Ei;
        [apply Z.ltb_lt in Ei | apply Z.ltb_ge in Ei];
        unfold delays; cbn; unfold len; cbn; lia.
    + repeat (apply Forall_cons; split; [discriminate|]).
      apply Forall_app. split; [|exact Hms].
      destruct (i <? retries - 1); repeat constructor.
Qed.

(** The loop when the call of round [k] is the first to succeed. *)
Lemma retryFrom_first_success (fn : nat -> T + E) (retries delayMs : Z)
    (n : nat) (i k : Z) (value : T) (lastError : option E) :
  0 <= i <= k -> k < i + Z.of_nat n -> i + Z.of_nat n <= retries ->
  fn (Z.to_nat k) = inl value ->
  (forall j, i <= j < k -> exists e, fn (Z.to_nat j) = inr e) ->
  exists events,
    retryFrom fn retries delayMs n i lastError = (Returned value, events)
    /\ calls events = k - i + 1
    /\ delays events = k - i
    /\ Forall (fun e => isDelay e = true -> e = Delayed delayMs) events.
Proof.
  revert i lastError. induction n as [|n IH];
    intros i lastError Hi Hk Hn Hval Hfail; [lia|].
  cbn [retryFrom]. destruct (Z.eq_dec i k) as [-> | Hne].
  - rewrite Hval. eexists. split; [reflexivity|].
    unfold calls, delays. cbn. unfold len. cbn.
    repeat split; try lia. repeat constructor. discriminate.
  - destruct (Hfail i) as [e He]; [lia|]. rewrite He.
    destruct (IH (i + 1) (Some e)) as (events & Hrun & Hcalls & Hdelays & Hms);
      [lia | lia | lia | exact Hval | intros j Hj; apply Hfail; lia|].
    rewrite Hrun. eexists. split; [reflexivity|]. split; [|split].
    + rewrite !calls_app, Hcalls.
      destruct (i <? retries - 1); unfold calls; cbn; unfold len; cbn; lia.
    + rewrite !delays_app, Hdelays.
      destruct (i <? retries - 1) eqn:Ei;
        [apply Z.ltb_lt in Ei | apply Z.ltb_ge in Ei];
        unfold delays; cbn; unfold len; cbn; lia.
    + repeat (apply Forall_cons; split; [discriminate|]).
      apply Forall_app. split; [|exact Hms].
      destruct (i <? retries - 1); repeat constructor.
Qed.

End Retry.

(** X16.  When the call of round [k] (counted from 0, below [retries]) is
    the first that does not throw, [withRetry] returns its value after
    [k + 1] calls, having waited [delayMs] after each of the [k]
    failures. *)
Theorem withRetry_returns_first_success {T E : Type}
    (fn : nat -> T + E) (retries delayMs : Z) (k : nat) (value : T) :
  Z.of_nat k < retries ->
  fn k = inl value ->
  (forall j, (j < k)%nat -> exists e, fn j = inr e) ->
  exists events,
    Helpers.withRetry fn retries delayMs = (Helpers.Returned value, events)
    /\ Helpers.calls events = Z.of_nat k + 1
    /\ Helpers.delays events = Z.of_nat k
    /\ Forall (fun e => Helpers.isDelay e = true ->
                        e = Helpers.Delayed delayMs) events.
Proof.
  intros Hk Hval Hfail. unfold Helpers.withRetry.
  destruct (retryFrom_first_success fn retries delayMs (Z.to_nat retries) 0
              (Z.of_nat k) value None) as (events & Hrun & Hc & Hd & Hms);
    [lia | lia | lia | rewrite Nat2Z.id; exact Hval | |].
  - intros j Hj. apply Hfail. lia.
  - exists events. rewrite Hrun, Hc, Hd.
    repeat split; try lia. exact Hms.
Qed.

Lemma withRetry_returns_first_success_witness :
  exists events,
    Helpers.withRetry
      (fun k => if (k <? 2)%nat then inr "timeout" else inl 7) 3 1000
    = (Helpers.Returned 7, events)
    /\ Helpers.calls events = Z.of_nat 2 + 1
    /\ Helpers.delays events = Z.of_nat 2
    /\ Forall (fun e => Helpers.isDelay e = true ->
                        e = Helpers.Delayed 1000) events.
Proof.
  apply (withRetry_returns_first_success
           (fun k => if (k <? 2)%nat then inr "timeout" else inl 7)
           3 1000 2 7).
  - lia.
  - reflexivity.
  - intros [|[|j]] Hj; [eexists; reflexivity | eexists; reflexivity | lia].
Defined.

(** X17.  When each of the first [retries] calls throws, [withRetry]
    throws what the last of them threw, after exactly [retries] calls and
    [retries - 1] waits: it does not wait after the last failure.  With
    [retries] at or below 0 it calls nothing and throws [undefined]. *)
Theorem withRetry_gives_up {T E : Type}
    (fn : nat -> T + E) (retries delayMs : Z) :
  (forall j, Z.of_nat j < retries -> exists e, fn j = inr e) ->
  exists events,
    Helpers.withRetry fn retries delayMs
    = (Helpers.Threw
         (if 0 <? retries
          then match fn (Z.to_nat (retries - 1)) with
               | inr e => Some e
               | inl _ => None
               end
          else None), events)
    /\ Helpers.calls events = Z.max 0 retries
    /\ Helpers.delays events = Z.max 0 (retries - 1)
    /\ (0 < retries ->
        exists e, fn (Z.to_nat (retries - 1)) = inr e).
Proof.
  intros Hfail. unfold Helpers.withRetry.
  destruct (0 <? retries) eqn:E0;
    [apply Z.ltb_lt in E0 | apply Z.ltb_ge in E0].
  - destruct (retryFrom_all_fail fn retries delayMs (Z.to_nat retries) 0 None)
      as (events & Hrun & Hc & Hd & _); [lia | lia | |].
    { intros j Hj. apply Hfail. lia. }
    exists events. rewrite Hrun, Hc, Hd.
    destruct (Z.to_nat retries) eqn:En; [lia|].
    repeat split; try lia. intros _. apply Hfail. lia.
  - replace (Z.to_nat retries) with 0%nat by lia. exists [].
    unfold Helpers.calls, Helpers.delays, JS.len. cbn.
    repeat split; lia.
Qed.

Lemma withRetry_gives_up_witness :
  exists events,
    Helpers.withRetry (fun k => @inr nat nat k) 3 1000
    = (Helpers.Threw
         (if 0 <? 3
          then match @inr nat nat (Z.to_nat (3 - 1)) with
               | inr e => Some e
               | inl _ => None
               end
          else None), events)
    /\ Helpers.calls events = Z.max 0 3
    /\ Helpers.delays events = Z.max 0 (3 - 1)
    /\ (0 < 3 -> exists e, @inr nat nat (Z.to_nat (3 - 1)) = inr e).
Proof.
  apply (withRetry_gives_up (fun k => @inr nat nat k) 3 1000).
  intros j _. eexists. reflexivity.
Defined.


(** ** The saved state and the clean-up *)

Section SavedState.
Import JS Monitor Storage.

Lemma orElse_json (x d : number) :
  isFinite x && truthy x = true -> orElse (jsonNumber x) d = x.
Proof.
  intros H. apply andb_prop in H as [Hf Ht].
  unfold jsonNumber, orElse. rewrite Hf, Ht. reflexivity.
Qed.

(** Restoring a saved entry puts the entry back under its symbol. *)
Lemma restoreItem_saved (now : number) (acc : gmap string TrackedSymbol)
    (t : TrackedSymbol) :
  persistable t = true ->
  restoreItem now acc (savedItem t) = <[symbol t := t]> acc.
Proof.
  unfold persistable. intros H.
  apply andb_prop in H as [H _]. apply andb_prop in H as [H Htime].
  apply andb_prop in H as [H Hhigh]. apply andb_prop in H as [Hsym Hlast].
  unfold restoreItem, savedItem.
  cbn [h_symbol h_lastPrice h_highestPrice h_timestamp h_signals h_downtrend
       h_downtrendConfirmed h_downtrendNotified].
  apply andb_prop in Hlast as [Hf Ht].
  unfold jsonNumber at 1. rewrite Hf, Hsym, Ht. cbn [andb].
  rewrite (orElse_json _ _ Hhigh), (orElse_json _ _ Htime).
  destruct t; reflexivity.
Qed.

Lemma restore_loop_other (now : number) (l : list (string * TrackedSymbol))
    (acc : gmap string TrackedSymbol) (s : string) :
  Forall (fun e => symbol e.2 = e.1 /\ persistable e.2 = true) l ->
  s ∉ l.*1 ->
  fold_left (restoreItem now) (map savedItem l.*2) acc !! s = acc !! s.
Proof.
  revert acc. induction l as [|[k t] l IH]; intros acc Hl Hs; [reflexivity|].
  apply Forall_cons in Hl as [[Hk Hp] Hl]. cbn [fst snd] in Hk, Hp.
  rewrite !fmap_cons in *. cbn [fst snd map fold_left] in *.
  apply not_elem_of_cons in Hs as [Hsk Hs].
  rewrite IH by assumption.
  rewrite restoreItem_saved by exact Hp.
  rewrite Hk. apply lookup_insert_ne. auto.
Qed.

Lemma restore_loop_visited (now : number) (l : list (string * TrackedSymbol))
    (acc : gmap string TrackedSymbol) (s : string) (t : TrackedSymbol) :
  Forall (fun e => symbol e.2 = e.1 /\ persistable e.2 = true) l ->
  NoDup l.*1 -> (s, t) ∈ l ->
  fold_left (restoreItem now) (map savedItem l.*2) acc !! s = Some t.
Proof.
  revert acc. induction l as [|[k v] l IH]; intros acc Hl Hnd Hin.
  - inversion Hin.
  - apply Forall_cons in Hl as [[Hk Hp] Hl]. cbn [fst snd] in Hk, Hp.
    rewrite !fmap_cons in *. cbn [fst snd map fold_left] in *.
    apply NoDup_cons in Hnd as [Hnk Hnd].
    rewrite restoreItem_saved by exact Hp. rewrite Hk.
    apply elem_of_cons in Hin as [Heq | Hin].
    + inversion Heq; subst k v.
      rewrite restore_loop_other by assumption. apply lookup_insert_eq.
    + apply IH; assumption.
Qed.

(** Reading back what was saved of a map gives the map again, on top of
    any part of it. *)
Lemma restore_saved_map (now : number) (pre m' : gmap string TrackedSymbol) :
  keyed pre ->
  Forall (fun t => persistable t = true) (map_to_list pre).*2 ->
  m' ⊆ pre ->
  fold_left (restoreItem now) (map savedItem (map_to_list pre).*2) m' = pre.
Proof.
  intros Hkeyed Hpers Hsub.
  assert (Forall (fun e => symbol e.2 = e.1 /\ persistable e.2 = true)
                 (map_to_list pre)) as Hl.
  { apply Forall_forall. intros [k t] Hin. cbn [fst snd]. split.
    - apply elem_of_map_to_list in Hin. exact (Hkeyed k t Hin).
    - rewrite Forall_forall in Hpers. apply Hpers.
      apply list_elem_of_fmap. exists (k, t). auto. }
  apply map_eq. intros s. destruct (pre !! s) as [t|] eqn:Hs.
  - apply restore_loop_visited; [exact Hl | apply NoDup_fst_map_to_list|].
    apply elem_of_map_to_list. exact Hs.
  - rewrite restore_loop_other; [|exact Hl|].
    + destruct (m' !! s) as [t|] eqn:Hm; [|reflexivity].
      rewrite map_subseteq_spec in Hsub. rewrite (Hsub s t Hm) in Hs.
      discriminate.
    + intros Hin. apply list_elem_of_fmap in Hin as ([k v] & -> & Hin).
      apply elem_of_map_to_list in Hin. cbn in Hs. congruence.
Qed.

Lemma cleanup_subseteq (now : number) (m : gmap string TrackedSymbol) :
  (cleanup now m).1 ⊆ m.
Proof.
  apply map_subseteq_spec. intros k v. rewrite cleanup_lookup.
  destruct (m !! k) as [t|]; [|discriminate].
  destruct (inactive now t); [discriminate | auto].
Qed.

End SavedState.

(** X19.  The clean-up does not outlast the run: the state is saved before
    the inactive symbols are deleted, so a next run that reads the file
    back starts with every saved entry in place, the deleted ones
    included, and with as many entries as this run tracked before its
    clean-up. *)
Theorem reload_undoes_cleanup
    (Math_sqrt : JS.number -> JS.number)
    (fetchCandles : string -> string -> Z -> Analyzer.Fetched)
    (interval : string) (now cleanupNow nextNow : JS.number)
    (historicalData : list Monitor.HistoryItem)
    (gainersList : list GainerInfo) (m : gmap string TrackedSymbol) :
  keyed m ->
  Forall (fun t => Storage.persistable t = true)
    (Monitor.trackingData
       (Monitor.startMonitoring Math_sqrt fetchCandles interval now
          cleanupNow historicalData gainersList m)) ->
  (forall t,
     t ∈ Monitor.trackingData
           (Monitor.startMonitoring Math_sqrt fetchCandles interval now
              cleanupNow historicalData gainersList m) ->
     Storage.reload nextNow
       (Monitor.startMonitoring Math_sqrt fetchCandles interval now
          cleanupNow historicalData gainersList m) !! symbol t = Some t)
  /\ Z.of_nat
       (size (Storage.reload nextNow
                (Monitor.startMonitoring Math_sqrt fetchCandles interval now
                   cleanupNow historicalData gainersList m)))
     = Z.of_nat
         (size (Monitor.tracked
                  (Monitor.startMonitoring Math_sqrt fetchCandles interval
                     now cleanupNow historicalData gainersList m)))
       + Monitor.cleanedCount
           (Monitor.startMonitoring Math_sqrt fetchCandles interval now
              cleanupNow historicalData gainersList m).
Proof.
  intros Hm. unfold Storage.reload, Monitor.startMonitoring.
  assert (keyed (fold_left (Monitor.restoreItem now) historicalData m))
    as H0.
  { apply fold_left_invariant; [apply restoreItem_keyed | exact Hm]. }
  set (m0 := fold_left (Monitor.restoreItem now) historicalData m) in *.
  unfold Monitor.monitoringCycle.
  assert (keyed (fold_left (Monitor.trackGainer now) gainersList m0)) as H1.
  { apply fold_left_invariant; [apply trackGainer_keyed | exact H0]. }
  destruct (Analyzer.analyzeSymbols _ _ _ _ _) as [results warns].
  assert (keyed (fold_left Monitor.processResult results
                   (fold_left (Monitor.trackGainer now) gainersList m0,
                    [], [])).1.1) as H2.
  { apply (fold_left_invariant (fun acc => keyed acc.1.1));
      [apply processResult_keyed | exact H1]. }
  destruct (fold_left Monitor.processResult results _)
    as [[pre weak] confirmed].
  cbn [fst] in H2.
  pose proof (cleanup_subseteq cleanupNow pre) as Hsub.
  pose proof (cleanup_count cleanupNow pre) as Hcount.
  destruct (Monitor.cleanup cleanupNow pre) as [m3 n].
  cbn [fst snd Monitor.tracked Monitor.trackingData Monitor.cleanedCount]
    in *.
  intros Hpers.
  rewrite (restore_saved_map nextNow pre m3 H2 Hpers Hsub).
  split; [|lia].
  intros t Hin. apply list_elem_of_fmap in Hin as ([k v] & -> & Hin).
  apply elem_of_map_to_list in Hin. cbn [snd].
  rewrite (H2 k v Hin). exact Hin.
Qed.

Lemma reload_undoes_cleanup_witness :
  (forall t,
     t ∈ Monitor.trackingData SampleOld.run ->
     Storage.reload SampleOld.eightDays SampleOld.run !! symbol t = Some t)
  /\ Z.of_nat (size (Storage.reload SampleOld.eightDays SampleOld.run))
     = Z.of_nat (size (Monitor.tracked SampleOld.run))
       + Monitor.cleanedCount SampleOld.run.
Proof.
  apply (reload_undoes_cleanup Sample.sqrtFloor Sample.fetch "1h"
           SampleOld.eightDays SampleOld.eightDays SampleOld.eightDays
           [] [] {[ "OLDUSDT" := SampleOld.old ]}).
  - apply map_Forall_singleton. reflexivity.
  - vm_compute. repeat constructor.
Defined.

(** ** src/backtesting/backtest.ts *)

Section EvaluateResult.
Import JS Analyzer Backtesting.
Local Open Scope Qc_scope.

Lemma isNaN_Math_min (a b : number) :
  isNaN (Math_min a b) = isNaN a || isNaN b.
Proof.
  unfold Math_min. destruct a, b; cbn [isNaN orb]; try reflexivity;
    match goal with |- context [if ?c then _ else _] => destruct c end;
    reflexivity.
Qed.

Lemma Qc_leb_min (x y z : Qc) :
  Qc_leb (if Qc_ltb y x then y else x) z = Qc_leb x z || Qc_leb y z.
Proof.
  destruct (Qc_ltb y x) eqn:Hyx.
  - apply Qc_ltb_lt in Hyx.
    destruct (Qc_leb x z) eqn:Hxz; [|reflexivity].
    apply Qc_leb_le in Hxz. cbn [orb]. apply Qc_leb_le.
    apply Qclt_le_weak. eapply Qclt_le_trans; eassumption.
  - apply Qc_ltb_nlt in Hyx.
    destruct (Qc_leb y z) eqn:Hyz; [|rewrite orb_false_r; reflexivity].
    apply Qc_leb_le in Hyz. rewrite orb_true_r. apply Qc_leb_le.
    eapply Qcle_trans; eassumption.
Qed.

(** The smaller of two numbers is at or below a bound exactly when one of
    them is. *)
Lemma le_Math_min (a b t : number) :
  isNaN a = false -> isNaN b = false ->
  le (Math_min a b) t = le a t || le b t.
Proof.
  intros Ha Hb. destruct a as [x| | |], b as [y| | |]; try discriminate;
    unfold Math_min, lt.
  - destruct t as [z| | |]; unfold le.
    + destruct (Qc_ltb y x) eqn:E; [|rewrite <- Qc_leb_min, E; reflexivity].
      rewrite <- Qc_leb_min, E. reflexivity.
    + destruct (Qc_ltb y x); reflexivity.
    + destruct (Qc_ltb y x); reflexivity.
    + destruct (Qc_ltb y x); reflexivity.
  - destruct t; unfold le; rewrite ?orb_false_r, ?orb_true_r; reflexivity.
  - destruct t; unfold le; rewrite ?orb_false_r, ?orb_true_r; reflexivity.
  - destruct t; unfold le; rewrite ?orb_false_r, ?orb_true_r; reflexivity.
  - destruct t; unfold le; reflexivity.
  - destruct t; unfold le; reflexivity.
  - destruct t; unfold le; reflexivity.
  - destruct t; unfold le; reflexivity.
  - destruct t; unfold le; reflexivity.
Qed.

Lemma Math_min_NaN (a b : number) :
  isNaN a || isNaN b = true -> Math_min a b = NaN.
Proof.
  intros H. pose proof (isNaN_Math_min a b) as Hm. rewrite H in Hm.
  destruct (Math_min a b); try discriminate. reflexivity.
Qed.

Lemma le_Math_min3 (a b c t : number) :
  le (Math_min3 a b c) t
  = negb (isNaN a || isNaN b || isNaN c) && (le a t || le b t || le c t).
Proof.
  unfold Math_min3.
  destruct (isNaN a || isNaN b) eqn:Hab.
  - rewrite (Math_min_NaN a b Hab). reflexivity.
  - destruct (isNaN c) eqn:Hc.
    + rewrite (Math_min_NaN _ c); [reflexivity|].
      rewrite Hc. apply orb_true_r.
    + apply orb_false_elim in Hab as [Ha Hb].
      rewrite le_Math_min; [|rewrite isNaN_Math_min, Ha, Hb; reflexivity
                            |exact Hc].
      rewrite le_Math_min by assumption. reflexivity.
Qed.

Lemma Qc_of_le (a b : Z) :
  (a <= b)%Z -> Q2Qc (inject_Z a) <= Q2Qc (inject_Z b).
Proof.
  intros H. unfold Qcle. cbn [this Q2Qc].
  rewrite (Qred_correct (inject_Z a)), (Qred_correct (inject_Z b)).
  unfold Qle. cbn. lia.
Qed.

(** A count out of a positive total, times 100, is a percentage. *)
Lemma share_percentage (c n : Z) :
  (0 <= c <= n)%Z -> (0 < n)%Z ->
  percentage (mul (div (ofZ c) (ofZ n)) (ofZ 100)).
Proof.
  intros [H0 Hc] Hn. pose proof (Qc_of_pos n Hn) as Hqn.
  unfold ofZ. cbn [div]. rewrite (Qc_eqb_pos _ Hqn). cbn [mul].
  eexists. split; [reflexivity|].
  assert (0 <= Q2Qc (inject_Z c) / Q2Qc (inject_Z n)) as Hlow.
  { apply Qcdiv_nonneg; [apply Qc_of_nonneg, H0 | exact Hqn]. }
  assert (Q2Qc (inject_Z c) / Q2Qc (inject_Z n) <= 1) as Hhigh.
  { rewrite <- (Qcmult_inv_r (Q2Qc (inject_Z n)))
      by (apply Qc_pos_neq, Hqn).
    unfold Qcdiv. apply Qcmult_le_compat_r; [apply Qc_of_le, Hc|].
    apply Qclt_le_weak, Qcinv_pos, Hqn. }
  split.
  - apply Qcmult_nonneg; [exact Hlow | apply Qc_of_nonneg; lia].
  - rewrite <- (Qcmult_1_l (Q2Qc (inject_Z 100))) at 2.
    apply Qcmult_le_compat_r; [exact Hhigh | apply Qc_of_nonneg; lia].
Qed.

Lemma filter_length_le {A} (f : A -> bool) (l : list A) :
  (0 <= len (List.filter f l) <= len l)%Z.
Proof.
  unfold len. pose proof (List.filter_length_le f l). lia.
Qed.

End EvaluateResult.

(** X20.  [evaluateResult] calls a prediction successful exactly when none
    of the three price changes is NaN and at least one of them is at or
    below the threshold. *)
Theorem evaluateResult_successful_iff
    (fetchCandles : string -> string -> Z -> Analyzer.Fetched)
    (result : AnalysisResult) (config : Backtesting.BacktestConfig) :
  let b := Backtesting.evaluateResult fetchCandles result config in
  let changes := Backtesting.b_changes b in
  let threshold := Backtesting.successThreshold config in
  Backtesting.b_successful b
  = negb (JS.isNaN (Backtesting.priceChange1d changes)
          || JS.isNaN (Backtesting.priceChange3d changes)
          || JS.isNaN (Backtesting.priceChange7d changes))
    && (JS.le (Backtesting.priceChange1d changes) threshold
        || JS.le (Backtesting.priceChange3d changes) threshold
        || JS.le (Backtesting.priceChange7d changes) threshold).
Proof.
  cbv zeta. unfold Backtesting.evaluateResult.
  cbn [Backtesting.b_successful Backtesting.b_changes].
  apply le_Math_min3.
Qed.

(** X21.  When the daily candles of a symbol cannot be fetched, or at most
    one comes back, the three price changes are 0: the prediction counts
    as failed for every threshold below 0, and as successful
    otherwise. *)
Theorem evaluateResult_without_future
    (fetchCandles : string -> string -> Z -> Analyzer.Fetched)
    (result : AnalysisResult) (config : Backtesting.BacktestConfig) :
  (fetchCandles (r_symbol result) "1d" 10 = Analyzer.FetchThrows
   \/ exists candles,
        fetchCandles (r_symbol result) "1d" 10 = Analyzer.Candles candles
        /\ JS.len candles <= 1) ->
  Backtesting.b_changes
    (Backtesting.evaluateResult fetchCandles result config)
  = Backtesting.noChanges
  /\ Backtesting.b_successful
       (Backtesting.evaluateResult fetchCandles result config)
     = JS.le (JS.ofZ 0) (Backtesting.successThreshold config).
Proof.
  intros H.
  assert (Backtesting.getFuturePriceChanges fetchCandles (r_symbol result)
          = Backtesting.noChanges) as Hz.
  { unfold Backtesting.getFuturePriceChanges.
    destruct H as [-> | (candles & -> & Hlen)]; [reflexivity|].
    destruct candles as [|c [|c' l]]; [reflexivity | reflexivity|].
    unfold JS.len in Hlen. cbn [length] in Hlen. lia. }
  unfold Backtesting.evaluateResult.
  cbn [Backtesting.b_successful Backtesting.b_changes]. rewrite Hz.
  split; reflexivity.
Qed.

Lemma evaluateResult_without_future_witness :
  Backtesting.b_changes
    (Backtesting.evaluateResult Sample.fetch (Sample.calm "DOWNUSDT")
       (Backtesting.mkBacktestConfig (JS.ofZ 70) (JS.ofZ (-5))))
  = Backtesting.noChanges
  /\ Backtesting.b_successful
       (Backtesting.evaluateResult Sample.fetch (Sample.calm "DOWNUSDT")
          (Backtesting.mkBacktestConfig (JS.ofZ 70) (JS.ofZ (-5))))
     = JS.le (JS.ofZ 0)
         (Backtesting.successThreshold
            (Backtesting.mkBacktestConfig (JS.ofZ 70) (JS.ofZ (-5)))).
Proof.
  apply (evaluateResult_without_future Sample.fetch (Sample.calm "DOWNUSDT")
           (Backtesting.mkBacktestConfig (JS.ofZ 70) (JS.ofZ (-5)))).
  left. reflexivity.
Defined.

(** X22.  Every result of [runDailyBacktest] is for a symbol of the
    gainers list, in the order of the list, and carries a probability
    that is a percentage at or above [minProbability]. *)
Theorem runDailyBacktest_results
    (Math_sqrt : JS.number -> JS.number)
    (fetchCandles : string -> string -> Z -> Analyzer.Fetched)
    (now : JS.number) (gainersList : list GainerInfo)
    (config : Backtesting.BacktestConfig) :
  let results :=
    Backtesting.runDailyBacktest Math_sqrt fetchCandles now gainersList
                                 config in
  sublist (map Backtesting.b_symbol results) (map g_symbol gainersList)
  /\ Forall (fun b =>
               JS.ge (Backtesting.b_probability b)
                     (Backtesting.minProbability config) = true
               /\ percentage (Backtesting.b_probability b)) results.
Proof.
  cbv zeta. unfold Backtesting.runDailyBacktest.
  destruct gainersList as [|g gs]; [split; [reflexivity | constructor]|].
  set (symbols := map gainerSymbolInfo (g :: gs)).
  destruct (analyzeSymbols_loop Math_sqrt fetchCandles now "1h" symbols
              [] [] []) as (_ & Hsym & _ & _ & Hperc); [constructor..|].
  fold (Analyzer.analyzeSymbols Math_sqrt fetchCandles now symbols "1h")
    in Hsym, Hperc.
  cbn [map app] in Hsym.
  set (rs := (Analyzer.analyzeSymbols Math_sqrt fetchCandles now symbols
                                      "1h").1) in *.
  split.
  - rewrite map_map. cbn [Backtesting.evaluateResult Backtesting.b_symbol].
    transitivity (map r_symbol rs).
    + clear. induction rs as [|r rs IH]; [reflexivity|].
      cbn [List.filter map]. destruct (JS.ge _ _); cbn [map].
      * apply sublist_skip, IH.
      * apply sublist_cons, IH.
    + rewrite Hsym. subst symbols. clear.
      induction (g :: gs) as [|a l IH]; [reflexivity|].
      cbn [map List.filter].
      destruct (analysable fetchCandles "1h" (gainerSymbolInfo a));
        cbn [map].
      * apply sublist_skip, IH.
      * apply sublist_cons, IH.
  - apply Forall_forall. intros b Hb.
    apply list_elem_of_In, in_map_iff in Hb as (r & <- & Hr).
    apply filter_In in Hr as [Hr Hge].
    cbn [Backtesting.evaluateResult Backtesting.b_probability].
    split; [exact Hge|].
    rewrite Forall_forall in Hperc. apply Hperc, list_elem_of_In, Hr.
Qed.

(** X23.  The success rate printed by [runBacktest] is a percentage
    whenever there is a result; on no result it would be NaN, which is
    why the source prints it only for a non-empty array. *)
Theorem successRate_is_percentage
    (results : list Backtesting.BacktestResult) :
  (results <> [] -> percentage (Backtesting.successRate results))
  /\ Backtesting.successRate [] = JS.NaN
  /\ 0 <= Backtesting.successCount results <= JS.len results.
Proof.
  split; [|split; [reflexivity | apply filter_length_le]].
  intros Hne. unfold Backtesting.successRate.
  apply share_percentage; [apply filter_length_le|].
  destruct results; [congruence|]. unfold JS.len. cbn [length]. lia.
Qed.

(** ** The MACD arrays and the divergence check *)

Section Divergence.
Import JS Technical Analysis.



End Divergence.




(** ** The RSI values *)

Section RSIValues.
Import JS Technical.
Local Open Scope Qc_scope.








End RSIValues.


